(** * Coffelist auth service: passkey (WebAuthn) ceremonies

    A shallow embedding of [services/auth/src/server.js]: the two base64url
    helpers, the four ceremony handlers ([POST /register/start],
    [POST /register/verify], [POST /login/start], [POST /login/verify]),
    the session routes, the two tables the handlers read and write
    ([users], [credentials]) with the constraints of their migrations, and
    the interleaving of two [POST /login/verify] requests at their [await]
    points.

    The WebAuthn library ([@simplewebauthn/server]) is an interface here:
    every theorem about a handler holds for every implementation of it.

    What the model takes from outside server.js:
    - [req.body] is an object whose fields are strings (a WebAuthn response
      for [credential]) or absent, as the front end posts them; in
      particular [credential.rawId] is a string, the identifier of the
      credential in base64url when the page posts it;
    - a string is the sequence of the bytes of its UTF-8 encoding;
    - a statement fails when a constraint of the migrations fails, and
      only then; a transaction works on a copy of the tables that COMMIT
      publishes and ROLLBACK drops; a value VARCHAR(255) does not take is
      refused before an id is drawn for its row;
    - [req.session] is what the session store held when the request
      arrived, and is saved when the response ends;
    - a call of the library is a function of its arguments (and, for the
      two generators, of the randomness of the call): it returns or throws;
    - [Buffer] encodes and decodes base64 as Node does.

    The passkey flows of the page that calls these routes
    ([services/frontend/src/app.js]: [checkSession], [registerWithPasskey],
    [loginWithPasskey], [logout] and the functions they call) are embedded
    too, run against the handlers. Of the browser the model takes:
    - the elements the code gets by id exist, and an element is the
      properties the code sets on it;
    - [startRegistration] and [startAuthentication] resolve with a
      credential or reject, as the authenticator and the user decide;
    - a [fetch] is delivered and answered, or rejects, before or after the
      service has handled it;
    - a function passed to [setTimeout] is recorded with its delay and not
      run; what the code writes to the console is left out. *)

From Stdlib Require Import NArith ZArith List String Ascii Bool Lia.
From Stdlib Require Strings.Byte.
Import ListNotations.
Local Open Scope string_scope.

(* ================================================================== *)
(** * Part I: definitions *)
(* ================================================================== *)

(** ** Node.js built-ins used by the helpers *)

Module Node.
Local Open Scope N_scope.

(** A [Buffer] (or [Uint8Array]) is its sequence of bytes. *)
Definition Buffer : Type := list Byte.byte.

Definition byte_of_N (n : N) : Byte.byte :=
  match Byte.of_N (n mod 256) with
  | Some b => b
  | None => Byte.x00
  end.

(** The base64 alphabet of RFC 4648, by sextet value. *)
Definition base64_alphabet : string :=
  "ABCDEFGHIJKLMNOPQRSTUVWXYZabcdefghijklmnopqrstuvwxyz0123456789+/".

Definition base64_char (i : N) : ascii :=
  match String.get (N.to_nat i) base64_alphabet with
  | Some c => c
  | None => "="%char
  end.

(** [buf.toString('base64')]: three bytes give four characters; a tail of
    one or two bytes is padded with [=]. *)
Fixpoint toString_base64 (buf : Buffer) : string :=
  match buf with
  | [] => ""
  | [x] =>
      let a := Byte.to_N x in
      String (base64_char (a / 4))
        (String (base64_char ((a mod 4) * 16)) "==")
  | [x; y] =>
      let a := Byte.to_N x in
      let b := Byte.to_N y in
      String (base64_char (a / 4))
        (String (base64_char ((a mod 4) * 16 + b / 16))
           (String (base64_char ((b mod 16) * 4)) "="))
  | x :: y :: z :: rest =>
      let a := Byte.to_N x in
      let b := Byte.to_N y in
      let c := Byte.to_N z in
      String (base64_char (a / 4))
        (String (base64_char ((a mod 4) * 16 + b / 16))
           (String (base64_char ((b mod 16) * 4 + c / 64))
              (String (base64_char (c mod 64)) (toString_base64 rest))))
  end.

(** Node's decoding table: the standard and the URL-safe alphabet are both
    accepted; every other character has no value. *)
Definition unbase64 (c : ascii) : option N :=
  let n := N_of_ascii c in
  if (65 <=? n) && (n <=? 90) then Some (n - 65)
  else if (97 <=? n) && (n <=? 122) then Some (n - 71)
  else if (48 <=? n) && (n <=? 57) then Some (n + 4)
  else if (n =? 43) || (n =? 45) then Some 62
  else if (n =? 47) || (n =? 95) then Some 63
  else None.

(** Node's decoder is forgiving: it skips characters without a value and
    stops at the first [=]. *)
Fixpoint base64_sextets (s : string) : list N :=
  match s with
  | EmptyString => []
  | String c s' =>
      if (c =? "=")%char then []
      else match unbase64 c with
           | Some v => v :: base64_sextets s'
           | None => base64_sextets s'
           end
  end.

(** Four sextets give three bytes; two or three trailing sextets give one
    or two bytes; a single trailing sextet gives none. *)
Fixpoint bytes_of_sextets (l : list N) : Buffer :=
  match l with
  | a :: b :: c :: d :: rest =>
      byte_of_N (a * 4 + b / 16)
        :: byte_of_N ((b mod 16) * 16 + c / 4)
        :: byte_of_N ((c mod 4) * 64 + d)
        :: bytes_of_sextets rest
  | [a; b; c] =>
      [byte_of_N (a * 4 + b / 16); byte_of_N ((b mod 16) * 16 + c / 4)]
  | [a; b] => [byte_of_N (a * 4 + b / 16)]
  | _ => []
  end.

(** [Buffer.from(s)] for a string [s]: the bytes of its UTF-8 encoding.
    A string of the model is the sequence of the bytes of its UTF-8
    encoding, so these are its bytes. *)
Definition from_string (s : string) : Buffer := list_byte_of_string s.

(** [Buffer.from(s, 'base64')]. *)
Definition from_base64 (s : string) : Buffer :=
  bytes_of_sextets (base64_sextets s).

(** [s.replace(/c/g, d)] for single characters [c] and [d]. *)
Fixpoint replace_char (c d : ascii) (s : string) : string :=
  match s with
  | EmptyString => EmptyString
  | String x s' => String (if (x =? c)%char then d else x) (replace_char c d s')
  end.

(** [s.replace(/c/g, '')]. *)
Fixpoint remove_char (c : ascii) (s : string) : string :=
  match s with
  | EmptyString => EmptyString
  | String x s' =>
      if (x =? c)%char then remove_char c s' else String x (remove_char c s')
  end.

(** [s.repeat(n)]. *)
Fixpoint repeat_string (s : string) (n : nat) : string :=
  match n with
  | O => EmptyString
  | S n' => (s ++ repeat_string s n')%string
  end.

End Node.

(** ** The helpers of server.js *)

(** [function base64urlToBuffer(base64url)], server.js lines 68-72. *)
Definition base64urlToBuffer (base64url : string) : Node.Buffer :=
  let base64 := Node.replace_char "_" "/" (Node.replace_char "-" "+" base64url) in
  let padLen := ((4 - (String.length base64 mod 4)) mod 4)%nat in
  Node.from_base64 (base64 ++ Node.repeat_string "=" padLen).

(** [function bufferToBase64url(buffer)], server.js lines 75-81.
    [Buffer.from(buffer)] copies a buffer; of a string it takes the UTF-8
    bytes ([Node.from_string]), which a caller that passes a string writes
    out. *)
Definition bufferToBase64url (buffer : Node.Buffer) : string :=
  Node.remove_char "="
    (Node.replace_char "/" "_"
       (Node.replace_char "+" "-" (Node.toString_base64 buffer))).

(** ** JavaScript values *)

Module JS.

(** A thrown [Error]; only its message is kept. *)
Inductive error : Type := Error (message : string).

(** How the evaluation of an expression or an awaited promise ends. *)
Inductive completion (A : Type) : Type :=
| Normal (value : A)
| Throw (e : error).
Arguments Normal {A} value.
Arguments Throw {A} e.

(** Truthiness of a value that is a string or [undefined]: the empty
    string is falsy. *)
Definition truthy (v : option string) : bool :=
  match v with
  | Some s => negb (s =? "")
  | None => false
  end.

(** Truthiness of a value that is a number or [undefined]: zero is falsy. *)
Definition truthy_number (v : option Z) : bool :=
  match v with
  | Some n => negb (n =? 0)%Z
  | None => false
  end.

(** [v || d] for a value that is an array or [undefined] (every array is
    truthy). *)
Definition or_array {A : Type} (v : option (list A)) (d : list A) : list A :=
  match v with
  | Some a => a
  | None => d
  end.

End JS.

(** ** The WebAuthn data the handlers exchange with the library *)

Module WebAuthn.
Import Node.

(** What the authenticator signs, as far as the claims speak of it. The
    signature is symbolic: [signedBy] is the public key whose private half
    produced it. *)
Record client_data : Type := {
  cd_type : string;
  cd_challenge : string;
  cd_origin : string }.

Record authenticator_data : Type := {
  ad_rpId : string;
  ad_userPresent : bool;
  ad_signCount : Z;
  ad_attestedCredential : option (Buffer * Buffer) }.

(** [req.body.credential]: the JSON the browser posts to a verify route.
    JSON carries no bytes: [rawId] is a string, and the page posts in it
    what [startRegistration] and [startAuthentication] resolve with, the
    identifier of the credential in base64url. *)
Record credential : Type := {
  rawId : string;
  clientDataJSON : client_data;
  authenticatorData : authenticator_data;
  signedBy : Buffer;
  transports : option (list string) }.

(** Arguments and results of [generateRegistrationOptions]. *)
Record registration_options_args : Type := {
  roa_rpName : string;
  roa_rpID : string;
  roa_userID : string;
  roa_userName : string;
  roa_userDisplayName : string;
  roa_attestationType : string;
  roa_residentKey : string;
  roa_userVerification : string }.

Record creation_options : Type := {
  co_challenge : string;
  co_args : registration_options_args }.

(** Arguments and results of [generateAuthenticationOptions]. *)
Record allow_credential : Type := {
  ac_id : Buffer;
  ac_type : string;
  ac_transports : list string }.

Record authentication_options_args : Type := {
  aoa_rpID : string;
  aoa_userVerification : string;
  aoa_allowCredentials : option (list allow_credential) }.

Record request_options : Type := {
  ro_challenge : string;
  ro_args : authentication_options_args }.

(** Arguments and results of [verifyRegistrationResponse]. *)
Record verify_registration_args : Type := {
  vr_response : option credential;
  vr_expectedChallenge : string;
  vr_expectedOrigin : string;
  vr_expectedRPID : string }.

Record registration_info : Type := {
  credentialPublicKey : Buffer;
  credentialID : Buffer;
  counter : Z }.

Record verified_registration : Type := {
  reg_verified : bool;
  registrationInfo : option registration_info }.

(** Arguments and results of [verifyAuthenticationResponse]. *)
Record authenticator_device : Type := {
  dev_credentialID : Buffer;
  dev_credentialPublicKey : Buffer;
  dev_counter : Z }.

Record verify_authentication_args : Type := {
  va_response : option credential;
  va_expectedChallenge : string;
  va_expectedOrigin : string;
  va_expectedRPID : string;
  va_authenticator : authenticator_device }.

Record authentication_info : Type := { newCounter : Z }.

Record verified_authentication : Type := {
  auth_verified : bool;
  authenticationInfo : authentication_info }.

(** The four functions server.js imports from [@simplewebauthn/server].
    The library is not part of the repository: the handlers are defined,
    and the theorems proved, for every implementation of this interface.
    The two generators draw a random challenge; their first argument is
    the randomness of the call. A call may throw. *)
Class Server : Type := {
  generateRegistrationOptions :
    string -> registration_options_args -> JS.completion creation_options;
  verifyRegistrationResponse :
    verify_registration_args -> JS.completion verified_registration;
  generateAuthenticationOptions :
    string -> authentication_options_args -> JS.completion request_options;
  verifyAuthenticationResponse :
    verify_authentication_args -> JS.completion verified_authentication }.

End WebAuthn.

(** ** The tables of the migrations and the statements of server.js *)

Module Pg.
Local Open Scope Z_scope.

(** [users] (001_add_users.sql); [created_at] is read by no handler and
    is left out. *)
Record users_row : Type := {
  id : Z;
  username : string;
  email : string }.

(** [credentials] (004_add_credentials_table.sql). The [transports]
    column holds [JSON.stringify] of an array of strings, or NULL; the
    model keeps the array, which is what [JSON.parse] gives back. *)
Record credentials_row : Type := {
  cred_id : Z;
  user_id : Z;
  credential_id : string;
  public_key : string;
  counter : Z;
  transports : option (list string) }.

Record tables : Type := {
  users : list users_row;
  credentials : list credentials_row }.

(** The committed tables, the open transaction of the client a handler
    checked out (its working copy of the tables, [None] when it has no
    transaction), and the two SERIAL sequences, which a rollback does not
    rewind. *)
Record database : Type := {
  committed : tables;
  transaction : option tables;
  users_id_seq : Z;
  credentials_id_seq : Z }.

Definition with_committed (t : tables) (d : database) : database :=
  {| committed := t; transaction := transaction d;
     users_id_seq := users_id_seq d; credentials_id_seq := credentials_id_seq d |}.

Definition with_transaction (t : option tables) (d : database) : database :=
  {| committed := committed d; transaction := t;
     users_id_seq := users_id_seq d; credentials_id_seq := credentials_id_seq d |}.

(** What the client sees, and where it writes: its transaction when it has
    one, the committed tables otherwise. *)
Definition working (d : database) : tables :=
  match transaction d with
  | Some t => t
  | None => committed d
  end.

Definition write (t : tables) (d : database) : database :=
  match transaction d with
  | Some _ => with_transaction (Some t) d
  | None => with_committed t d
  end.

(** [BEGIN], [COMMIT], [ROLLBACK]. *)
Definition begin_ (d : database) : database :=
  match transaction d with
  | Some _ => d
  | None => with_transaction (Some (committed d)) d
  end.

Definition commit (d : database) : database :=
  match transaction d with
  | Some t => with_transaction None (with_committed t d)
  | None => d
  end.

Definition rollback (d : database) : database := with_transaction None d.

(** [pool.connect()]: the client a handler checks out has no transaction
    open (the one handler that opens a transaction commits it or rolls it
    back before it releases its client). *)
Definition connect (d : database) : database := with_transaction None d.

(** [SELECT id FROM users WHERE username = $1 OR email = $2]. *)
Definition select_existing_users (un em : string) (t : tables) : list Z :=
  map id (filter (fun u => (username u =? un)%string || (email u =? em)%string) (users t)).

(** A character of a string starts at a byte of its UTF-8 encoding that
    does not continue one (a continuation byte is 10xxxxxx). *)
Definition continues (c : ascii) : bool :=
  ((128 <=? N_of_ascii c) && (N_of_ascii c <? 192))%N.

(** The number of characters of a string, which is what VARCHAR(n)
    limits. *)
Fixpoint char_length (s : string) : nat :=
  match s with
  | EmptyString => O
  | String c s' => ((if continues c then 0 else 1) + char_length s')%nat
  end.

(** The first [n] characters of a string, and what follows them. *)
Fixpoint split_chars (n : nat) (s : string) : string * string :=
  match s with
  | EmptyString => (EmptyString, EmptyString)
  | String c s' =>
      if continues c then
        let (first, excess) := split_chars n s' in (String c first, excess)
      else
        match n with
        | O => (EmptyString, s)
        | S n' => let (first, excess) := split_chars n' s' in (String c first, excess)
        end
  end.

Fixpoint spaces_only (s : string) : bool :=
  match s with
  | EmptyString => true
  | String c s' => (c =? " ")%char && spaces_only s'
  end.

(** Storing a value in a VARCHAR(n) column: a value of at most [n]
    characters is stored as it is; a longer one is refused, unless its
    excess is spaces only, in which case its first [n] characters are
    stored. *)
Definition varchar (n : nat) (s : string) : option string :=
  let (first, excess) := split_chars n s in
  if spaces_only excess then Some first else None.

(** A value that VARCHAR(255) refuses, and what it stores of one it does
    not refuse. *)
Definition too_long (s : string) : bool :=
  match varchar 255 s with
  | Some _ => false
  | None => true
  end.

Definition stored (s : string) : string :=
  match varchar 255 s with
  | Some v => v
  | None => s
  end.

(** [INSERT INTO users (username, email) VALUES ($1, $2) RETURNING ...].
    A value VARCHAR(255) refuses fails the statement when the parameter is
    converted to the type of its column, before a row is formed: no id is
    drawn. Otherwise the id comes from the sequence, and the statement
    fails on the primary key and on the two UNIQUE constraints; the id it
    drew is then spent. *)
Definition insert_user (un em : string) (d : database)
  : JS.completion users_row * database :=
  if too_long un || too_long em then
    (JS.Throw (JS.Error "value too long for type character varying(255)"), d)
  else
    let new_id := users_id_seq d + 1 in
    let d1 := {| committed := committed d; transaction := transaction d;
                 users_id_seq := new_id; credentials_id_seq := credentials_id_seq d |} in
    let t := working d1 in
    let row := {| id := new_id; username := stored un; email := stored em |} in
    if existsb (fun u => id u =? new_id) (users t) then
      (JS.Throw (JS.Error "duplicate key value violates unique constraint users_pkey"), d1)
    else if existsb (fun u => (username u =? stored un)%string) (users t) then
      (JS.Throw (JS.Error "duplicate key value violates unique constraint users_username_key"), d1)
    else if existsb (fun u => (email u =? stored em)%string) (users t) then
      (JS.Throw (JS.Error "duplicate key value violates unique constraint users_email_key"), d1)
    else
      (JS.Normal row,
       write {| users := users t ++ [row]; credentials := credentials t |} d1).

(** [INSERT INTO credentials (user_id, credential_id, public_key, counter,
    transports) VALUES ($1, $2, $3, $4, $5)]: fails on the primary key, on
    UNIQUE (credential_id) and on the foreign key to [users]. *)
Definition insert_credential
    (uid : Z) (cid pk : string) (ctr : Z) (tr : list string) (d : database)
  : JS.completion unit * database :=
  let new_id := credentials_id_seq d + 1 in
  let d1 := {| committed := committed d; transaction := transaction d;
               users_id_seq := users_id_seq d; credentials_id_seq := new_id |} in
  let t := working d1 in
  let row := {| cred_id := new_id; user_id := uid; credential_id := cid;
                public_key := pk; counter := ctr; transports := Some tr |} in
  if existsb (fun c => cred_id c =? new_id) (credentials t) then
    (JS.Throw (JS.Error "duplicate key value violates unique constraint credentials_pkey"), d1)
  else if existsb (fun c => (credential_id c =? cid)%string) (credentials t) then
    (JS.Throw (JS.Error "duplicate key value violates unique constraint credentials_credential_id_key"), d1)
  else if negb (existsb (fun u => id u =? uid) (users t)) then
    (JS.Throw (JS.Error "insert on table credentials violates foreign key constraint"), d1)
  else
    (JS.Normal tt,
     write {| users := users t; credentials := credentials t ++ [row] |} d1).

(** [SELECT c.credential_id, c.transports FROM credentials c JOIN users u
    ON c.user_id = u.id WHERE u.username = $1]. *)
Definition select_credentials_of (un : string) (t : tables)
  : list (string * option (list string)) :=
  flat_map
    (fun c =>
       map (fun _ => (credential_id c, transports c))
         (filter (fun u => (user_id c =? id u) && (username u =? un)%string) (users t)))
    (credentials t).

(** A row of [SELECT c.*, u.id as user_id, u.username, u.email FROM
    credentials c JOIN users u ON c.user_id = u.id WHERE c.credential_id
    = $1]. *)
Record credential_record : Type := {
  cr_credential_id : string;
  cr_public_key : string;
  cr_counter : Z;
  cr_user_id : Z;
  cr_username : string;
  cr_email : string }.

Definition select_credential (cid : string) (t : tables) : list credential_record :=
  flat_map
    (fun c =>
       map (fun u =>
              {| cr_credential_id := credential_id c;
                 cr_public_key := public_key c;
                 cr_counter := counter c;
                 cr_user_id := id u;
                 cr_username := username u;
                 cr_email := email u |})
         (filter (fun u => user_id c =? id u) (users t)))
    (filter (fun c => (credential_id c =? cid)%string) (credentials t)).

(** [UPDATE credentials SET counter = $1 WHERE credential_id = $2]. *)
Definition set_counter (ctr : Z) (c : credentials_row) : credentials_row :=
  {| cred_id := cred_id c; user_id := user_id c; credential_id := credential_id c;
     public_key := public_key c; counter := ctr; transports := transports c |}.

Definition update_counter (ctr : Z) (cid : string) (t : tables) : tables :=
  {| users := users t;
     credentials :=
       map (fun c => if (credential_id c =? cid)%string then set_counter ctr c else c)
         (credentials t) |}.

End Pg.

(** ** Requests, responses and the session *)

(** [req.body], as the front end posts it: each field a string (or, for
    [credential], a WebAuthn response) or absent. *)
Module Request.
Record body : Type := {
  username : option string;
  email : option string;
  credential : option WebAuthn.credential }.

(** What a start route draws from the clock and the random generators:
    [Date.now()] in decimal, [Math.random().toString(36).substr(2, 9)], and
    the randomness the library makes the challenge from. *)
Record ambient : Type := {
  date_now : string;
  math_random : string;
  entropy : string }.
End Request.

(** [req.session]: the two ceremony fields and the two fields of an
    authenticated session; a field that is not set is [None]. *)
Module Session.
Record registration_user : Type := {
  ru_userId : string;
  ru_username : string;
  ru_email : string }.

Record t : Type := {
  currentChallenge : option string;
  registrationUser : option registration_user;
  userId : option Z;
  username : option string }.

Definition empty : t :=
  {| currentChallenge := None; registrationUser := None;
     userId := None; username := None |}.
End Session.

Module Response.
Record user : Type := {
  id : Z;
  username : string;
  email : string }.

(** The JSON bodies server.js sends. *)
Inductive json : Type :=
| error (message : string)
| creation_options (o : WebAuthn.creation_options)
| request_options (o : WebAuthn.request_options)
| verified (u : user)
| authenticated (id : Z) (username : option string)
| not_authenticated
| logged_out.

Record t : Type := {
  status : Z;
  body : json }.

(** [res.status(code).json(b)] and [res.json(b)]. *)
Definition status_json (code : Z) (b : json) : t := {| status := code; body := b |}.
Definition json_ (b : json) : t := {| status := 200; body := b |}.
End Response.

(** ** Handlers run on the database and the request's session *)

Record world : Type := {
  db : Pg.database;
  session : Session.t }.

(** An [async] function body: it may change the world, and completes
    normally or throws; what it changed before it threw stays changed. *)
Definition Async (A : Type) : Type := world -> JS.completion A * world.

Definition ret {A : Type} (a : A) : Async A := fun w => (JS.Normal a, w).

Definition bind {A B : Type} (m : Async A) (k : A -> Async B) : Async B :=
  fun w =>
    match m w with
    | (JS.Normal a, w') => k a w'
    | (JS.Throw e, w') => (JS.Throw e, w')
    end.

Definition throw {A : Type} (e : JS.error) : Async A := fun w => (JS.Throw e, w).

(** [await] of a library call. *)
Definition await {A : Type} (c : JS.completion A) : Async A := fun w => (c, w).

(** [try { body } catch (e) { handler }]. *)
Definition try_catch {A : Type} (body : Async A) (handler : JS.error -> Async A) : Async A :=
  fun w =>
    match body w with
    | (JS.Normal a, w') => (JS.Normal a, w')
    | (JS.Throw e, w') => handler e w'
    end.

(** [try { body } finally { fin }]. *)
Definition try_finally {A : Type} (body : Async A) (fin : Async unit) : Async A :=
  fun w =>
    match body w with
    | (r, w') =>
        match fin w' with
        | (JS.Normal _, w'') => (r, w'')
        | (JS.Throw e, w'') => (JS.Throw e, w'')
        end
    end.

Declare Scope async_scope.
Delimit Scope async_scope with async.
Notation "x <- m ;; k" := (bind m (fun x => k))
  (at level 61, m at next level, right associativity) : async_scope.
Notation "m ;; k" := (bind m (fun _ => k))
  (at level 61, right associativity) : async_scope.
Local Open Scope async_scope.

Definition with_db (d : Pg.database) (w : world) : world :=
  {| db := d; session := session w |}.

Definition with_session (s : Session.t) (w : world) : world :=
  {| db := db w; session := s |}.

(** [await pool.query(...)] for a SELECT and for an UPDATE: the pool runs
    the statement on the committed tables. *)
Definition pool_select {A : Type} (q : Pg.tables -> A) : Async A :=
  fun w => (JS.Normal (q (Pg.committed (db w))), w).

Definition pool_update (q : Pg.tables -> Pg.tables) : Async unit :=
  fun w => (JS.Normal tt, with_db (Pg.with_committed (q (Pg.committed (db w))) (db w)) w).

(** [await pool.connect()], [await client.query(...)], [client.release()]. *)
Definition pool_connect : Async unit :=
  fun w => (JS.Normal tt, with_db (Pg.connect (db w)) w).

Definition client_query {A : Type}
    (q : Pg.database -> JS.completion A * Pg.database) : Async A :=
  fun w => let (r, d) := q (db w) in (r, with_db d w).

Definition client_command (q : Pg.database -> Pg.database) : Async unit :=
  fun w => (JS.Normal tt, with_db (q (db w)) w).

Definition client_release : Async unit := ret tt.

(** Reads and writes of [req.session]. *)
Definition session_get {A : Type} (field : Session.t -> A) : Async A :=
  fun w => (JS.Normal (field (session w)), w).

Definition session_update (f : Session.t -> Session.t) : Async unit :=
  fun w => (JS.Normal tt, with_session (f (session w)) w).

Definition set_currentChallenge (v : option string) (s : Session.t) : Session.t :=
  {| Session.currentChallenge := v;
     Session.registrationUser := Session.registrationUser s;
     Session.userId := Session.userId s;
     Session.username := Session.username s |}.

Definition set_registrationUser (v : option Session.registration_user) (s : Session.t)
  : Session.t :=
  {| Session.currentChallenge := Session.currentChallenge s;
     Session.registrationUser := v;
     Session.userId := Session.userId s;
     Session.username := Session.username s |}.

Definition set_userId (v : option Z) (s : Session.t) : Session.t :=
  {| Session.currentChallenge := Session.currentChallenge s;
     Session.registrationUser := Session.registrationUser s;
     Session.userId := v;
     Session.username := Session.username s |}.

Definition set_username (v : option string) (s : Session.t) : Session.t :=
  {| Session.currentChallenge := Session.currentChallenge s;
     Session.registrationUser := Session.registrationUser s;
     Session.userId := Session.userId s;
     Session.username := v |}.

(** Reading a property of [credential], which throws a TypeError when
    [credential] is [undefined]. *)
Definition property {A : Type} (c : option WebAuthn.credential)
    (field : WebAuthn.credential -> A) : Async A :=
  match c with
  | Some cred => ret (field cred)
  | None => throw (JS.Error "Cannot read properties of undefined")
  end.

(** The WebAuthn configuration, server.js lines 63-65. *)
Definition rpName : string := "Coffelist".
Definition rpID : string := "localhost".
Definition origin : string := "http://localhost:8080".

(** The arguments of the two verification calls, server.js lines 175-180
    and 319-329. *)
Definition registration_args (credential : option WebAuthn.credential)
    (expectedChallenge : string) : WebAuthn.verify_registration_args :=
  {| WebAuthn.vr_response := credential;
     WebAuthn.vr_expectedChallenge := expectedChallenge;
     WebAuthn.vr_expectedOrigin := origin;
     WebAuthn.vr_expectedRPID := rpID |}.

Definition authentication_args (credential : option WebAuthn.credential)
    (expectedChallenge : string) (credentialRecord : Pg.credential_record)
  : WebAuthn.verify_authentication_args :=
  {| WebAuthn.va_response := credential;
     WebAuthn.va_expectedChallenge := expectedChallenge;
     WebAuthn.va_expectedOrigin := origin;
     WebAuthn.va_expectedRPID := rpID;
     WebAuthn.va_authenticator :=
       {| WebAuthn.dev_credentialID :=
            base64urlToBuffer (Pg.cr_credential_id credentialRecord);
          WebAuthn.dev_credentialPublicKey :=
            base64urlToBuffer (Pg.cr_public_key credentialRecord);
          WebAuthn.dev_counter := Pg.cr_counter credentialRecord |} |}.

(** The session holds an outstanding challenge. *)
Definition outstanding (s : Session.t) : bool :=
  JS.truthy (Session.currentChallenge s).

(** ** The routes of server.js *)

Section Routes.
Context {lib : WebAuthn.Server}.

(** [app.post('/register/start', ...)], server.js lines 115-161. *)
Definition register_start (amb : Request.ambient) (body : Request.body)
  : Async Response.t :=
  try_catch
    (let username := Request.username body in
     let email := Request.email body in
     match username, email with
     | Some un, Some em =>
         if negb (JS.truthy username) || negb (JS.truthy email) then
           ret (Response.status_json 400 (Response.error "Username and email are required"))
         else
           existingUser <- pool_select (Pg.select_existing_users un em) ;;
           if (0 <? List.length existingUser)%nat then
             ret (Response.status_json 409 (Response.error "Username or email already exists"))
           else
             let userId :=
               "user_" ++ Request.date_now amb ++ "_" ++ Request.math_random amb in
             options <- await (WebAuthn.generateRegistrationOptions (Request.entropy amb)
                          {| WebAuthn.roa_rpName := rpName;
                             WebAuthn.roa_rpID := rpID;
                             WebAuthn.roa_userID := userId;
                             WebAuthn.roa_userName := un;
                             WebAuthn.roa_userDisplayName := un;
                             WebAuthn.roa_attestationType := "none";
                             WebAuthn.roa_residentKey := "preferred";
                             WebAuthn.roa_userVerification := "preferred" |}) ;;
             session_update (set_currentChallenge (Some (WebAuthn.co_challenge options))) ;;
             session_update (set_registrationUser
               (Some {| Session.ru_userId := userId;
                        Session.ru_username := un;
                        Session.ru_email := em |})) ;;
             ret (Response.json_ (Response.creation_options options))
     | _, _ =>
         ret (Response.status_json 400 (Response.error "Username and email are required"))
     end)
    (fun error =>
       ret (Response.status_json 500 (Response.error "Failed to start registration"))).

(** The transaction of [/register/verify], server.js lines 188-237. *)
Definition register_transaction (credential : option WebAuthn.credential)
    (userData : Session.registration_user) (info : WebAuthn.registration_info)
  : Async Response.t :=
  pool_connect ;;
  try_finally
    (try_catch
       (client_command Pg.begin_ ;;
        user <- client_query
                  (Pg.insert_user (Session.ru_username userData)
                     (Session.ru_email userData)) ;;
        transports <- property credential WebAuthn.transports ;;
        client_query
          (Pg.insert_credential (Pg.id user)
             (bufferToBase64url (WebAuthn.credentialID info))
             (bufferToBase64url (WebAuthn.credentialPublicKey info))
             (WebAuthn.counter info)
             (JS.or_array transports [])) ;;
        client_command Pg.commit ;;
        session_update (set_currentChallenge None) ;;
        session_update (set_registrationUser None) ;;
        session_update (set_userId (Some (Pg.id user))) ;;
        session_update (set_username (Some (Pg.username user))) ;;
        ret (Response.json_ (Response.verified
               {| Response.id := Pg.id user;
                  Response.username := Pg.username user;
                  Response.email := Pg.email user |})))
       (fun dbError => client_command Pg.rollback ;; throw dbError))
    client_release.

(** [app.post('/register/verify', ...)], server.js lines 164-242. *)
Definition register_verify (body : Request.body) : Async Response.t :=
  try_catch
    (let credential := Request.credential body in
     expectedChallenge <- session_get Session.currentChallenge ;;
     userData <- session_get Session.registrationUser ;;
     match expectedChallenge, userData with
     | Some challenge, Some userData =>
         if negb (JS.truthy expectedChallenge) then
           ret (Response.status_json 400 (Response.error "No registration in progress"))
         else
           verification <- await (WebAuthn.verifyRegistrationResponse
                             (registration_args credential challenge)) ;;
           match WebAuthn.reg_verified verification, WebAuthn.registrationInfo verification with
           | true, Some info => register_transaction credential userData info
           | _, _ =>
               ret (Response.status_json 400 (Response.error "Verification failed"))
           end
     | _, _ =>
         ret (Response.status_json 400 (Response.error "No registration in progress"))
     end)
    (fun error =>
       ret (Response.status_json 500 (Response.error "Failed to verify registration"))).

(** One entry of [allowCredentials], server.js lines 267-271. *)
Definition allow_credential_of (row : string * option (list string))
  : WebAuthn.allow_credential :=
  {| WebAuthn.ac_id := base64urlToBuffer (fst row);
     WebAuthn.ac_type := "public-key";
     WebAuthn.ac_transports := JS.or_array (snd row) [] |}.

(** The second half of [/login/start]: lines 274-284. *)
Definition login_start_options (amb : Request.ambient)
    (allowCredentials : option (list WebAuthn.allow_credential)) : Async Response.t :=
  options <- await (WebAuthn.generateAuthenticationOptions (Request.entropy amb)
               {| WebAuthn.aoa_rpID := rpID;
                  WebAuthn.aoa_userVerification := "preferred";
                  WebAuthn.aoa_allowCredentials := allowCredentials |}) ;;
  session_update (set_currentChallenge (Some (WebAuthn.ro_challenge options))) ;;
  ret (Response.json_ (Response.request_options options)).

(** [app.post('/login/start', ...)], server.js lines 247-289. *)
Definition login_start (amb : Request.ambient) (body : Request.body)
  : Async Response.t :=
  try_catch
    (let username := Request.username body in
     match username with
     | Some un =>
         if JS.truthy username then
           result <- pool_select (Pg.select_credentials_of un) ;;
           if (List.length result =? 0)%nat then
             ret (Response.status_json 404 (Response.error "User not found"))
           else
             login_start_options amb (Some (map allow_credential_of result))
         else login_start_options amb None
     | None => login_start_options amb None
     end)
    (fun error =>
       ret (Response.status_json 500 (Response.error "Failed to start authentication"))).

(** [app.post('/login/verify', ...)], server.js lines 292-360. *)
Definition login_verify (body : Request.body) : Async Response.t :=
  try_catch
    (let credential := Request.credential body in
     expectedChallenge <- session_get Session.currentChallenge ;;
     match expectedChallenge with
     | Some challenge =>
         if negb (JS.truthy expectedChallenge) then
           ret (Response.status_json 400 (Response.error "No authentication in progress"))
         else
           rawId <- property credential WebAuthn.rawId ;;
           let credentialID := bufferToBase64url (Node.from_string rawId) in
           result <- pool_select (Pg.select_credential credentialID) ;;
           match result with
           | [] => ret (Response.status_json 404 (Response.error "Credential not found"))
           | credentialRecord :: _ =>
               verification <- await (WebAuthn.verifyAuthenticationResponse
                                 (authentication_args credential challenge credentialRecord)) ;;
               if negb (WebAuthn.auth_verified verification) then
                 ret (Response.status_json 400 (Response.error "Verification failed"))
               else
                 pool_update
                   (Pg.update_counter
                      (WebAuthn.newCounter (WebAuthn.authenticationInfo verification))
                      credentialID) ;;
                 session_update (set_currentChallenge None) ;;
                 session_update (set_userId (Some (Pg.cr_user_id credentialRecord))) ;;
                 session_update (set_username (Some (Pg.cr_username credentialRecord))) ;;
                 ret (Response.json_ (Response.verified
                        {| Response.id := Pg.cr_user_id credentialRecord;
                           Response.username := Pg.cr_username credentialRecord;
                           Response.email := Pg.cr_email credentialRecord |}))
           end
     | None =>
         ret (Response.status_json 400 (Response.error "No authentication in progress"))
     end)
    (fun error =>
       ret (Response.status_json 500 (Response.error "Failed to verify authentication"))).

(** [app.get('/session', ...)], server.js lines 365-377. *)
Definition get_session : Async Response.t :=
  userId <- session_get Session.userId ;;
  username <- session_get Session.username ;;
  match userId with
  | Some uid =>
      if JS.truthy_number userId then
        ret (Response.json_ (Response.authenticated uid username))
      else ret (Response.json_ Response.not_authenticated)
  | None => ret (Response.json_ Response.not_authenticated)
  end.

(** [app.post('/logout', ...)], server.js lines 380-387: [destroy] drops
    the whole session. *)
Definition logout : Async Response.t :=
  session_update (fun _ => Session.empty) ;;
  ret (Response.json_ Response.logged_out).

(** A request to one of the routes. *)
Inductive call : Type :=
| RegisterStart (amb : Request.ambient) (body : Request.body)
| RegisterVerify (body : Request.body)
| LoginStart (amb : Request.ambient) (body : Request.body)
| LoginVerify (body : Request.body)
| GetSession
| Logout.

Definition run (c : call) : Async Response.t :=
  match c with
  | RegisterStart amb body => register_start amb body
  | RegisterVerify body => register_verify body
  | LoginStart amb body => login_start amb body
  | LoginVerify body => login_verify body
  | GetSession => get_session
  | Logout => logout
  end.

Definition is_start (c : call) : bool :=
  match c with
  | RegisterStart _ _ | LoginStart _ _ => true
  | _ => false
  end.

Definition is_verify (c : call) : bool :=
  match c with
  | RegisterVerify _ | LoginVerify _ => true
  | _ => false
  end.

End Routes.

(** ** The error kinds of the spec *)

(** The spec names the failures of the routes; server.js tells them apart
    by status and message. *)
Module Taxonomy.
Inductive kind : Type :=
| ValidationError
| ConflictError
| StateError
| NotFoundError
| VerificationError
| ServerError.

Definition of_response (r : Response.t) : option kind :=
  match Response.body r with
  | Response.error m =>
      if (Response.status r =? 400)%Z then
        if m =? "Username and email are required" then Some ValidationError
        else if (m =? "No registration in progress") || (m =? "No authentication in progress")
        then Some StateError
        else if m =? "Verification failed" then Some VerificationError
        else None
      else if (Response.status r =? 409)%Z then Some ConflictError
      else if (Response.status r =? 404)%Z then Some NotFoundError
      else if (Response.status r =? 500)%Z then Some ServerError
      else None
  | _ => None
  end.
End Taxonomy.

(** ** The vocabulary of the statements *)

(** The rows a registration creates, and the tables with them. *)
Definition user_added (u : Pg.users_row) (t : Pg.tables) : Pg.tables :=
  {| Pg.users := Pg.users t ++ [u]; Pg.credentials := Pg.credentials t |}.

Definition credential_added (c : Pg.credentials_row) (t : Pg.tables) : Pg.tables :=
  {| Pg.users := Pg.users t; Pg.credentials := Pg.credentials t ++ [c] |}.

Definition registered_user (d : Pg.database) (userData : Session.registration_user)
  : Pg.users_row :=
  {| Pg.id := (Pg.users_id_seq d + 1)%Z;
     Pg.username := Pg.stored (Session.ru_username userData);
     Pg.email := Pg.stored (Session.ru_email userData) |}.

Definition registered_credential (d : Pg.database) (u : Pg.users_row)
    (cred : WebAuthn.credential) (info : WebAuthn.registration_info) : Pg.credentials_row :=
  {| Pg.cred_id := (Pg.credentials_id_seq d + 1)%Z;
     Pg.user_id := Pg.id u;
     Pg.credential_id := bufferToBase64url (WebAuthn.credentialID info);
     Pg.public_key := bufferToBase64url (WebAuthn.credentialPublicKey info);
     Pg.counter := WebAuthn.counter info;
     Pg.transports := Some (JS.or_array (WebAuthn.transports cred) []) |}.

(** The answers of the two [catch] blocks, server.js lines 240 and 358. *)
Definition registration_failed : Response.t :=
  Response.status_json 500 (Response.error "Failed to verify registration").

Definition authentication_failed : Response.t :=
  Response.status_json 500 (Response.error "Failed to verify authentication").

(** The [user] of a successful answer: id, username and email. *)
Definition public_fields (u : Pg.users_row) : Response.user :=
  {| Response.id := Pg.id u;
     Response.username := Pg.username u;
     Response.email := Pg.email u |}.

(** The session a successful ceremony leaves: no ceremony field, and the
    user it authenticated. *)
Definition authenticated_as (uid : Z) (un : string) (s : Session.t) : Session.t :=
  set_username (Some un) (set_userId (Some uid) (set_currentChallenge None s)).

(** Every credential row references a user row. *)
Definition references_hold (t : Pg.tables) : Prop :=
  forall c, In c (Pg.credentials t) ->
  exists u, In u (Pg.users t) /\ Pg.id u = Pg.user_id c.

(** The one body of a failed verification, server.js lines 183 and 332. *)
Definition verification_failed : Response.t :=
  Response.status_json 400 (Response.error "Verification failed").

(** The stored counters of a credential identifier. *)
Definition stored_counters (cid : string) (t : Pg.tables) : list Z :=
  map Pg.counter (filter (fun c => Pg.credential_id c =? cid) (Pg.credentials t)).

(** The library was asked about the response of a verify call and returned
    without accepting it; why it did not, it does not say. *)
Definition rejected {lib : WebAuthn.Server} (c : call) (w : world) : Prop :=
  match c with
  | RegisterVerify body =>
      exists ch userData v,
        Session.currentChallenge (session w) = Some ch
        /\ outstanding (session w) = true
        /\ Session.registrationUser (session w) = Some userData
        /\ WebAuthn.verifyRegistrationResponse
             (registration_args (Request.credential body) ch) = JS.Normal v
        /\ (WebAuthn.reg_verified v = false \/ WebAuthn.registrationInfo v = None)
  | LoginVerify body =>
      exists ch cred rec rest v,
        Session.currentChallenge (session w) = Some ch
        /\ outstanding (session w) = true
        /\ Request.credential body = Some cred
        /\ Pg.select_credential (bufferToBase64url (Node.from_string (WebAuthn.rawId cred)))
             (Pg.committed (db w)) = rec :: rest
        /\ WebAuthn.verifyAuthenticationResponse (authentication_args (Some cred) ch rec)
           = JS.Normal v
        /\ WebAuthn.auth_verified v = false
  | _ => False
  end.

(** The library was asked about the response of a verify call and threw. *)
Definition threw {lib : WebAuthn.Server} (c : call) (w : world) : Prop :=
  match c with
  | RegisterVerify body =>
      exists ch userData e,
        Session.currentChallenge (session w) = Some ch
        /\ outstanding (session w) = true
        /\ Session.registrationUser (session w) = Some userData
        /\ WebAuthn.verifyRegistrationResponse
             (registration_args (Request.credential body) ch) = JS.Throw e
  | LoginVerify body =>
      exists ch cred rec rest e,
        Session.currentChallenge (session w) = Some ch
        /\ outstanding (session w) = true
        /\ Request.credential body = Some cred
        /\ Pg.select_credential (bufferToBase64url (Node.from_string (WebAuthn.rawId cred)))
             (Pg.committed (db w)) = rec :: rest
        /\ WebAuthn.verifyAuthenticationResponse (authentication_args (Some cred) ch rec)
           = JS.Throw e
  | _ => False
  end.

(** The answer of a verify route to an exception. *)
Definition verify_failed (c : call) : Response.t :=
  match c with
  | RegisterVerify _ => registration_failed
  | _ => authentication_failed
  end.

(** The worlds the routes can bring about: the credentials table starts
    empty (004_add_credentials_table.sql) beside any users; a request of
    any route may run; and a request may come from another browser, with
    another session. *)
Inductive reachable {lib : WebAuthn.Server} : world -> Prop :=
| reachable_migrated (us : list Pg.users_row) (useq cseq : Z) (s : Session.t) :
    reachable
      {| db := {| Pg.committed := {| Pg.users := us; Pg.credentials := [] |};
                  Pg.transaction := None;
                  Pg.users_id_seq := useq;
                  Pg.credentials_id_seq := cseq |};
         session := s |}
| reachable_call (c : call) (w : world) :
    reachable w -> reachable (snd (run c w))
| reachable_session (s : Session.t) (w : world) :
    reachable w -> reachable (with_session s w).

(** Two answers of [/login/start], server.js lines 264 and 287. *)
Definition start_failed : Response.t :=
  Response.status_json 500 (Response.error "Failed to start authentication").

Definition user_not_found : Response.t :=
  Response.status_json 404 (Response.error "User not found").

(** A library checks the challenge when it accepts a response only if the
    challenge the response was made for is the expected one. *)
Definition checks_challenge (lib : WebAuthn.Server) : Prop :=
  (forall args v,
     WebAuthn.verifyRegistrationResponse args = JS.Normal v ->
     WebAuthn.reg_verified v = true ->
     exists c, WebAuthn.vr_response args = Some c
               /\ WebAuthn.cd_challenge (WebAuthn.clientDataJSON c)
                  = WebAuthn.vr_expectedChallenge args)
  /\ (forall args v,
        WebAuthn.verifyAuthenticationResponse args = JS.Normal v ->
        WebAuthn.auth_verified v = true ->
        exists c, WebAuthn.va_response args = Some c
                  /\ WebAuthn.cd_challenge (WebAuthn.clientDataJSON c)
                     = WebAuthn.va_expectedChallenge args).

(** The challenge of the options a start route answers with. *)
Definition options_challenge (r : Response.t) : option string :=
  match Response.body r with
  | Response.creation_options o => Some (WebAuthn.co_challenge o)
  | Response.request_options o => Some (WebAuthn.ro_challenge o)
  | _ => None
  end.

(** The challenge the response posted to a verify route was made for. *)
Definition signed_challenge (c : call) : option string :=
  match c with
  | RegisterVerify body | LoginVerify body =>
      option_map (fun cred => WebAuthn.cd_challenge (WebAuthn.clientDataJSON cred))
        (Request.credential body)
  | _ => None
  end.

(** ** [/login/verify] between its [await] points *)

(** The handler of [/login/verify] gives up control at its three [await]s
    (the SELECT, the library call, the UPDATE); other requests run in
    between. A request is at one of these points, with the local variables
    that are live there. *)
Module Steps.
Section Steps.
Context {lib : WebAuthn.Server}.

Inductive task : Type :=
| AtEntry (body : Request.body)
| AfterSelect (challenge : string) (credential : option WebAuthn.credential)
    (credentialID : string) (result : list Pg.credential_record)
| AfterVerify (credentialID : string) (credentialRecord : Pg.credential_record)
    (verification : JS.completion WebAuthn.verified_authentication)
| AfterUpdate (credentialRecord : Pg.credential_record)
| Responded (r : Response.t).

(** One stretch of the handler, from one [await] to the next; a database
    statement runs at the end of the stretch that issues it. *)
Definition step (t : task) (w : world) : task * world :=
  match t with
  | AtEntry body =>
      match Session.currentChallenge (session w) with
      | Some challenge =>
          if negb (JS.truthy (Some challenge)) then
            (Responded (Response.status_json 400
               (Response.error "No authentication in progress")), w)
          else
            match Request.credential body with
            | Some cred =>
                let credentialID :=
                  bufferToBase64url (Node.from_string (WebAuthn.rawId cred)) in
                (AfterSelect challenge (Some cred) credentialID
                   (Pg.select_credential credentialID (Pg.committed (db w))), w)
            | None => (Responded authentication_failed, w)
            end
      | None =>
          (Responded (Response.status_json 400
             (Response.error "No authentication in progress")), w)
      end
  | AfterSelect challenge credential credentialID result =>
      match result with
      | [] =>
          (Responded (Response.status_json 404 (Response.error "Credential not found")), w)
      | credentialRecord :: _ =>
          (AfterVerify credentialID credentialRecord
             (WebAuthn.verifyAuthenticationResponse
                (authentication_args credential challenge credentialRecord)), w)
      end
  | AfterVerify credentialID credentialRecord verification =>
      match verification with
      | JS.Throw _ => (Responded authentication_failed, w)
      | JS.Normal v =>
          if negb (WebAuthn.auth_verified v) then
            (Responded (Response.status_json 400 (Response.error "Verification failed")), w)
          else
            (AfterUpdate credentialRecord,
             with_db
               (Pg.with_committed
                  (Pg.update_counter (WebAuthn.newCounter (WebAuthn.authenticationInfo v))
                     credentialID (Pg.committed (db w)))
                  (db w)) w)
      end
  | AfterUpdate credentialRecord =>
      (Responded (Response.json_ (Response.verified
         {| Response.id := Pg.cr_user_id credentialRecord;
            Response.username := Pg.cr_username credentialRecord;
            Response.email := Pg.cr_email credentialRecord |})),
       with_session
         (set_username (Some (Pg.cr_username credentialRecord))
            (set_userId (Some (Pg.cr_user_id credentialRecord))
               (set_currentChallenge None (session w)))) w)
  | Responded r => (Responded r, w)
  end.

Fixpoint steps (n : nat) (t : task) (w : world) : task * world :=
  match n with
  | O => (t, w)
  | S n' => let (t', w') := step t w in steps n' t' w'
  end.

(** Two requests of one browser session in flight. [req.session] is
    loaded from the session store when a request arrives, and saved back
    when its response ends if the handler changed it ([resave: false]);
    only the last stretch of a successful verification changes it. *)
Record flight : Type := {
  req_session : Session.t;
  at_ : task }.

Record system : Type := {
  sys_db : Pg.database;
  sys_store : Session.t;
  first : flight;
  second : flight }.

Inductive who : Type := First | Second.

Definition advance (s : system) (x : who) : system :=
  let f := match x with First => first s | Second => second s end in
  let sess := match at_ f with AtEntry _ => sys_store s | _ => req_session f end in
  let (t', w') := step (at_ f) {| db := sys_db s; session := sess |} in
  let store' := match at_ f with AfterUpdate _ => session w' | _ => sys_store s end in
  let f' := {| req_session := session w'; at_ := t' |} in
  match x with
  | First => {| sys_db := db w'; sys_store := store'; first := f'; second := second s |}
  | Second => {| sys_db := db w'; sys_store := store'; first := first s; second := f' |}
  end.

(** The requests advance in the order the schedule gives. *)
Definition interleave (schedule : list who) (s : system) : system :=
  fold_left advance schedule s.

(** Both requests arrive with the same body on the same session. *)
Definition both_arrive (body : Request.body) (w : world) : system :=
  {| sys_db := db w; sys_store := session w;
     first := {| req_session := session w; at_ := AtEntry body |};
     second := {| req_session := session w; at_ := AtEntry body |} |}.

Definition response_of (f : flight) : option Response.t :=
  match at_ f with
  | Responded r => Some r
  | _ => None
  end.

(** The schedule in which the two requests take turns. *)
Definition alternating : list who :=
  [First; Second; First; Second; First; Second; First; Second].

End Steps.
End Steps.

(** ** A stand-in for the library, to run the handlers on concrete requests *)

(** The theorems hold for every [WebAuthn.Server]; concrete runs need one.
    This one performs the checks of a WebAuthn verification on the symbolic
    responses above: type, challenge, origin, relying party, user presence,
    the signature counter rule of the WebAuthn standard (a counter that is
    not greater is refused unless both counters are zero), and the
    signature. A failed signature is reported as [verified: false]; the
    other failed checks throw when [throws] is set and are reported as
    [verified: false] otherwise. Of a verified registration it reports the
    identifier and the public key of the attested credential, as bytes,
    and the counter of the response. The generators use the randomness of
    the call as the challenge. *)
Module Stub.
Import WebAuthn.
Section Stub.
Variable throws : bool.

Fixpoint equals (a b : Node.Buffer) : bool :=
  match a, b with
  | [], [] => true
  | x :: a', y :: b' => Byte.eqb x y && equals a' b'
  | _, _ => false
  end.

Definition refuse {A : Type} (unverified : A) (why : string) : JS.completion A :=
  if throws then JS.Throw (JS.Error why) else JS.Normal unverified.

Definition generate_registration (entropy : string) (args : registration_options_args)
  : JS.completion creation_options :=
  JS.Normal {| co_challenge := entropy; co_args := args |}.

Definition generate_authentication (entropy : string) (args : authentication_options_args)
  : JS.completion request_options :=
  JS.Normal {| ro_challenge := entropy; ro_args := args |}.

Definition verify_registration (args : verify_registration_args)
  : JS.completion verified_registration :=
  let no := {| reg_verified := false; registrationInfo := None |} in
  match vr_response args with
  | None => JS.Throw (JS.Error "Missing credential")
  | Some c =>
      let cd := clientDataJSON c in
      let ad := authenticatorData c in
      if negb (cd_type cd =? "webauthn.create") then
        refuse no "Unexpected registration response type"
      else if negb (cd_challenge cd =? vr_expectedChallenge args) then
        refuse no "Unexpected registration response challenge"
      else if negb (cd_origin cd =? vr_expectedOrigin args) then
        refuse no "Unexpected registration response origin"
      else if negb (ad_rpId ad =? vr_expectedRPID args) then
        refuse no "Unexpected RP ID hash"
      else if negb (ad_userPresent ad) then
        refuse no "User not present during registration"
      else
        match ad_attestedCredential ad with
        | None => refuse no "No credential ID was provided by authenticator"
        | Some (cid, pk) =>
            JS.Normal {| reg_verified := true;
                         registrationInfo :=
                           Some {| credentialPublicKey := pk;
                                   credentialID := cid;
                                   counter := ad_signCount ad |} |}
        end
  end.

Definition verify_authentication (args : verify_authentication_args)
  : JS.completion verified_authentication :=
  match va_response args with
  | None => JS.Throw (JS.Error "Missing credential")
  | Some c =>
      let cd := clientDataJSON c in
      let ad := authenticatorData c in
      let dev := va_authenticator args in
      let no := {| auth_verified := false;
                   authenticationInfo := {| newCounter := ad_signCount ad |} |} in
      if negb (cd_type cd =? "webauthn.get") then
        refuse no "Unexpected authentication response type"
      else if negb (cd_challenge cd =? va_expectedChallenge args) then
        refuse no "Unexpected authentication response challenge"
      else if negb (cd_origin cd =? va_expectedOrigin args) then
        refuse no "Unexpected authentication response origin"
      else if negb (ad_rpId ad =? va_expectedRPID args) then
        refuse no "Unexpected RP ID hash"
      else if negb (ad_userPresent ad) then
        refuse no "User not present during authentication"
      else if ((0 <? ad_signCount ad) || (0 <? dev_counter dev))%Z
              && (ad_signCount ad <=? dev_counter dev)%Z then
        refuse no "Response counter value was lower than expected"
      else
        JS.Normal {| auth_verified := equals (signedBy c) (dev_credentialPublicKey dev);
                     authenticationInfo := {| newCounter := ad_signCount ad |} |}
  end.

Definition library : Server :=
  {| generateRegistrationOptions := generate_registration;
     verifyRegistrationResponse := verify_registration;
     generateAuthenticationOptions := generate_authentication;
     verifyAuthenticationResponse := verify_authentication |}.

End Stub.
End Stub.

(** ** Concrete requests and states *)

Module Scenario.
Import WebAuthn.

Definition key : Node.Buffer := [Byte.x01; Byte.x02; Byte.x03].
Definition other_key : Node.Buffer := [Byte.x09].

(** The identifier of the passkey: the four bytes of the text [id01]; in
    base64url it reads [aWQwMQ]. *)
Definition cid : Node.Buffer := [Byte.x69; Byte.x64; Byte.x30; Byte.x31].

(** What an authenticator holding [key] answers to [navigator.credentials
    .create] for a challenge, on a page of origin [from], as
    [startRegistration] posts it: [rawId] is the identifier in
    base64url. *)
Definition attestation (challenge from : string) (signCount : Z) : credential :=
  {| rawId := "aWQwMQ";
     clientDataJSON := {| cd_type := "webauthn.create"; cd_challenge := challenge;
                          cd_origin := from |};
     authenticatorData := {| ad_rpId := rpID; ad_userPresent := true;
                             ad_signCount := signCount;
                             ad_attestedCredential := Some (cid, key) |};
     signedBy := key;
     transports := Some ["internal"] |}.

(** Its answer to [navigator.credentials.get], posted with a given
    [rawId]. *)
Definition assertion_as (rawId : string) (challenge from : string) (signCount : Z)
    (signer : Node.Buffer) : credential :=
  {| rawId := rawId;
     clientDataJSON := {| cd_type := "webauthn.get"; cd_challenge := challenge;
                          cd_origin := from |};
     authenticatorData := {| ad_rpId := rpID; ad_userPresent := true;
                             ad_signCount := signCount;
                             ad_attestedCredential := None |};
     signedBy := signer;
     transports := None |}.

(** The answer of an authenticator that did not test the presence of the
    user, posted like [assertion] below. *)
Definition unattended (challenge from : string) (signCount : Z) (signer : Node.Buffer)
  : credential :=
  {| rawId := "id01";
     clientDataJSON := {| cd_type := "webauthn.get"; cd_challenge := challenge;
                          cd_origin := from |};
     authenticatorData := {| ad_rpId := rpID; ad_userPresent := false;
                             ad_signCount := signCount;
                             ad_attestedCredential := None |};
     signedBy := signer;
     transports := None |}.

(** The answer as the page posts it, with what [startAuthentication]
    resolves with: [rawId] is the identifier in base64url. *)
Definition page_assertion : string -> string -> Z -> Node.Buffer -> credential :=
  assertion_as "aWQwMQ".

(** The answer as a client posts it that puts the identifier itself, as
    text, in [rawId]: the one request for which line 301 computes the
    stored [credential_id] of the passkey. *)
Definition assertion : string -> string -> Z -> Node.Buffer -> credential :=
  assertion_as "id01".

(** The database after the four migrations: the sample users of
    001_add_users.sql and no credential. *)
Definition sample_users : list Pg.users_row :=
  [ {| Pg.id := 1; Pg.username := "james"; Pg.email := "james@bluebottle.com" |};
    {| Pg.id := 2; Pg.username := "duane"; Pg.email := "duane@stumptown.com" |};
    {| Pg.id := 3; Pg.username := "nikhil"; Pg.email := "nikhil@coffelist.com" |} ].

Definition migrated : Pg.database :=
  {| Pg.committed := {| Pg.users := sample_users; Pg.credentials := [] |};
     Pg.transaction := None;
     Pg.users_id_seq := 3;
     Pg.credentials_id_seq := 0 |}.

(** The same after "alice" registered the passkey [(cid, key)], its counter
    now at [ctr]. *)
Definition alice : Pg.users_row :=
  {| Pg.id := 4; Pg.username := "alice"; Pg.email := "alice@example.com" |}.

Definition passkey (ctr : Z) : Pg.credentials_row :=
  {| Pg.cred_id := 1; Pg.user_id := 4; Pg.credential_id := "aWQwMQ";
     Pg.public_key := "AQID"; Pg.counter := ctr; Pg.transports := Some ["internal"] |}.

Definition registered (ctr : Z) : Pg.database :=
  {| Pg.committed := {| Pg.users := sample_users ++ [alice];
                        Pg.credentials := [passkey ctr] |};
     Pg.transaction := None;
     Pg.users_id_seq := 4;
     Pg.credentials_id_seq := 1 |}.

(** Sessions: after [/login/start], and after [/register/start] for alice. *)
Definition logging_in (challenge : string) : Session.t :=
  set_currentChallenge (Some challenge) Session.empty.

Definition registering (challenge : string) : Session.t :=
  set_registrationUser
    (Some {| Session.ru_userId := "user_1700000000000_k3j9x0q2m";
             Session.ru_username := "alice";
             Session.ru_email := "alice@example.com" |})
    (logging_in challenge).

(** A character of two bytes: U+00E9, in UTF-8 the bytes C3 A9. *)
Definition e_acute : string :=
  String (ascii_of_nat 195) (String (ascii_of_nat 169) EmptyString).

(** Request bodies. *)
Definition post (c : credential) : Request.body :=
  {| Request.username := None; Request.email := None; Request.credential := Some c |}.

Definition named (un em : option string) : Request.body :=
  {| Request.username := un; Request.email := em; Request.credential := None |}.

Definition drawing (challenge : string) : Request.ambient :=
  {| Request.date_now := "1700000000000"; Request.math_random := "k3j9x0q2m";
     Request.entropy := challenge |}.

(** Worlds: alice about to verify a login, her counter at [ctr]; and
    alice about to verify her registration. *)
Definition at_login (ctr : Z) (challenge : string) : world :=
  {| db := registered ctr; session := logging_in challenge |}.

Definition at_registration (challenge : string) : world :=
  {| db := migrated; session := registering challenge |}.

(** The stand-in library, in its two manners of refusing. *)
Definition server : Server := Stub.library true.
Definition quiet_server : Server := Stub.library false.

End Scenario.

(** ** Auxiliary definitions for the round trip of the helpers *)

Module Sextets.
Local Open Scope N_scope.

(** The sextets of a buffer, without padding: what both helpers agree on. *)
Fixpoint of_bytes (buf : Node.Buffer) : list N :=
  match buf with
  | [] => []
  | [x] =>
      let a := Byte.to_N x in
      [a / 4; (a mod 4) * 16]
  | [x; y] =>
      let a := Byte.to_N x in
      let b := Byte.to_N y in
      [a / 4; (a mod 4) * 16 + b / 16; (b mod 16) * 4]
  | x :: y :: z :: rest =>
      let a := Byte.to_N x in
      let b := Byte.to_N y in
      let c := Byte.to_N z in
      a / 4 :: (a mod 4) * 16 + b / 16 :: (b mod 16) * 4 + c / 64 :: c mod 64
        :: of_bytes rest
  end.

(** One character through [replace(/c/g, d)]. *)
Definition swap (c d x : ascii) : ascii := if (x =? c)%char then d else x.

(** The URL-safe character of a sextet. *)
Definition url_char (i : N) : ascii :=
  swap "/" "_" (swap "+" "-" (Node.base64_char i)).

Fixpoint chars (f : N -> ascii) (l : list N) : string :=
  match l with
  | [] => EmptyString
  | i :: l' => String (f i) (chars f l')
  end.

(** What the round trip needs of one sextet, as a test that computes. *)
Definition sextet_ok (i : N) : bool :=
  match Node.unbase64 (Node.base64_char i) with
  | Some j => j =? i
  | None => false
  end
  && negb (Node.base64_char i =? "=")%char
  && negb (url_char i =? "=")%char
  && (swap "_" "/" (swap "-" "+" (url_char i)) =? Node.base64_char i)%char.

End Sextets.

(** ** The constraints of the migrations *)

(** A user row that none of the rows of a table collides with: the primary
    key and the two UNIQUE columns of 001_add_users.sql. *)
Definition fresh_user (u : Pg.users_row) (t : Pg.tables) : Prop :=
  forall u0, In u0 (Pg.users t) ->
    Pg.id u0 <> Pg.id u /\ Pg.username u0 <> Pg.username u /\ Pg.email u0 <> Pg.email u.

(** The same for a credential row: the primary key and UNIQUE
    (credential_id) of 004_add_credentials_table.sql. *)
Definition fresh_credential (c : Pg.credentials_row) (t : Pg.tables) : Prop :=
  forall c0, In c0 (Pg.credentials t) ->
    Pg.cred_id c0 <> Pg.cred_id c /\ Pg.credential_id c0 <> Pg.credential_id c.

(** The key constraints the two migrations declare, on whole tables:
    the primary keys, the UNIQUE columns, and the foreign key from
    credentials to users. *)
Definition constraints_hold (t : Pg.tables) : Prop :=
  NoDup (map Pg.id (Pg.users t))
  /\ NoDup (map Pg.username (Pg.users t))
  /\ NoDup (map Pg.email (Pg.users t))
  /\ NoDup (map Pg.cred_id (Pg.credentials t))
  /\ NoDup (map Pg.credential_id (Pg.credentials t))
  /\ references_hold t.

(** What the users table asks of the pending user of a registration
    besides the keys: VARCHAR(255) takes both values. *)
Definition fits (userData : Session.registration_user) : bool :=
  negb (Pg.too_long (Session.ru_username userData)
        || Pg.too_long (Session.ru_email userData)).

(** The record [/login/verify] reads for a credential row and its owner. *)
Definition record_of (c : Pg.credentials_row) (u : Pg.users_row) : Pg.credential_record :=
  {| Pg.cr_credential_id := Pg.credential_id c;
     Pg.cr_public_key := Pg.public_key c;
     Pg.cr_counter := Pg.counter c;
     Pg.cr_user_id := Pg.id u;
     Pg.cr_username := Pg.username u;
     Pg.cr_email := Pg.email u |}.

(** The answer of the two verify routes to a session without ceremony. *)
Definition no_ceremony (c : call) : Response.t :=
  match c with
  | RegisterVerify _ =>
      Response.status_json 400 (Response.error "No registration in progress")
  | _ => Response.status_json 400 (Response.error "No authentication in progress")
  end.

(** What [/register/start] keeps in the session for the verify step,
    server.js lines 134 and 154, and what it asks the library for, lines
    137-150. *)
Definition pending_user (amb : Request.ambient) (un em : string) : Session.registration_user :=
  {| Session.ru_userId := "user_" ++ Request.date_now amb ++ "_" ++ Request.math_random amb;
     Session.ru_username := un;
     Session.ru_email := em |}.

Definition registration_options_for (amb : Request.ambient) (un : string)
  : WebAuthn.registration_options_args :=
  {| WebAuthn.roa_rpName := rpName;
     WebAuthn.roa_rpID := rpID;
     WebAuthn.roa_userID :=
       "user_" ++ Request.date_now amb ++ "_" ++ Request.math_random amb;
     WebAuthn.roa_userName := un;
     WebAuthn.roa_userDisplayName := un;
     WebAuthn.roa_attestationType := "none";
     WebAuthn.roa_residentKey := "preferred";
     WebAuthn.roa_userVerification := "preferred" |}.

(** What [/login/start] asks the library for, server.js lines 275-279. *)
Definition authentication_options_for (allowCredentials : option (list WebAuthn.allow_credential))
  : WebAuthn.authentication_options_args :=
  {| WebAuthn.aoa_rpID := rpID;
     WebAuthn.aoa_userVerification := "preferred";
     WebAuthn.aoa_allowCredentials := allowCredentials |}.

(** Two answers of [/register/start], server.js lines 130 and 159. *)
Definition conflict : Response.t :=
  Response.status_json 409 (Response.error "Username or email already exists").

Definition registration_start_failed : Response.t :=
  Response.status_json 500 (Response.error "Failed to start registration").

(** What the library is told about the stored authenticator when it is the
    one a registration reported. *)
Definition reported_authenticator (info : WebAuthn.registration_info)
  : WebAuthn.authenticator_device :=
  {| WebAuthn.dev_credentialID := WebAuthn.credentialID info;
     WebAuthn.dev_credentialPublicKey := WebAuthn.credentialPublicKey info;
     WebAuthn.dev_counter := WebAuthn.counter info |}.

(** The two routes of the authentication ceremony. *)
Definition is_login (c : call) : bool :=
  match c with
  | LoginStart _ _ | LoginVerify _ => true
  | _ => false
  end.

(** A history of requests, each with the session its cookie names; the
    sessions of other browsers are anyone's. *)
Definition serve {lib : WebAuthn.Server} (requests : list (call * Session.t)) (w : world)
  : world :=
  fold_left (fun w (request : call * Session.t) =>
               snd (run (fst request) (with_session (snd request) w)))
    requests w.

(** The characters of the URL-safe alphabet of RFC 4648 (section 5):
    letters, digits, [-] and [_]. *)
Definition url_safe (c : ascii) : bool :=
  let n := N_of_ascii c in
  ((65 <=? n) && (n <=? 90) || (97 <=? n) && (n <=? 122) || (48 <=? n) && (n <=? 57)
   || (n =? 45) || (n =? 95))%N.

Fixpoint every_char (p : ascii -> bool) (s : string) : bool :=
  match s with
  | EmptyString => true
  | String c s' => p c && every_char p s'
  end.

(** An error answer of a route: a status of the 4xx or 5xx class, and a
    message. *)
Definition refusal (code : Z) (m : string) : Prop := (400 <= code)%Z /\ m <> "".

(** ** What the library is asked to keep, and what a start call is given *)

(** The signature counter rule of the WebAuthn standard, as a library
    applies it: with a counter in use (the reported or the stored one is
    not zero), a reported counter that is not greater than the stored one
    is stale. *)
Definition stale (reported stored : Z) : bool :=
  ((0 <? reported) || (0 <? stored))%Z && (reported <=? stored)%Z.

(** A library follows the rule when it accepts no response whose counter
    is stale against the counter of the stored authenticator, and reports
    the counter of the response as the new counter. *)
Definition checks_counter (lib : WebAuthn.Server) : Prop :=
  forall args v,
    WebAuthn.verifyAuthenticationResponse args = JS.Normal v ->
    WebAuthn.auth_verified v = true ->
    exists c,
      WebAuthn.va_response args = Some c
      /\ WebAuthn.newCounter (WebAuthn.authenticationInfo v)
         = WebAuthn.ad_signCount (WebAuthn.authenticatorData c)
      /\ stale (WebAuthn.ad_signCount (WebAuthn.authenticatorData c))
           (WebAuthn.dev_counter (WebAuthn.va_authenticator args)) = false.

(** The [allowCredentials] of [/login/start] for a request, server.js
    lines 251-272. *)
Definition allowCredentials_for (body : Request.body) (w : world)
  : option (list WebAuthn.allow_credential) :=
  match Request.username body with
  | Some un =>
      if JS.truthy (Some un) then
        Some (map allow_credential_of (Pg.select_credentials_of un (Pg.committed (db w))))
      else None
  | None => None
  end.

(** A start request that is given what its route asks for, and for which
    the library makes options with challenge [c]: for [/register/start] a
    username and an email, neither empty, that no user row holds; for
    [/login/start] no username, or the name of a user who has a
    credential. *)
Definition admits {lib : WebAuthn.Server} (s : call) (w : world) (c : string) : Prop :=
  match s with
  | RegisterStart amb body =>
      exists un em o,
        Request.username body = Some un
        /\ Request.email body = Some em
        /\ JS.truthy (Some un) = true
        /\ JS.truthy (Some em) = true
        /\ (forall u, In u (Pg.users (Pg.committed (db w))) ->
              Pg.username u <> un /\ Pg.email u <> em)
        /\ WebAuthn.generateRegistrationOptions (Request.entropy amb)
             (registration_options_for amb un) = JS.Normal o
        /\ WebAuthn.co_challenge o = c
  | LoginStart amb body =>
      exists o,
        (forall un, Request.username body = Some un -> JS.truthy (Some un) = true ->
           Pg.select_credentials_of un (Pg.committed (db w)) <> [])
        /\ WebAuthn.generateAuthenticationOptions (Request.entropy amb)
             (authentication_options_for (allowCredentials_for body w)) = JS.Normal o
        /\ WebAuthn.ro_challenge o = c
  | _ => False
  end.

(** Two verify requests of one route. *)
Definition same_route (c1 c2 : call) : bool :=
  match c1, c2 with
  | RegisterVerify _, RegisterVerify _ => true
  | LoginVerify _, LoginVerify _ => true
  | _, _ => false
  end.

(** ** The front end: the passkey flows of services/frontend/src/app.js *)

(** What the page takes from the browser. *)
Module Browser.

(** An exception as the page reads it: [error.name], [error.message]. *)
Record exception : Type := {
  name : string;
  message : string }.

(** [new Error(message)]. *)
Definition Error (message : string) : exception :=
  {| name := "Error"; message := message |}.

Inductive completion (A : Type) : Type :=
| Normal (value : A)
| Throw (e : exception).
Arguments Normal {A} value.
Arguments Throw {A} e.

(** What becomes of one [fetch]: the server answers; or the request never
    arrives; or the server handles it and its answer is lost. In the last
    two cases [fetch] rejects. *)
Inductive delivery : Type :=
| Delivered
| Dropped (e : exception)
| Unanswered (e : exception).

(** What the page does not decide: the authenticator of the user, behind
    [startRegistration] and [startAuthentication] of SimpleWebAuthnBrowser
    (they resolve with the credential or reject); the network, for each
    [fetch] of the page in turn; the clock and the random numbers of the
    server when that request arrives; and the SyntaxError of the engine
    for a body that is not JSON. *)
Class Environment : Type := {
  startRegistration : Response.json -> completion WebAuthn.credential;
  startAuthentication : Response.json -> completion WebAuthn.credential;
  network : nat -> delivery;
  ambient : nat -> Request.ambient;
  not_json : exception }.

End Browser.

Module App.
Import Browser.

(** [currentUser]: the [user] of an answer of a verify route, or of
    [/session], which has no email. *)
Record user : Type := {
  id : Z;
  username : option string;
  email : option string }.

(** The properties app.js sets on the elements it gets by id. *)
Record element : Type := {
  textContent : string;
  className : string;
  display : string }.

Definition set_display (v : string) (e : element) : element :=
  {| textContent := textContent e; className := className e; display := v |}.

Definition set_textContent (v : string) (e : element) : element :=
  {| textContent := v; className := className e; display := display e |}.

(** The five elements of the page the authentication code touches:
    [auth-modal], [main-content], [user-info], [logout-btn] and
    [auth-message]. *)
Record document : Type := {
  auth_modal : element;
  main_content : element;
  user_info : element;
  logout_btn : element;
  auth_message : element }.

(** The two functions the authentication code passes to [setTimeout]:
    the one that hides the message (line 67), and the one that enters the
    application after a ceremony (lines 126 and 193). *)
Inductive callback : Type :=
| HideAuthMessage
| EnterApp.

(** The page: its variable [currentUser], its document, the timers it has
    set (callback and delay, oldest first), and how many times it has
    called [fetch]. *)
Record page : Type := {
  currentUser : option user;
  elements : document;
  timers : list (callback * Z);
  fetched : nat }.

(** The page and the auth service it talks to, with the session of the
    page's cookie ([credentials: 'include']). *)
Record state : Type := {
  client : page;
  server : world }.

Definition with_client (p : page) (st : state) : state :=
  {| client := p; server := server st |}.

Definition with_server (w : world) (st : state) : state :=
  {| client := client st; server := w |}.

(** An [async] function of the page. *)
Definition Task (A : Type) : Type := state -> completion A * state.

Definition ret {A : Type} (a : A) : Task A := fun st => (Normal a, st).

Definition bind {A B : Type} (m : Task A) (k : A -> Task B) : Task B :=
  fun st =>
    match m st with
    | (Normal a, st') => k a st'
    | (Throw e, st') => (Throw e, st')
    end.

Definition throw {A : Type} (e : exception) : Task A := fun st => (Throw e, st).

Definition await {A : Type} (c : completion A) : Task A := fun st => (c, st).

Definition try_catch {A : Type} (body : Task A) (handler : exception -> Task A) : Task A :=
  fun st =>
    match body st with
    | (Normal a, st') => (Normal a, st')
    | (Throw e, st') => handler e st'
    end.

Declare Scope task_scope.
Delimit Scope task_scope with task.
Notation "x <- m ;; k" := (bind m (fun x => k))
  (at level 61, m at next level, right associativity) : task_scope.
Notation "m ;; k" := (bind m (fun _ => k))
  (at level 61, right associativity) : task_scope.
Local Open Scope task_scope.

Definition update_page (f : page -> page) : Task unit :=
  fun st => (Normal tt, with_client (f (client st)) st).

Definition set_currentUser (v : option user) (p : page) : page :=
  {| currentUser := v; elements := elements p; timers := timers p; fetched := fetched p |}.

Definition set_elements (f : document -> document) (p : page) : page :=
  {| currentUser := currentUser p; elements := f (elements p);
     timers := timers p; fetched := fetched p |}.

(** [setTimeout(callback, delay)]. *)
Definition setTimeout (c : callback) (delay : Z) : Task unit :=
  update_page (fun p =>
    {| currentUser := currentUser p; elements := elements p;
       timers := (timers p ++ [(c, delay)])%list; fetched := fetched p |}).

Definition count_fetch (p : page) : page :=
  {| currentUser := currentUser p; elements := elements p;
     timers := timers p; fetched := S (fetched p) |}.

(** A [Response] of [fetch], as far as the page reads it: [response.ok]
    and what [await response.json()] gives. *)
Record response : Type := {
  ok : bool;
  json : completion Response.json }.

Section App.
Context {lib : WebAuthn.Server} {env : Environment}.

(** What the page receives when the route has run: the answer of the
    handler; had the handler thrown, Express would answer 500 with a body
    that is not JSON. *)
Definition received (c : JS.completion Response.t) : response :=
  match c with
  | JS.Normal r =>
      {| ok := ((200 <=? Response.status r) && (Response.status r <=? 299))%Z;
         json := Normal (Response.body r) |}
  | JS.Throw _ => {| ok := false; json := Throw not_json |}
  end.

(** [await fetch(`${AUTH_URL}/...`, { credentials: 'include', ... })]. *)
Definition fetch (request : Request.ambient -> call) : Task response :=
  fun st =>
    let n := fetched (client st) in
    let st1 := with_client (count_fetch (client st)) st in
    match network n with
    | Dropped e => (Throw e, st1)
    | Unanswered e => (Throw e, with_server (snd (run (request (ambient n)) (server st))) st1)
    | Delivered =>
        let (answer, w) := run (request (ambient n)) (server st) in
        (Normal (received answer), with_server w st1)
    end.

(** [function showAuthModal()], [function showMainContent()], app.js lines
    40-48. *)
Definition showAuthModal : Task unit :=
  update_page (set_elements (fun d =>
    {| auth_modal := set_display "flex" (auth_modal d);
       main_content := set_display "none" (main_content d);
       user_info := user_info d; logout_btn := logout_btn d;
       auth_message := auth_message d |})).

Definition showMainContent : Task unit :=
  update_page (set_elements (fun d =>
    {| auth_modal := set_display "none" (auth_modal d);
       main_content := set_display "block" (main_content d);
       user_info := user_info d; logout_btn := logout_btn d;
       auth_message := auth_message d |})).

(** A value that is a string or [undefined], inside a template literal. *)
Definition interpolated (v : option string) : string :=
  match v with
  | Some s => s
  | None => "undefined"
  end.

(** [function updateAuthUI()], app.js lines 50-58. *)
Definition updateAuthUI : Task unit :=
  update_page (fun p => set_elements (fun d =>
    match currentUser p with
    | Some u =>
        {| auth_modal := auth_modal d; main_content := main_content d;
           user_info := set_textContent ("👤 " ++ interpolated (username u)) (user_info d);
           logout_btn := set_display "block" (logout_btn d);
           auth_message := auth_message d |}
    | None =>
        {| auth_modal := auth_modal d; main_content := main_content d;
           user_info := set_textContent "" (user_info d);
           logout_btn := set_display "none" (logout_btn d);
           auth_message := auth_message d |}
    end) p).

(** [function showAuthMessage(message, type = 'error')], app.js lines
    61-70. *)
Definition showAuthMessage (message type : string) : Task unit :=
  update_page (set_elements (fun d =>
    {| auth_modal := auth_modal d; main_content := main_content d;
       user_info := user_info d; logout_btn := logout_btn d;
       auth_message :=
         {| textContent := message; className := type; display := "block" |} |})) ;;
  setTimeout HideAuthMessage 5000.

(** [error.error || fallback] on the parsed body of an answer, and
    [error.message || fallback] on a caught exception. *)
Definition error_or (body : Response.json) (fallback : string) : string :=
  match body with
  | Response.error m => if m =? "" then fallback else m
  | _ => fallback
  end.

Definition message_or (e : exception) (fallback : string) : string :=
  if message e =? "" then fallback else message e.

(** [if (!response.ok) { const error = await response.json(); throw new
    Error(error.error || fallback); }]. *)
Definition check_ok (r : response) (fallback : string) : Task unit :=
  if negb (ok r) then
    error <- await (json r) ;;
    throw (Error (error_or error fallback))
  else ret tt.

(** The inner [try] around the call of the authenticator, app.js lines
    97-104 and 164-171. *)
Definition authenticator (call : completion WebAuthn.credential) (cancelled : string)
  : Task WebAuthn.credential :=
  try_catch (await call)
    (fun error =>
       if name error =? "NotAllowedError" then throw (Error cancelled)
       else throw error).

(** What both flows do with the parsed answer of the verify route,
    app.js lines 123-132 and 190-199. *)
Definition welcome (result : Response.json) (greeting : string) : Task unit :=
  match result with
  | Response.verified u =>
      showAuthMessage greeting "success" ;;
      update_page (set_currentUser
        (Some {| id := Response.id u;
                 username := Some (Response.username u);
                 email := Some (Response.email u) |})) ;;
      setTimeout EnterApp 1000
  | _ => ret tt
  end.

(** [async function checkSession()], app.js lines 19-37. *)
Definition checkSession : Task unit :=
  try_catch
    (response <- fetch (fun _ => GetSession) ;;
     data <- await (json response) ;;
     match data with
     | Response.authenticated uid un =>
         update_page (set_currentUser (Some {| id := uid; username := un; email := None |})) ;;
         showMainContent ;;
         updateAuthUI
     | _ => showAuthModal
     end)
    (fun error => showAuthModal).

(** [async function registerWithPasskey(username, email)], app.js lines
    74-137. *)
Definition registerWithPasskey (username email : string) : Task unit :=
  try_catch
    (showAuthMessage "Starting registration..." "info" ;;
     optionsResponse <- fetch (fun amb =>
       RegisterStart amb {| Request.username := Some username;
                            Request.email := Some email;
                            Request.credential := None |}) ;;
     check_ok optionsResponse "Registration failed" ;;
     options <- await (json optionsResponse) ;;
     showAuthMessage "Please use your device to create a passkey..." "info" ;;
     credential <- authenticator (startRegistration options)
                     "Registration cancelled or timed out" ;;
     showAuthMessage "Verifying your passkey..." "info" ;;
     verifyResponse <- fetch (fun _ =>
       RegisterVerify {| Request.username := None; Request.email := None;
                         Request.credential := Some credential |}) ;;
     check_ok verifyResponse "Verification failed" ;;
     result <- await (json verifyResponse) ;;
     welcome result "Registration successful! Welcome!")
    (fun error => showAuthMessage (message_or error "Registration failed") "error").

(** [async function loginWithPasskey(username)], app.js lines 141-204;
    [username || undefined] leaves an empty username out of the body. *)
Definition loginWithPasskey (username : string) : Task unit :=
  try_catch
    (showAuthMessage "Starting login..." "info" ;;
     optionsResponse <- fetch (fun amb =>
       LoginStart amb {| Request.username := if username =? "" then None else Some username;
                         Request.email := None;
                         Request.credential := None |}) ;;
     check_ok optionsResponse "Login failed" ;;
     options <- await (json optionsResponse) ;;
     showAuthMessage "Please authenticate with your device..." "info" ;;
     credential <- authenticator (startAuthentication options)
                     "Authentication cancelled or timed out" ;;
     showAuthMessage "Verifying..." "info" ;;
     verifyResponse <- fetch (fun _ =>
       LoginVerify {| Request.username := None; Request.email := None;
                      Request.credential := Some credential |}) ;;
     check_ok verifyResponse "Verification failed" ;;
     result <- await (json verifyResponse) ;;
     welcome result "Login successful! Welcome back!")
    (fun error => showAuthMessage (message_or error "Login failed") "error").

(** [async function logout()], app.js lines 208-221. *)
Definition logout : Task unit :=
  try_catch
    (fetch (fun _ => Logout) ;;
     update_page (set_currentUser None) ;;
     updateAuthUI ;;
     showAuthModal)
    (fun error => ret tt).

End App.
End App.

(** ** The two passkey flows of the page, side by side *)

(** [registerWithPasskey(username, email)] or [loginWithPasskey(username)]:
    the requests a flow sends, the authenticator call it makes, and its
    texts. *)
Inductive flow : Type :=
| Registering (username email : string)
| LoggingIn (username : string).

(** The body [JSON.stringify({ credential })] of a verify request. *)
Definition posting (c : WebAuthn.credential) : Request.body :=
  {| Request.username := None; Request.email := None; Request.credential := Some c |}.

Definition start_of (f : flow) (amb : Request.ambient) : call :=
  match f with
  | Registering un em =>
      RegisterStart amb {| Request.username := Some un; Request.email := Some em;
                           Request.credential := None |}
  | LoggingIn un =>
      LoginStart amb {| Request.username := if un =? "" then None else Some un;
                        Request.email := None; Request.credential := None |}
  end.

Definition verify_of (f : flow) (c : WebAuthn.credential) : call :=
  match f with
  | Registering _ _ => RegisterVerify (posting c)
  | LoggingIn _ => LoginVerify (posting c)
  end.

Definition cancelled (f : flow) : string :=
  match f with
  | Registering _ _ => "Registration cancelled or timed out"
  | LoggingIn _ => "Authentication cancelled or timed out"
  end.

Definition fallback (f : flow) : string :=
  match f with
  | Registering _ _ => "Registration failed"
  | LoggingIn _ => "Login failed"
  end.

Definition starting (f : flow) : string :=
  match f with
  | Registering _ _ => "Starting registration..."
  | LoggingIn _ => "Starting login..."
  end.

Definition prompt (f : flow) : string :=
  match f with
  | Registering _ _ => "Please use your device to create a passkey..."
  | LoggingIn _ => "Please authenticate with your device..."
  end.

Definition verifying (f : flow) : string :=
  match f with
  | Registering _ _ => "Verifying your passkey..."
  | LoggingIn _ => "Verifying..."
  end.

Definition greeting (f : flow) : string :=
  match f with
  | Registering _ _ => "Registration successful! Welcome!"
  | LoggingIn _ => "Login successful! Welcome back!"
  end.

Section Flows.
Context {lib : WebAuthn.Server} {env : Browser.Environment}.
Import App.

Definition perform (f : flow) : App.Task unit :=
  match f with
  | Registering un em => App.registerWithPasskey un em
  | LoggingIn un => App.loginWithPasskey un
  end.

Definition authenticator_of (f : flow) (options : Response.json)
  : Browser.completion WebAuthn.credential :=
  match f with
  | Registering _ _ => Browser.startRegistration options
  | LoggingIn _ => Browser.startAuthentication options
  end.

(** The shape the two flows share: the [try] block, and the flow with
    its [catch]. *)
Definition ceremony_body (f : flow) : App.Task unit :=
  (App.showAuthMessage (starting f) "info" ;;
   optionsResponse <- App.fetch (start_of f) ;;
   App.check_ok optionsResponse (fallback f) ;;
   options <- App.await (App.json optionsResponse) ;;
   App.showAuthMessage (prompt f) "info" ;;
   credential <- App.authenticator (authenticator_of f options) (cancelled f) ;;
   App.showAuthMessage (verifying f) "info" ;;
   verifyResponse <- App.fetch (fun _ => verify_of f credential) ;;
   App.check_ok verifyResponse "Verification failed" ;;
   result <- App.await (App.json verifyResponse) ;;
   App.welcome result (greeting f))%task.

Definition ceremony (f : flow) : App.Task unit :=
  App.try_catch (ceremony_body f)
    (fun error => App.showAuthMessage (App.message_or error (fallback f)) "error").

End Flows.

(** The message element after [showAuthMessage(message, type)]. *)
Definition shown (message type : string) : App.element :=
  {| App.textContent := message; App.className := type; App.display := "block" |}.

(** [currentUser] after a ceremony that answered the user [u]. *)
Definition signed_in (u : Response.user) : App.user :=
  {| App.id := Response.id u;
     App.username := Some (Response.username u);
     App.email := Some (Response.email u) |}.

(** The page after [showAuthMessage(message, type)]: the message element
    shows the text, and one more timer will hide it. *)
Definition announce (message type : string) (p : App.page) : App.page :=
  {| App.currentUser := App.currentUser p;
     App.elements :=
       {| App.auth_modal := App.auth_modal (App.elements p);
          App.main_content := App.main_content (App.elements p);
          App.user_info := App.user_info (App.elements p);
          App.logout_btn := App.logout_btn (App.elements p);
          App.auth_message := shown message type |};
     App.timers := (App.timers p ++ [(App.HideAuthMessage, 5000%Z)])%list;
     App.fetched := App.fetched p |}.

(** What the page shows: the authentication dialog, or the application
    with the name of the user. *)
Definition modal_shown (p : App.page) : Prop :=
  App.display (App.auth_modal (App.elements p)) = "flex"
  /\ App.display (App.main_content (App.elements p)) = "none".

Definition application_shown (p : App.page) (name : option string) : Prop :=
  App.display (App.auth_modal (App.elements p)) = "none"
  /\ App.display (App.main_content (App.elements p)) = "block"
  /\ App.textContent (App.user_info (App.elements p)) = "👤 " ++ App.interpolated name
  /\ App.display (App.logout_btn (App.elements p)) = "block".

(** A page that has just been loaded: no user yet, no timer, no request
    sent. *)
Definition loaded (d : App.document) : App.page :=
  {| App.currentUser := None; App.elements := d; App.timers := []; App.fetched := 0 |}.

(** ** More concrete requests and states, and a browser *)

Module Visit.
Import WebAuthn.

(** Bob, about to verify a registration with the passkey alice holds. *)
Definition bob : Session.registration_user :=
  {| Session.ru_userId := "user_1700000000001_zzzzzzzzz";
     Session.ru_username := "bob";
     Session.ru_email := "bob@example.com" |}.

Definition bob_registering (challenge : string) : world :=
  {| db := Scenario.registered 0;
     session := set_registrationUser (Some bob) (Scenario.logging_in challenge) |}.

(** What the stand-in library reports of alice's attestation. *)
Definition reported : registration_info :=
  {| credentialPublicKey := Scenario.key; credentialID := Scenario.cid; counter := 0 |}.

(** The answers of the two start routes to alice. *)
Definition creation (challenge : string) : Response.t :=
  Response.json_ (Response.creation_options
    {| co_challenge := challenge;
       co_args := registration_options_for (Scenario.drawing challenge) "alice" |}).

Definition offered (challenge : string) : Response.t :=
  Response.json_ (Response.request_options
    {| ro_challenge := challenge;
       ro_args :=
         authentication_options_for
           (Some [ {| ac_id := Scenario.cid; ac_type := "public-key";
                      ac_transports := ["internal"] |} ]) |}).

(** Alice, signed in. *)
Definition signed : Session.t := authenticated_as 4 "alice" Session.empty.

(** A browser whose authenticator holds alice's passkey and answers the
    challenge of the options it is given, [rawId] in base64url as
    [startRegistration] and [startAuthentication] give it; every request is
    delivered, and the service draws the challenge "c2". *)
Definition create (options : Response.json) : Browser.completion credential :=
  match options with
  | Response.creation_options o =>
      Browser.Normal (Scenario.attestation (co_challenge o) origin 0)
  | _ => Browser.Throw {| Browser.name := "TypeError"; Browser.message := "no options" |}
  end.

Definition get (options : Response.json) : Browser.completion credential :=
  match options with
  | Response.request_options o =>
      Browser.Normal (Scenario.page_assertion (ro_challenge o) origin 1 Scenario.key)
  | _ => Browser.Throw {| Browser.name := "TypeError"; Browser.message := "no options" |}
  end.

Definition online : Browser.Environment :=
  {| Browser.startRegistration := create;
     Browser.startAuthentication := get;
     Browser.network := fun _ => Browser.Delivered;
     Browser.ambient := fun _ => Scenario.drawing "c2";
     Browser.not_json :=
       {| Browser.name := "SyntaxError"; Browser.message := "Unexpected token" |} |}.

(** The same browser with a user who dismisses the prompt of the
    authenticator. *)
Definition dismissing : Browser.Environment :=
  {| Browser.startRegistration := create;
     Browser.startAuthentication := fun _ =>
       Browser.Throw {| Browser.name := "NotAllowedError";
                        Browser.message := "The operation was not allowed" |};
     Browser.network := fun _ => Browser.Delivered;
     Browser.ambient := fun _ => Scenario.drawing "c2";
     Browser.not_json :=
       {| Browser.name := "SyntaxError"; Browser.message := "Unexpected token" |} |}.

(** A page just loaded, with nothing set on its elements, and the service
    it talks to. *)
Definition blank : App.document :=
  let e := {| App.textContent := ""; App.className := ""; App.display := "" |} in
  {| App.auth_modal := e; App.main_content := e; App.user_info := e;
     App.logout_btn := e; App.auth_message := e |}.

Definition visiting (w : world) : App.state :=
  {| App.client := loaded blank; App.server := w |}.

End Visit.

(** ** Tactics *)

(** Unfolds the operations of [Async], so that a handler reduces once its
    reads are known. *)
Ltac async :=
  unfold property, client_release;
  unfold try_catch, try_finally, bind, ret, throw, await, session_get, session_update,
    pool_select, pool_update, pool_connect, client_query, client_command.

(** Linear arithmetic over [N] with division and remainder by constants. *)
Ltac narith := intros; zify; Z.to_euclidean_division_equations; lia.

(** Closes [refusal code m] for the status and message of an answer. *)
Ltac refused := split; [lia | discriminate].

(** Unfolds the operations of [App.Task] and the small functions of the
    page. *)
Ltac task :=
  unfold App.check_ok, App.authenticator, App.welcome, App.showAuthMessage,
    App.showAuthModal, App.showMainContent, App.updateAuthUI, App.setTimeout;
  unfold App.try_catch, App.bind, App.ret, App.throw, App.await, App.update_page.

(** Takes a finished [bind] apart, by the inversion lemma [inv] of its
    monad. *)
Ltac unbind inv H :=
  let a := fresh "a" in
  let st := fresh "st" in
  let e := fresh "e" in
  let H1 := fresh H in
  apply inv in H;
  destruct H as [(a & st & H1 & H)|(e & H1 & ->)].

(* ================================================================== *)
(** * Part II: theorems *)
(* ================================================================== *)

(** ** The model of [Buffer] on the test vectors of RFC 4648 *)

Example toString_base64_rfc4648 :
  Node.toString_base64 [] = ""
  /\ Node.toString_base64 [Byte.x66] = "Zg=="
  /\ Node.toString_base64 [Byte.x66; Byte.x6f] = "Zm8="
  /\ Node.toString_base64 [Byte.x66; Byte.x6f; Byte.x6f] = "Zm9v"
  /\ Node.toString_base64 [Byte.x66; Byte.x6f; Byte.x6f; Byte.x62] = "Zm9vYg=="
  /\ Node.toString_base64 [Byte.x66; Byte.x6f; Byte.x6f; Byte.x62; Byte.x61] = "Zm9vYmE="
  /\ Node.toString_base64 [Byte.x66; Byte.x6f; Byte.x6f; Byte.x62; Byte.x61; Byte.x72]
     = "Zm9vYmFy".
Proof. repeat split. Qed.

Example from_base64_rfc4648 :
  Node.from_base64 "Zg==" = [Byte.x66]
  /\ Node.from_base64 "Zm8=" = [Byte.x66; Byte.x6f]
  /\ Node.from_base64 "Zm9vYmFy" = [Byte.x66; Byte.x6f; Byte.x6f; Byte.x62; Byte.x61; Byte.x72].
Proof. repeat split. Qed.

(** The decoder skips what is not in the alphabet, takes the URL-safe
    characters too, and needs no padding. *)
Example from_base64_forgiving :
  Node.from_base64 "Zm 9v\Yg" = [Byte.x66; Byte.x6f; Byte.x6f; Byte.x62]
  /\ Node.from_base64 "-_8-QQ" = Node.from_base64 "+/8+QQ==".
Proof. split; reflexivity. Qed.

Example bufferToBase64url_example :
  bufferToBase64url [Byte.xfb; Byte.xff; Byte.x3e; Byte.x41] = "-_8-QQ".
Proof. reflexivity. Qed.

Example base64urlToBuffer_example :
  base64urlToBuffer "-_8-QQ" = [Byte.xfb; Byte.xff; Byte.x3e; Byte.x41].
Proof. reflexivity. Qed.

(** ** The model of VARCHAR on a few values *)

(** A limit of three characters: characters are counted, not bytes (the
    second value is three two-byte characters); a longer value is refused,
    unless its excess is spaces only. *)
Example varchar_examples :
  Pg.varchar 3 "abc" = Some "abc"
  /\ Pg.varchar 3 (Scenario.e_acute ++ Scenario.e_acute ++ Scenario.e_acute)
     = Some (Scenario.e_acute ++ Scenario.e_acute ++ Scenario.e_acute)
  /\ String.length (Scenario.e_acute ++ Scenario.e_acute ++ Scenario.e_acute) = 6%nat
  /\ Pg.varchar 3 "abcd" = None
  /\ Pg.varchar 3 "abc  " = Some "abc"
  /\ Pg.varchar 3 "ab d " = None.
Proof. repeat split. Qed.

(** ** The base64url helpers *)

Section Base64url.
Import Node Sextets.
Local Open Scope N_scope.

Lemma list_ind3 {A : Type} (P : list A -> Prop) :
  P [] ->
  (forall x, P [x]) ->
  (forall x y, P [x; y]) ->
  (forall x y z rest, P rest -> P (x :: y :: z :: rest)) ->
  forall l, P l.
Proof.
  intros H0 H1 H2 H3.
  assert (both : forall l, P l /\ (forall x, P (x :: l)) /\ (forall x y, P (x :: y :: l))).
  { induction l as [|z l [IHa [IHb IHc]]].
    - repeat split; auto.
    - repeat split; auto. }
  intro l. apply both.
Qed.

Lemma sextet_ok_below_64 i : i < 64 -> sextet_ok i = true.
Proof.
  intro Hi.
  assert (all : forallb sextet_ok (map N.of_nat (seq 0 64)) = true)
    by (vm_compute; reflexivity).
  rewrite forallb_forall in all. apply all.
  rewrite <- (N2Nat.id i). apply in_map, in_seq. lia.
Qed.

Lemma unbase64_base64_char i : i < 64 -> unbase64 (base64_char i) = Some i.
Proof.
  intro Hi. pose proof (sextet_ok_below_64 i Hi) as ok. unfold sextet_ok in ok.
  repeat rewrite andb_true_iff in ok. destruct ok as [[[ok _] _] _].
  destruct (unbase64 (base64_char i)) as [j|]; [|discriminate].
  apply N.eqb_eq in ok. now subst.
Qed.

Lemma base64_char_not_pad i : i < 64 -> (base64_char i =? "=")%char = false.
Proof.
  intro Hi. pose proof (sextet_ok_below_64 i Hi) as ok. unfold sextet_ok in ok.
  repeat rewrite andb_true_iff in ok. destruct ok as [[[_ ok] _] _].
  now apply negb_true_iff in ok.
Qed.

Lemma url_char_not_pad i : i < 64 -> (url_char i =? "=")%char = false.
Proof.
  intro Hi. pose proof (sextet_ok_below_64 i Hi) as ok. unfold sextet_ok in ok.
  repeat rewrite andb_true_iff in ok. destruct ok as [[_ ok] _].
  now apply negb_true_iff in ok.
Qed.

Lemma url_char_back i :
  i < 64 -> swap "_" "/" (swap "-" "+" (url_char i)) = base64_char i.
Proof.
  intro Hi. pose proof (sextet_ok_below_64 i Hi) as ok. unfold sextet_ok in ok.
  repeat rewrite andb_true_iff in ok. destruct ok as [_ ok].
  now apply Ascii.eqb_eq in ok.
Qed.

Lemma of_bytes_below_64 buf : Forall (fun i => i < 64) (of_bytes buf).
Proof.
  induction buf as [|x|x y|x y z rest IH] using list_ind3; cbn [of_bytes].
  - constructor.
  - pose proof (Byte.to_N_bounded x). repeat constructor; narith.
  - pose proof (Byte.to_N_bounded x). pose proof (Byte.to_N_bounded y).
    repeat constructor; narith.
  - pose proof (Byte.to_N_bounded x). pose proof (Byte.to_N_bounded y).
    pose proof (Byte.to_N_bounded z).
    repeat (constructor; [narith|]). exact IH.
Qed.

Lemma byte_of_N_to_N x n : n = Byte.to_N x -> byte_of_N n = x.
Proof.
  intros ->. unfold byte_of_N. pose proof (Byte.to_N_bounded x).
  rewrite N.mod_small by lia. now rewrite Byte.of_to_N.
Qed.

Lemma bytes_of_sextets_of_bytes buf : bytes_of_sextets (of_bytes buf) = buf.
Proof.
  induction buf as [|x|x y|x y z rest IH] using list_ind3;
    cbn [of_bytes bytes_of_sextets].
  - reflexivity.
  - pose proof (Byte.to_N_bounded x). f_equal. apply byte_of_N_to_N. narith.
  - pose proof (Byte.to_N_bounded x). pose proof (Byte.to_N_bounded y).
    repeat f_equal; apply byte_of_N_to_N; narith.
  - pose proof (Byte.to_N_bounded x). pose proof (Byte.to_N_bounded y).
    pose proof (Byte.to_N_bounded z). rewrite IH.
    repeat f_equal; apply byte_of_N_to_N; narith.
Qed.

Lemma urlify_cons c s :
  remove_char "=" (replace_char "/" "_" (replace_char "+" "-" (String c s))) =
  let u := swap "/" "_" (swap "+" "-" c) in
  let rest := remove_char "=" (replace_char "/" "_" (replace_char "+" "-" s)) in
  if (u =? "=")%char then rest else String u rest.
Proof. reflexivity. Qed.

Lemma urlify_sextet i s :
  i < 64 ->
  remove_char "=" (replace_char "/" "_" (replace_char "+" "-" (String (base64_char i) s))) =
  String (url_char i)
    (remove_char "=" (replace_char "/" "_" (replace_char "+" "-" s))).
Proof.
  intro Hi. rewrite urlify_cons. cbv zeta. fold (url_char i).
  now rewrite url_char_not_pad.
Qed.

Lemma bufferToBase64url_chars buf :
  bufferToBase64url buf = chars url_char (of_bytes buf).
Proof.
  unfold bufferToBase64url.
  induction buf as [|x|x y|x y z rest IH] using list_ind3;
    cbn [toString_base64 of_bytes chars].
  - reflexivity.
  - pose proof (Byte.to_N_bounded x).
    rewrite !urlify_sextet by narith. reflexivity.
  - pose proof (Byte.to_N_bounded x). pose proof (Byte.to_N_bounded y).
    rewrite !urlify_sextet by narith. reflexivity.
  - pose proof (Byte.to_N_bounded x). pose proof (Byte.to_N_bounded y).
    pose proof (Byte.to_N_bounded z).
    rewrite !urlify_sextet by narith. now rewrite IH.
Qed.

Lemma unurlify_chars l :
  Forall (fun i => i < 64) l ->
  replace_char "_" "/" (replace_char "-" "+" (chars url_char l)) =
  chars base64_char l.
Proof.
  induction 1 as [|i l Hi _ IH]; cbn [chars replace_char].
  - reflexivity.
  - rewrite IH. f_equal. now apply url_char_back.
Qed.

Lemma base64_sextets_padding k : base64_sextets (repeat_string "=" k) = [].
Proof. destruct k; reflexivity. Qed.

Lemma base64_sextets_chars l k :
  Forall (fun i => i < 64) l ->
  base64_sextets (chars base64_char l ++ repeat_string "=" k) = l.
Proof.
  induction 1 as [|i l Hi _ IH]; cbn [chars String.append].
  - apply base64_sextets_padding.
  - cbn [base64_sextets].
    now rewrite base64_char_not_pad, unbase64_base64_char, IH.
Qed.

(** C10. For every byte buffer [b],
    [base64urlToBuffer (bufferToBase64url b) = b]: the two helpers form a
    round trip, so the identifier stored at registration decodes to the
    bytes it was made from. *)
Theorem base64url_round_trip (b : Node.Buffer) :
  base64urlToBuffer (bufferToBase64url b) = b.
Proof.
  unfold base64urlToBuffer. cbv zeta.
  rewrite bufferToBase64url_chars.
  rewrite unurlify_chars by apply of_bytes_below_64.
  unfold from_base64.
  rewrite base64_sextets_chars by apply of_bytes_below_64.
  apply bytes_of_sextets_of_bytes.
Qed.

End Base64url.

(** ** What [/login/verify] does, case by case *)

#[local] Arguments Pg.select_credential : simpl never.
#[local] Arguments Pg.select_credentials_of : simpl never.
#[local] Arguments Pg.select_existing_users : simpl never.
#[local] Arguments Pg.update_counter : simpl never.
#[local] Arguments Pg.insert_user : simpl never.
#[local] Arguments Pg.too_long : simpl never.
#[local] Arguments Pg.stored : simpl never.
#[local] Arguments Pg.insert_credential : simpl never.
#[local] Arguments bufferToBase64url : simpl never.
#[local] Arguments Node.from_string : simpl never.
#[local] Arguments base64urlToBuffer : simpl never.
#[local] Arguments authentication_args : simpl never.
#[local] Arguments registration_args : simpl never.
#[local] Arguments String.eqb : simpl never.

Section LoginVerify.
Context {lib : WebAuthn.Server}.

Lemma login_verify_no_challenge body w :
  outstanding (session w) = false ->
  login_verify body w =
  (JS.Normal (Response.status_json 400 (Response.error "No authentication in progress")), w).
Proof.
  unfold outstanding, login_verify. async. cbn.
  destruct (Session.currentChallenge (session w)) as [ch|]; [|reflexivity].
  intros ->. reflexivity.
Qed.

Lemma login_verify_no_credential body w :
  outstanding (session w) = true ->
  Request.credential body = None ->
  login_verify body w = (JS.Normal authentication_failed, w).
Proof.
  unfold outstanding, login_verify. async. cbn.
  destruct (Session.currentChallenge (session w)) as [ch|]; [|discriminate].
  intros -> ->. reflexivity.
Qed.

Lemma login_verify_unknown body w cred :
  outstanding (session w) = true ->
  Request.credential body = Some cred ->
  Pg.select_credential (bufferToBase64url (Node.from_string (WebAuthn.rawId cred)))
      (Pg.committed (db w)) = [] ->
  login_verify body w =
  (JS.Normal (Response.status_json 404 (Response.error "Credential not found")), w).
Proof.
  unfold outstanding, login_verify. async. cbn.
  destruct (Session.currentChallenge (session w)) as [ch|]; [|discriminate].
  intros -> ->. cbn. intros ->. reflexivity.
Qed.

(** With an outstanding challenge and a known credential the handler
    follows the verdict of the library, and nothing else. *)
Lemma login_verify_known body w ch cred rec rest :
  Session.currentChallenge (session w) = Some ch ->
  outstanding (session w) = true ->
  Request.credential body = Some cred ->
  Pg.select_credential (bufferToBase64url (Node.from_string (WebAuthn.rawId cred)))
      (Pg.committed (db w))
    = rec :: rest ->
  login_verify body w =
  match WebAuthn.verifyAuthenticationResponse (authentication_args (Some cred) ch rec) with
  | JS.Throw _ => (JS.Normal authentication_failed, w)
  | JS.Normal v =>
      if WebAuthn.auth_verified v then
        (JS.Normal (Response.json_ (Response.verified
           {| Response.id := Pg.cr_user_id rec;
              Response.username := Pg.cr_username rec;
              Response.email := Pg.cr_email rec |})),
         {| db := Pg.with_committed
                    (Pg.update_counter (WebAuthn.newCounter (WebAuthn.authenticationInfo v))
                       (bufferToBase64url (Node.from_string (WebAuthn.rawId cred)))
                           (Pg.committed (db w)))
                    (db w);
            session := set_username (Some (Pg.cr_username rec))
                         (set_userId (Some (Pg.cr_user_id rec))
                            (set_currentChallenge None (session w))) |})
      else (JS.Normal verification_failed, w)
  end.
Proof.
  unfold outstanding, login_verify. async. cbn.
  intros Hch. rewrite Hch. intros -> ->. cbn. intros ->.
  destruct (WebAuthn.verifyAuthenticationResponse _) as [v|e]; [|reflexivity].
  destruct (WebAuthn.auth_verified v); reflexivity.
Qed.

End LoginVerify.

(** ** The statements of the registration transaction *)

Section Statements.
Import Pg.
Local Open Scope Z_scope.

(** VARCHAR(n) stores a value of at most [n] characters as it is. *)
Lemma split_chars_all n s :
  (char_length s <= n)%nat -> split_chars n s = (s, EmptyString).
Proof.
  revert n. induction s as [|c s IH]; intros n Hn; [reflexivity|].
  cbn [split_chars char_length] in *. destruct (continues c).
  - rewrite IH by (cbn in Hn; lia). reflexivity.
  - destruct n as [|n]; [cbn in Hn; lia|].
    rewrite IH by (cbn in Hn; lia). reflexivity.
Qed.

Lemma varchar_fits n s : (char_length s <= n)%nat -> varchar n s = Some s.
Proof. intro Hn. unfold varchar. now rewrite split_chars_all. Qed.

Lemma stored_fits s : (char_length s <= 255)%nat -> stored s = s.
Proof. intro Hn. unfold stored. now rewrite varchar_fits. Qed.

Lemma too_long_fits s : (char_length s <= 255)%nat -> too_long s = false.
Proof. intro Hn. unfold too_long. now rewrite varchar_fits. Qed.

Lemma insert_user_in_transaction un em d t :
  transaction d = Some t ->
  (exists e d',
      insert_user un em d = (JS.Throw e, d')
      /\ committed d' = committed d /\ transaction d' = Some t
      /\ credentials_id_seq d' = credentials_id_seq d
      /\ users_id_seq d' =
         if too_long un || too_long em then users_id_seq d else users_id_seq d + 1)
  \/ (let u := {| id := users_id_seq d + 1; username := stored un; email := stored em |} in
      too_long un || too_long em = false
      /\ insert_user un em d =
         (JS.Normal u, {| committed := committed d; transaction := Some (user_added u t);
                          users_id_seq := users_id_seq d + 1;
                          credentials_id_seq := credentials_id_seq d |})).
Proof.
  intro Ht. unfold insert_user, working, write.
  destruct (too_long un || too_long em) eqn:Hlen.
  { left. do 2 eexists. split; [reflexivity|]. now repeat split. }
  cbn. rewrite Ht.
  repeat match goal with
  | |- context [if ?b then _ else _] =>
      destruct b; [left; do 2 eexists; split; [reflexivity|]; now repeat split|]
  end.
  right. split; reflexivity.
Qed.

Lemma insert_credential_in_transaction uid cid pk ctr tr d t :
  transaction d = Some t ->
  (exists e, insert_credential uid cid pk ctr tr d =
     (JS.Throw e, {| committed := committed d; transaction := Some t;
                     users_id_seq := users_id_seq d;
                     credentials_id_seq := credentials_id_seq d + 1 |}))
  \/ (let c := {| cred_id := credentials_id_seq d + 1; user_id := uid; credential_id := cid;
                  public_key := pk; counter := ctr; transports := Some tr |} in
      existsb (fun u => id u =? uid) (users t) = true /\
      insert_credential uid cid pk ctr tr d =
      (JS.Normal tt, {| committed := committed d; transaction := Some (credential_added c t);
                        users_id_seq := users_id_seq d;
                        credentials_id_seq := credentials_id_seq d + 1 |})).
Proof.
  intro Ht. unfold insert_credential, working, write. cbn. rewrite Ht.
  destruct (existsb _ (credentials t)); [left; eexists; reflexivity|].
  destruct (existsb _ (credentials t)); [left; eexists; reflexivity|].
  destruct (existsb _ (users t)); cbn; [|left; eexists; reflexivity].
  right. split; reflexivity.
Qed.

End Statements.

(** ** What [/register/verify] does, case by case *)

Section RegisterVerify.
Context {lib : WebAuthn.Server}.
Import Pg.
Local Open Scope Z_scope.

(** The transaction either throws, with the committed tables as they were,
    or commits the user row and the credential row together. *)
Lemma register_transaction_outcome credential userData info w :
  (exists e d',
      register_transaction credential userData info w
        = (JS.Throw e, {| db := d'; session := session w |})
      /\ committed d' = committed (db w) /\ transaction d' = None)
  \/ (exists cred d',
        credential = Some cred
        /\ let u := registered_user (db w) userData in
           let c := registered_credential (db w) u cred info in
           register_transaction credential userData info w
             = (JS.Normal (Response.json_ (Response.verified (public_fields u))),
                {| db := d';
                   session := set_registrationUser None
                                (authenticated_as (id u) (username u) (session w)) |})
           /\ committed d' = credential_added c (user_added u (committed (db w)))
           /\ transaction d' = None).
Proof.
  unfold register_transaction. async. cbn [with_db db session].
  set (d0 := begin_ (connect (db w))).
  assert (Hd0 : transaction d0 = Some (committed (db w))) by reflexivity.
  assert (Hc0 : committed d0 = committed (db w)) by reflexivity.
  destruct (insert_user_in_transaction (Session.ru_username userData)
              (Session.ru_email userData) d0 _ Hd0)
    as [(e & d1 & -> & Hc1 & _)|[_ ->]].
  { left. do 2 eexists. split; [reflexivity|]. split; [now rewrite <- Hc0, <- Hc1|reflexivity]. }
  cbn [with_db db session].
  destruct credential as [cred|].
  2:{ left. do 2 eexists. split; [reflexivity|]. split; [exact Hc0|reflexivity]. }
  cbn [with_db db session].
  match goal with
  | |- context [insert_credential ?a ?b ?c ?d ?e ?f] =>
      destruct (insert_credential_in_transaction a b c d e f _ eq_refl)
        as [[e' ->]|[_ ->]]
  end.
  { left. do 2 eexists. split; [reflexivity|]. split; [exact Hc0|reflexivity]. }
  right. exists cred. eexists. split; [reflexivity|].
  cbn. split; [reflexivity|]. split; reflexivity.
Qed.

Lemma register_verify_no_ceremony body w :
  outstanding (session w) = false \/ Session.registrationUser (session w) = None ->
  register_verify body w =
  (JS.Normal (Response.status_json 400 (Response.error "No registration in progress")), w).
Proof.
  unfold outstanding, register_verify. async. cbn.
  destruct (Session.currentChallenge (session w)) as [ch|]; [|reflexivity].
  destruct (Session.registrationUser (session w)) as [userData|];
    intros [H|H]; try discriminate; try reflexivity.
  rewrite H. reflexivity.
Qed.

(** With a ceremony in progress the handler follows the verdict of the
    library: an error leaves the world as it was, an accepted response
    runs the transaction. *)
Lemma register_verify_in_progress body w ch userData :
  Session.currentChallenge (session w) = Some ch ->
  outstanding (session w) = true ->
  Session.registrationUser (session w) = Some userData ->
  register_verify body w =
  match WebAuthn.verifyRegistrationResponse
          (registration_args (Request.credential body) ch) with
  | JS.Throw _ => (JS.Normal registration_failed, w)
  | JS.Normal v =>
      match WebAuthn.reg_verified v, WebAuthn.registrationInfo v with
      | true, Some info =>
          match register_transaction (Request.credential body) userData info w with
          | (JS.Normal r, w') => (JS.Normal r, w')
          | (JS.Throw _, w') => (JS.Normal registration_failed, w')
          end
      | _, _ => (JS.Normal verification_failed, w)
      end
  end.
Proof.
  unfold outstanding, register_verify.
  unfold try_catch, bind, ret, await, session_get. cbn.
  intros Hch. rewrite Hch. intros -> ->. cbn.
  destruct (WebAuthn.verifyRegistrationResponse _) as [[verified info]|e]; [|reflexivity].
  cbn. destruct verified; [|reflexivity]. destruct info as [info|]; reflexivity.
Qed.

End RegisterVerify.

(** ** The two statements of [/login/verify] *)

Section Counters.
Import Pg.

Lemma stored_counters_update n cid t :
  stored_counters cid (update_counter n cid t) =
  map (fun _ => n) (stored_counters cid t).
Proof.
  unfold stored_counters, update_counter. cbn [credentials].
  induction (credentials t) as [|c l IH]; [reflexivity|].
  cbn [map filter]. destruct (credential_id c =? cid) eqn:E.
  - cbn [set_counter credential_id]. rewrite E. cbn [map]. now rewrite IH.
  - rewrite E. exact IH.
Qed.

Lemma stored_counters_update_other n cid cid' t :
  cid' <> cid ->
  stored_counters cid' (update_counter n cid t) = stored_counters cid' t.
Proof.
  intro Hne. unfold stored_counters, update_counter. cbn [credentials].
  induction (credentials t) as [|c l IH]; [reflexivity|].
  cbn [map filter]. destruct (credential_id c =? cid) eqn:E.
  - apply String.eqb_eq in E. cbn [set_counter credential_id].
    destruct (credential_id c =? cid') eqn:E'.
    + apply String.eqb_eq in E'. congruence.
    + exact IH.
  - destruct (credential_id c =? cid'); cbn [map]; now rewrite IH.
Qed.

Lemma users_update_counter n cid t : users (update_counter n cid t) = users t.
Proof. reflexivity. Qed.

(** A row of the SELECT of [/login/verify] is a credential row with the
    identifier asked for, joined to the user row it references. *)
Lemma select_credential_row cid t rec :
  In rec (select_credential cid t) ->
  exists c u,
    In c (credentials t) /\ In u (users t)
    /\ credential_id c = cid /\ user_id c = id u
    /\ cr_counter rec = counter c
    /\ cr_credential_id rec = credential_id c
    /\ cr_public_key rec = public_key c
    /\ cr_user_id rec = id u /\ cr_username rec = username u /\ cr_email rec = email u.
Proof.
  unfold select_credential. rewrite in_flat_map.
  intros [c [Hc Hrec]]. apply filter_In in Hc. destruct Hc as [Hc Hcid].
  apply in_map_iff in Hrec. destruct Hrec as [u [<- Hu]].
  apply filter_In in Hu. destruct Hu as [Hu Hjoin].
  exists c, u. apply String.eqb_eq in Hcid. apply Z.eqb_eq in Hjoin.
  cbn. repeat split; assumption.
Qed.

Lemma select_credential_stored cid t rec rest :
  select_credential cid t = rec :: rest ->
  In (cr_counter rec) (stored_counters cid t).
Proof.
  intro Hsel.
  destruct (select_credential_row cid t rec) as (c & u & Hc & _ & Hcid & _ & Hctr & _).
  { rewrite Hsel. now left. }
  unfold stored_counters. rewrite Hctr. apply in_map, filter_In. split; [exact Hc|].
  now apply String.eqb_eq.
Qed.

End Counters.

(** ** The verify routes *)

Section Verify.
Context {lib : WebAuthn.Server}.

Lemma outstanding_challenge s :
  outstanding s = true -> exists ch, Session.currentChallenge s = Some ch.
Proof.
  unfold outstanding. destruct (Session.currentChallenge s) as [ch|]; [|discriminate].
  intros _. now exists ch.
Qed.

(** [/login/verify] either answers an error and leaves the world as it
    was, or the library verified the response of a known credential. *)
Lemma login_verify_outcome body w :
  (exists r, login_verify body w = (JS.Normal r, w) /\ Response.status r <> 200%Z)
  \/ (exists ch cred rec rest v,
        Session.currentChallenge (session w) = Some ch
        /\ Request.credential body = Some cred
        /\ Pg.select_credential (bufferToBase64url (Node.from_string (WebAuthn.rawId cred)))
             (Pg.committed (db w)) = rec :: rest
        /\ WebAuthn.verifyAuthenticationResponse (authentication_args (Some cred) ch rec)
           = JS.Normal v
        /\ WebAuthn.auth_verified v = true
        /\ login_verify body w =
           (JS.Normal (Response.json_ (Response.verified
              {| Response.id := Pg.cr_user_id rec;
                 Response.username := Pg.cr_username rec;
                 Response.email := Pg.cr_email rec |})),
            {| db := Pg.with_committed
                       (Pg.update_counter
                          (WebAuthn.newCounter (WebAuthn.authenticationInfo v))
                          (bufferToBase64url (Node.from_string (WebAuthn.rawId cred)))
                              (Pg.committed (db w)))
                       (db w);
               session := authenticated_as (Pg.cr_user_id rec) (Pg.cr_username rec)
                            (session w) |})).
Proof.
  destruct (outstanding (session w)) eqn:Hout.
  2:{ left. eexists. split; [now apply login_verify_no_challenge|discriminate]. }
  destruct (outstanding_challenge _ Hout) as [ch Hch].
  destruct (Request.credential body) as [cred|] eqn:Hcred.
  2:{ left. eexists. split; [now apply login_verify_no_credential|discriminate]. }
  destruct (Pg.select_credential (bufferToBase64url (Node.from_string (WebAuthn.rawId cred)))
              (Pg.committed (db w))) as [|rec rest] eqn:Hsel.
  { left. eexists. split; [now apply (login_verify_unknown body w cred)|discriminate]. }
  rewrite (login_verify_known body w ch cred rec rest Hch Hout Hcred Hsel).
  destruct (WebAuthn.verifyAuthenticationResponse _) as [v|e] eqn:Hlib.
  2:{ left. eexists. split; [reflexivity|discriminate]. }
  destruct (WebAuthn.auth_verified v) eqn:Hv.
  2:{ left. eexists. split; [reflexivity|discriminate]. }
  right. exists ch, cred, rec, rest, v. repeat (split; [assumption || reflexivity|]).
  reflexivity.
Qed.

(** [/register/verify] answers an error with the session and the
    committed tables as they were, or commits both rows. *)
Lemma register_verify_outcome body w :
  (exists r d',
      register_verify body w = (JS.Normal r, {| db := d'; session := session w |})
      /\ Response.status r <> 200%Z
      /\ Pg.committed d' = Pg.committed (db w))
  \/ (exists ch userData info cred d',
        Session.currentChallenge (session w) = Some ch
        /\ Session.registrationUser (session w) = Some userData
        /\ Request.credential body = Some cred
        /\ WebAuthn.verifyRegistrationResponse (registration_args (Some cred) ch)
           = JS.Normal {| WebAuthn.reg_verified := true;
                          WebAuthn.registrationInfo := Some info |}
        /\ register_verify body w =
           (JS.Normal (Response.json_ (Response.verified
              (public_fields (registered_user (db w) userData)))),
            {| db := d';
               session :=
                 set_registrationUser None
                   (authenticated_as (Pg.id (registered_user (db w) userData))
                      (Pg.username (registered_user (db w) userData)) (session w)) |})
        /\ Pg.committed d' =
           credential_added
             (registered_credential (db w) (registered_user (db w) userData) cred info)
             (user_added (registered_user (db w) userData) (Pg.committed (db w)))
        /\ Pg.transaction d' = None).
Proof.
  assert (same : forall r, Response.status r <> 200%Z ->
            exists r' d', (JS.Normal r, w)
              = (JS.Normal r', {| db := d'; session := session w |})
              /\ Response.status r' <> 200%Z /\ Pg.committed d' = Pg.committed (db w)).
  { intros r Hr. exists r, (db w). destruct w. now repeat split. }
  destruct (outstanding (session w)) eqn:Hout.
  2:{ left. rewrite register_verify_no_ceremony by now left. apply same. discriminate. }
  destruct (outstanding_challenge _ Hout) as [ch Hch].
  destruct (Session.registrationUser (session w)) as [userData|] eqn:Hud.
  2:{ left. rewrite register_verify_no_ceremony by now right. apply same. discriminate. }
  rewrite (register_verify_in_progress body w ch userData Hch Hout Hud).
  destruct (WebAuthn.verifyRegistrationResponse _) as [[verified info]|e] eqn:Hlib.
  2:{ left. apply same. discriminate. }
  cbn [WebAuthn.reg_verified WebAuthn.registrationInfo].
  destruct verified; [|left; apply same; discriminate].
  destruct info as [info|]; [|left; apply same; discriminate].
  destruct (register_transaction_outcome (Request.credential body) userData info w)
    as [(e & d' & -> & Hsame & _)|(cred & d' & Hcred & -> & Hnew & Htx)].
  - left. exists registration_failed, d'. split; [reflexivity|]. split; [discriminate|exact Hsame].
  - right. exists ch, userData, info, cred, d'. rewrite Hcred in Hlib.
    repeat (split; [assumption || reflexivity|]). exact Htx.
Qed.

End Verify.

Section VerifyClaims.
Context {lib : WebAuthn.Server}.

(** C3. On a session with no outstanding challenge (none was started, or
    it was consumed), a verify call, of registration or of authentication,
    fails with StateError (status 400, "No ... in progress"), and the world
    it returns is the one it was given: database and session are
    unchanged. *)
Theorem verify_without_challenge_is_state_error (c : call) (w : world) :
  is_verify c = true ->
  outstanding (session w) = false ->
  exists r,
    run c w = (JS.Normal r, w)
    /\ Response.status r = 400%Z
    /\ Taxonomy.of_response r = Some Taxonomy.StateError.
Proof.
  intros Hc Hout. destruct c; try discriminate Hc; cbn [run].
  - rewrite register_verify_no_ceremony by now left.
    eexists. split; [reflexivity|]. split; reflexivity.
  - rewrite login_verify_no_challenge by assumption.
    eexists. split; [reflexivity|]. split; reflexivity.
Qed.

(** C4, as the code has it. A verify call clears the ceremony fields of
    the session exactly when it succeeds: after a 200 answer
    [currentChallenge] is unset (and [registrationUser] too, for
    registration); after any other answer the session is the one the call
    was given, outstanding challenge included. *)
Theorem verify_clears_challenge_on_success_only (c : call) (w w' : world) (r : Response.t) :
  is_verify c = true ->
  run c w = (JS.Normal r, w') ->
  (Response.status r = 200%Z ->
     Session.currentChallenge (session w') = None
     /\ (forall body, c = RegisterVerify body ->
           Session.registrationUser (session w') = None))
  /\ (Response.status r <> 200%Z -> session w' = session w).
Proof.
  intros Hc Hrun. destruct c; try discriminate Hc; cbn [run] in Hrun.
  - destruct (register_verify_outcome body w)
      as [(r0 & d' & Hrv & Hst & _)|(ch & ud & info & cred & d' & _ & _ & _ & _ & Hrv & _)];
      rewrite Hrv in Hrun; inversion Hrun; subst; clear Hrun.
    + split; [intro; contradiction|]. reflexivity.
    + split; [|intro Hne; now contradiction Hne].
      intros _. split; [reflexivity|]. intros; reflexivity.
  - destruct (login_verify_outcome body w)
      as [(r0 & Hlv & Hst)|(ch & cred & rec & rest & v & _ & _ & _ & _ & _ & Hlv)];
      rewrite Hlv in Hrun; inversion Hrun; subst; clear Hrun.
    + split; [intro; contradiction|]. reflexivity.
    + split; [|intro Hne; now contradiction Hne].
      intros _. split; [reflexivity|]. intros body' Heq. discriminate Heq.
Qed.

(** What the handler does for a credential its SELECT finds, that is, one
    stored under the text line 301 computes from the posted [rawId]: when
    the library verifies the response (signature, challenge, origin,
    relying party), reporting its counter, and that counter is greater
    than the stored one, the call succeeds: the answer is 200 with the
    public fields of the user who owns the credential, the stored counter
    of the credential identifier becomes exactly the reported value, the
    users table is unchanged, the challenge is cleared and the session is
    authenticated as the owner. (The handler makes no use of the
    comparison of the counters.) *)
Lemma login_verify_accepts
    (body : Request.body) (w : world) (ch : string) (cred : WebAuthn.credential)
    (rec : Pg.credential_record) (rest : list Pg.credential_record)
    (v : WebAuthn.verified_authentication) :
  Session.currentChallenge (session w) = Some ch ->
  outstanding (session w) = true ->
  Request.credential body = Some cred ->
  Pg.select_credential (bufferToBase64url (Node.from_string (WebAuthn.rawId cred)))
      (Pg.committed (db w))
    = rec :: rest ->
  WebAuthn.verifyAuthenticationResponse (authentication_args (Some cred) ch rec)
    = JS.Normal v ->
  WebAuthn.auth_verified v = true ->
  WebAuthn.newCounter (WebAuthn.authenticationInfo v)
    = WebAuthn.ad_signCount (WebAuthn.authenticatorData cred) ->
  (Pg.cr_counter rec < WebAuthn.ad_signCount (WebAuthn.authenticatorData cred))%Z ->
  exists w' c u,
    login_verify body w
      = (JS.Normal (Response.json_ (Response.verified (public_fields u))), w')
    /\ In c (Pg.credentials (Pg.committed (db w)))
    /\ In u (Pg.users (Pg.committed (db w)))
    /\ Pg.credential_id c = bufferToBase64url (Node.from_string (WebAuthn.rawId cred))
    /\ Pg.user_id c = Pg.id u
    /\ stored_counters (bufferToBase64url (Node.from_string (WebAuthn.rawId cred)))
        (Pg.committed (db w')) =
       map (fun _ => WebAuthn.ad_signCount (WebAuthn.authenticatorData cred))
         (stored_counters (bufferToBase64url (Node.from_string (WebAuthn.rawId cred)))
             (Pg.committed (db w)))
    /\ stored_counters (bufferToBase64url (Node.from_string (WebAuthn.rawId cred)))
        (Pg.committed (db w)) <> []
    /\ Pg.users (Pg.committed (db w')) = Pg.users (Pg.committed (db w))
    /\ Session.currentChallenge (session w') = None
    /\ Session.userId (session w') = Some (Pg.id u)
    /\ Session.username (session w') = Some (Pg.username u).
Proof.
  intros Hch Hout Hcred Hsel Hlib Hv Hnew _.
  rewrite (login_verify_known body w ch cred rec rest Hch Hout Hcred Hsel), Hlib, Hv, Hnew.
  destruct (select_credential_row (bufferToBase64url (Node.from_string (WebAuthn.rawId cred)))
              (Pg.committed (db w)) rec)
    as (c & u & Hc & Hu & Hcid & Hown & _ & _ & _ & Hid & Hun & Hem).
  { rewrite Hsel. now left. }
  eexists. exists c, u.
  split; [unfold public_fields; rewrite <- Hid, <- Hun, <- Hem; reflexivity|].
  cbn [db session Pg.committed Pg.with_committed].
  repeat (split; [assumption|]).
  split; [apply stored_counters_update|].
  split.
  { intro Hnil. pose proof (select_credential_stored _ _ _ _ Hsel) as Hin.
    rewrite Hnil in Hin. exact Hin. }
  cbn. rewrite Hid, Hun. repeat split.
Qed.

(** C1, as the code has it. The handler compares no counters itself: it
    leaves the comparison to the library. So, for a library that follows
    the counter rule of the WebAuthn standard, and a call with an
    outstanding challenge and a credential the SELECT finds: when the
    reported counter is not greater than the stored one and a counter is in
    use (one of the two is positive), the call fails and the world, the
    stored counter in it, is as it was; the failure is VerificationError
    when the library returns [verified: false] and the generic server error
    when it throws. And whatever the counters, a call that does not answer
    200 changes nothing, and a call that answers 200 sets every stored
    counter of the identifier to the reported counter, which was not stale:
    for a counter that is not negative, the stored counter does not
    decrease. *)
Theorem stale_counter_is_refused
    (body : Request.body) (w : world) (ch : string) (cred : WebAuthn.credential)
    (rec : Pg.credential_record) (rest : list Pg.credential_record) :
  checks_counter lib ->
  Session.currentChallenge (session w) = Some ch ->
  outstanding (session w) = true ->
  Request.credential body = Some cred ->
  Pg.select_credential (bufferToBase64url (Node.from_string (WebAuthn.rawId cred)))
    (Pg.committed (db w)) = rec :: rest ->
  ((WebAuthn.ad_signCount (WebAuthn.authenticatorData cred) <= Pg.cr_counter rec)%Z ->
   (0 < WebAuthn.ad_signCount (WebAuthn.authenticatorData cred) \/ 0 < Pg.cr_counter rec)%Z ->
   match WebAuthn.verifyAuthenticationResponse (authentication_args (Some cred) ch rec) with
   | JS.Throw _ =>
       login_verify body w = (JS.Normal authentication_failed, w)
       /\ Taxonomy.of_response authentication_failed = Some Taxonomy.ServerError
   | JS.Normal v =>
       WebAuthn.auth_verified v = false
       /\ login_verify body w = (JS.Normal verification_failed, w)
       /\ Taxonomy.of_response verification_failed = Some Taxonomy.VerificationError
   end)
  /\ (forall r w',
        login_verify body w = (JS.Normal r, w') ->
        (Response.status r <> 200%Z /\ w' = w)
        \/ (Response.status r = 200%Z
            /\ stored_counters (bufferToBase64url (Node.from_string (WebAuthn.rawId cred)))
                 (Pg.committed (db w')) =
               map (fun _ => WebAuthn.ad_signCount (WebAuthn.authenticatorData cred))
                 (stored_counters (bufferToBase64url (Node.from_string (WebAuthn.rawId cred)))
                    (Pg.committed (db w)))
            /\ stale (WebAuthn.ad_signCount (WebAuthn.authenticatorData cred))
                 (Pg.cr_counter rec) = false
            /\ ((0 <= WebAuthn.ad_signCount (WebAuthn.authenticatorData cred))%Z ->
                (Pg.cr_counter rec
                 <= WebAuthn.ad_signCount (WebAuthn.authenticatorData cred))%Z))).
Proof.
  intros Hrule Hch Hout Hcred Hsel.
  rewrite (login_verify_known body w ch cred rec rest Hch Hout Hcred Hsel).
  destruct (WebAuthn.verifyAuthenticationResponse _) as [v|e] eqn:Hlib.
  2:{ split; [intros _ _; split; reflexivity|].
      intros r w' [= <- <-]. left. split; [discriminate|reflexivity]. }
  destruct (WebAuthn.auth_verified v) eqn:Hv.
  2:{ split; [intros _ _; repeat split|].
      intros r w' [= <- <-]. left. split; [discriminate|reflexivity]. }
  destruct (Hrule _ _ Hlib Hv) as (c & Hc & Hnew & Hfresh).
  unfold authentication_args in Hc, Hfresh.
  cbn [WebAuthn.va_response WebAuthn.va_authenticator WebAuthn.dev_counter] in Hc, Hfresh.
  injection Hc as <-.
  assert (Hcmp : ~ ((WebAuthn.ad_signCount (WebAuthn.authenticatorData cred)
                     <= Pg.cr_counter rec)%Z
                    /\ (0 < WebAuthn.ad_signCount (WebAuthn.authenticatorData cred)
                        \/ 0 < Pg.cr_counter rec)%Z)).
  { intros [Hle Huse]. unfold stale in Hfresh.
    apply andb_false_iff in Hfresh. destruct Hfresh as [H|H].
    - apply orb_false_iff in H. destruct H as [H1 H2].
      apply Z.ltb_ge in H1. apply Z.ltb_ge in H2. lia.
    - apply Z.leb_gt in H. lia. }
  split; [intros Hle Huse; exfalso; apply Hcmp; now split|].
  intros r w' [= <- <-]. right. split; [reflexivity|].
  cbn [db session Pg.committed Pg.with_committed].
  rewrite Hnew. split; [apply stored_counters_update|]. split; [exact Hfresh|].
  intro Hpos. lia.
Qed.

End VerifyClaims.

(** *** Concrete runs of the verify routes *)

Lemma verify_without_challenge_witness :
  (is_verify (LoginVerify (Scenario.post (Scenario.assertion "c2" origin 1 Scenario.key))) = true
   /\ outstanding Session.empty = false)
  /\ exists r,
       @run Scenario.server
         (LoginVerify (Scenario.post (Scenario.assertion "c2" origin 1 Scenario.key)))
         {| db := Scenario.registered 0; session := Session.empty |}
       = (JS.Normal r, {| db := Scenario.registered 0; session := Session.empty |})
       /\ Response.status r = 400%Z
       /\ Taxonomy.of_response r = Some Taxonomy.StateError.
Proof.
  split; [split; reflexivity|].
  apply (@verify_without_challenge_is_state_error Scenario.server); reflexivity.
Defined.

(** Against C4 as stated: a login whose signature is by another key, and a
    registration answered for another challenge, both fail with the
    challenge outstanding, and both leave it (and the pending user) in the
    session. *)
Lemma failed_verify_keeps_challenge :
  (outstanding (session (Scenario.at_login 7 "c2")) = true
   /\ @login_verify Scenario.server
        (Scenario.post (Scenario.assertion "c2" origin 9 Scenario.other_key))
        (Scenario.at_login 7 "c2")
      = (JS.Normal verification_failed, Scenario.at_login 7 "c2")
   /\ Session.currentChallenge (session (Scenario.at_login 7 "c2")) = Some "c2")
  /\ (outstanding (session (Scenario.at_registration "c1")) = true
      /\ @register_verify Scenario.quiet_server
           (Scenario.post (Scenario.attestation "c0" origin 0))
           (Scenario.at_registration "c1")
         = (JS.Normal verification_failed, Scenario.at_registration "c1")
      /\ Session.currentChallenge (session (Scenario.at_registration "c1")) = Some "c1"
      /\ Session.registrationUser (session (Scenario.at_registration "c1")) <> None).
Proof.
  split; [repeat split|]. split; [reflexivity|]. split; [reflexivity|].
  split; [reflexivity|]. discriminate.
Qed.

Lemma verify_clears_challenge_witness :
  (Response.status (Response.json_ (Response.verified (public_fields Scenario.alice))) = 200%Z ->
     Session.currentChallenge
       (session {| db := Scenario.registered 9;
                   session := authenticated_as 4 "alice" (Scenario.logging_in "c2") |}) = None
     /\ (forall body,
           LoginVerify (Scenario.post (Scenario.assertion "c2" origin 9 Scenario.key))
             = RegisterVerify body ->
           Session.registrationUser
             (session {| db := Scenario.registered 9;
                         session := authenticated_as 4 "alice" (Scenario.logging_in "c2") |})
           = None))
  /\ (Response.status (Response.json_ (Response.verified (public_fields Scenario.alice)))
        <> 200%Z ->
      session {| db := Scenario.registered 9;
                 session := authenticated_as 4 "alice" (Scenario.logging_in "c2") |}
      = session (Scenario.at_login 7 "c2")).
Proof.
  apply (@verify_clears_challenge_on_success_only Scenario.server
           (LoginVerify (Scenario.post (Scenario.assertion "c2" origin 9 Scenario.key)))
           (Scenario.at_login 7 "c2")); reflexivity.
Defined.

(** A client that posts the identifier of alice's passkey itself, as text,
    in [rawId], is such a request. *)
Example login_verify_accepts_example :
  exists w' c u,
    @login_verify Scenario.server
      (Scenario.post (Scenario.assertion "c2" origin 9 Scenario.key))
      (Scenario.at_login 7 "c2")
      = (JS.Normal (Response.json_ (Response.verified (public_fields u))), w')
    /\ In c (Pg.credentials (Pg.committed (Scenario.registered 7)))
    /\ In u (Pg.users (Pg.committed (Scenario.registered 7)))
    /\ Pg.credential_id c = bufferToBase64url Scenario.cid
    /\ Pg.user_id c = Pg.id u
    /\ stored_counters (bufferToBase64url Scenario.cid) (Pg.committed (db w')) =
       map (fun _ => 9%Z)
         (stored_counters (bufferToBase64url Scenario.cid)
            (Pg.committed (Scenario.registered 7)))
    /\ stored_counters (bufferToBase64url Scenario.cid)
         (Pg.committed (Scenario.registered 7)) <> []
    /\ Pg.users (Pg.committed (db w')) = Pg.users (Pg.committed (Scenario.registered 7))
    /\ Session.currentChallenge (session w') = None
    /\ Session.userId (session w') = Some (Pg.id u)
    /\ Session.username (session w') = Some (Pg.username u).
Proof.
  apply (@login_verify_accepts Scenario.server
           (Scenario.post (Scenario.assertion "c2" origin 9 Scenario.key))
           (Scenario.at_login 7 "c2") "c2"
           (Scenario.assertion "c2" origin 9 Scenario.key)
           {| Pg.cr_credential_id := "aWQwMQ"; Pg.cr_public_key := "AQID";
              Pg.cr_counter := 7; Pg.cr_user_id := 4; Pg.cr_username := "alice";
              Pg.cr_email := "alice@example.com" |}
           []
           {| WebAuthn.auth_verified := true;
              WebAuthn.authenticationInfo := {| WebAuthn.newCounter := 9 |} |});
    reflexivity.
Qed.

(** Against C1 as stated. The stand-in library follows the counter rule of
    the WebAuthn standard. An authenticator that keeps no counter reports
    0 against a stored 0: the reported counter is not greater, and the
    call succeeds. A reported 5 against a stored 7 makes the library throw:
    the call fails, with the generic server error and not with
    VerificationError. *)
Lemma stale_counter_not_a_verification_error :
  (outstanding (session (Scenario.at_login 0 "c2")) = true
   /\ Pg.select_credential (bufferToBase64url Scenario.cid)
        (Pg.committed (db (Scenario.at_login 0 "c2")))
      = [ {| Pg.cr_credential_id := "aWQwMQ"; Pg.cr_public_key := "AQID";
             Pg.cr_counter := 0; Pg.cr_user_id := 4; Pg.cr_username := "alice";
             Pg.cr_email := "alice@example.com" |} ]
   /\ (WebAuthn.ad_signCount
         (WebAuthn.authenticatorData (Scenario.assertion "c2" origin 0 Scenario.key))
       <= Pg.counter (Scenario.passkey 0))%Z
   /\ fst (@login_verify Scenario.server
             (Scenario.post (Scenario.assertion "c2" origin 0 Scenario.key))
             (Scenario.at_login 0 "c2"))
      = JS.Normal (Response.json_ (Response.verified (public_fields Scenario.alice))))
  /\ (outstanding (session (Scenario.at_login 7 "c2")) = true
      /\ (WebAuthn.ad_signCount
            (WebAuthn.authenticatorData (Scenario.assertion "c2" origin 5 Scenario.key))
          <= Pg.counter (Scenario.passkey 7))%Z
      /\ fst (@login_verify Scenario.server
                (Scenario.post (Scenario.assertion "c2" origin 5 Scenario.key))
                (Scenario.at_login 7 "c2"))
         = JS.Normal authentication_failed
      /\ Taxonomy.of_response authentication_failed = Some Taxonomy.ServerError).
Proof.
  split.
  - split; [reflexivity|]. split; [reflexivity|]. split; [cbn; lia|reflexivity].
  - split; [reflexivity|]. split; [cbn; lia|]. split; reflexivity.
Qed.

(** The stand-in library follows the counter rule. *)
Lemma stub_checks_counter throws : checks_counter (Stub.library throws).
Proof.
  intros args v. cbn [WebAuthn.verifyAuthenticationResponse Stub.library].
  unfold Stub.verify_authentication, Stub.refuse.
  destruct (WebAuthn.va_response args) as [c|]; [|discriminate].
  repeat match goal with
  | |- context [if negb ?b then _ else _] =>
      destruct b; cbn [negb];
        [|destruct throws; [discriminate|intros [= <-]; discriminate]]
  end.
  fold (stale (WebAuthn.ad_signCount (WebAuthn.authenticatorData c))
          (WebAuthn.dev_counter (WebAuthn.va_authenticator args))).
  destruct (stale _ _) eqn:Hstale;
    [destruct throws; [discriminate|intros [= <-]; discriminate]|].
  intros [= <-] _. exists c. now repeat split.
Qed.

(** A reported 5 against a stored 7, by the right key for the right
    challenge: the stand-in throws, the call answers the generic server
    error, and alice's counter stays at 7. *)
Lemma stale_counter_witness :
  @login_verify Scenario.server
    (Scenario.post (Scenario.assertion "c2" origin 5 Scenario.key))
    (Scenario.at_login 7 "c2")
  = (JS.Normal authentication_failed, Scenario.at_login 7 "c2")
  /\ Taxonomy.of_response authentication_failed = Some Taxonomy.ServerError.
Proof.
  pose proof (@stale_counter_is_refused Scenario.server
           (Scenario.post (Scenario.assertion "c2" origin 5 Scenario.key))
           (Scenario.at_login 7 "c2") "c2"
           (Scenario.assertion "c2" origin 5 Scenario.key)
           {| Pg.cr_credential_id := "aWQwMQ"; Pg.cr_public_key := "AQID";
              Pg.cr_counter := 7; Pg.cr_user_id := 4; Pg.cr_username := "alice";
              Pg.cr_email := "alice@example.com" |}
           [] (stub_checks_counter true) eq_refl eq_refl eq_refl eq_refl) as [Hstale _].
  apply Hstale; cbn; lia.
Defined.

(** ** One answer for every rejected verification *)

Section Rejections.
Context {lib : WebAuthn.Server}.

Lemma rejected_answer c w :
  rejected c w -> run c w = (JS.Normal verification_failed, w).
Proof.
  destruct c; cbn [rejected run]; try contradiction.
  - intros (ch & userData & v & Hch & Hout & Hud & Hlib & Hv).
    rewrite (register_verify_in_progress body w ch userData Hch Hout Hud), Hlib.
    destruct Hv as [-> | ->]; [reflexivity|].
    destruct (WebAuthn.reg_verified v); reflexivity.
  - intros (ch & cred & rec & rest & v & Hch & Hout & Hcred & Hsel & Hlib & Hv).
    now rewrite (login_verify_known body w ch cred rec rest Hch Hout Hcred Hsel), Hlib, Hv.
Qed.

(** A verify call answers VerificationError only when the library
    rejected its response. *)
Lemma verification_error_only_when_rejected c w r :
  is_verify c = true ->
  fst (run c w) = JS.Normal r ->
  Taxonomy.of_response r = Some Taxonomy.VerificationError ->
  rejected c w.
Proof.
  intros Hc. destruct c; try discriminate Hc; cbn [run rejected].
  - destruct (outstanding (session w)) eqn:Hout.
    2:{ rewrite register_verify_no_ceremony by now left.
        cbn. intros [= <-]. discriminate. }
    destruct (outstanding_challenge _ Hout) as [ch Hch].
    destruct (Session.registrationUser (session w)) as [userData|] eqn:Hud.
    2:{ rewrite register_verify_no_ceremony by now right.
        cbn. intros [= <-]. discriminate. }
    rewrite (register_verify_in_progress body w ch userData Hch Hout Hud).
    destruct (WebAuthn.verifyRegistrationResponse _) as [v|e] eqn:Hlib.
    2:{ cbn. intros [= <-]. discriminate. }
    destruct (WebAuthn.reg_verified v) eqn:Hv.
    2:{ intros _ _. exists ch, userData, v.
        repeat (split; [assumption || reflexivity|]). now left. }
    destruct (WebAuthn.registrationInfo v) as [info|] eqn:Hinfo.
    2:{ intros _ _. exists ch, userData, v.
        repeat (split; [assumption || reflexivity|]). now right. }
    destruct (register_transaction_outcome (Request.credential body) userData info w)
      as [(e & d' & -> & _)|(cred & d' & _ & -> & _)];
      cbn; intros [= <-]; discriminate.
  - destruct (outstanding (session w)) eqn:Hout.
    2:{ rewrite login_verify_no_challenge by assumption. cbn. intros [= <-]. discriminate. }
    destruct (outstanding_challenge _ Hout) as [ch Hch].
    destruct (Request.credential body) as [cred|] eqn:Hcred.
    2:{ rewrite login_verify_no_credential by assumption. cbn. intros [= <-]. discriminate. }
    destruct (Pg.select_credential (bufferToBase64url (Node.from_string (WebAuthn.rawId cred)))
                (Pg.committed (db w))) as [|rec rest] eqn:Hsel.
    { rewrite (login_verify_unknown body w cred) by assumption.
      cbn. intros [= <-]. discriminate. }
    rewrite (login_verify_known body w ch cred rec rest Hch Hout Hcred Hsel).
    destruct (WebAuthn.verifyAuthenticationResponse _) as [v|e] eqn:Hlib.
    2:{ cbn. intros [= <-]. discriminate. }
    destruct (WebAuthn.auth_verified v) eqn:Hv.
    { cbn. intros [= <-]. discriminate. }
    intros _ _. exists ch, cred, rec, rest, v.
    repeat (split; [assumption || reflexivity|]). assumption.
Qed.

Lemma threw_answer c w :
  threw c w -> run c w = (JS.Normal (verify_failed c), w).
Proof.
  destruct c; cbn [threw run verify_failed]; try contradiction.
  - intros (ch & userData & e & Hch & Hout & Hud & Hlib).
    now rewrite (register_verify_in_progress body w ch userData Hch Hout Hud), Hlib.
  - intros (ch & cred & rec & rest & e & Hch & Hout & Hcred & Hsel & Hlib).
    now rewrite (login_verify_known body w ch cred rec rest Hch Hout Hcred Hsel), Hlib.
Qed.

(** The library returns or throws, not both. *)
Lemma rejected_not_threw c w : rejected c w -> threw c w -> False.
Proof.
  destruct c; cbn [rejected threw]; try contradiction.
  - intros (ch & ud & v & Hch & _ & _ & Hlib & _) (ch' & ud' & e & Hch' & _ & _ & Hlib').
    congruence.
  - intros (ch & cred & rec & rest & v & Hch & _ & Hcred & Hsel & Hlib & _)
           (ch' & cred' & rec' & rest' & e & Hch' & _ & Hcred' & Hsel' & Hlib').
    rewrite Hch' in Hch. injection Hch as ->.
    rewrite Hcred' in Hcred. injection Hcred as ->.
    rewrite Hsel' in Hsel. injection Hsel as -> ->. congruence.
Qed.

Lemma verification_failed_is_no_exception c : verification_failed <> verify_failed c.
Proof. destruct c; discriminate. Qed.

(** C8, as the code has it. A verify call whose response the library did
    not accept is answered with one of two constants, and the world is
    left as it was: 400 "Verification failed", the VerificationError of
    the spec, when the library returned without verifying; the 500 of the
    route's [catch] block when the library threw. Neither carries anything
    of the response, of the check that failed, or of the exception. So two
    such calls of one route get the same answer exactly when the library
    refused both in the same manner: the caller learns whether the library
    returned or threw, and nothing else. *)
Theorem failed_verifications_differ_by_manner_only (c1 c2 : call) (w1 w2 : world) :
  rejected c1 w1 \/ threw c1 w1 ->
  rejected c2 w2 \/ threw c2 w2 ->
  same_route c1 c2 = true ->
  exists r1 r2,
    run c1 w1 = (JS.Normal r1, w1)
    /\ run c2 w2 = (JS.Normal r2, w2)
    /\ (r1 = verification_failed \/ r1 = verify_failed c1)
    /\ (r2 = verification_failed \/ r2 = verify_failed c2)
    /\ (Taxonomy.of_response r1 = Some Taxonomy.VerificationError <-> rejected c1 w1)
    /\ (Taxonomy.of_response r2 = Some Taxonomy.VerificationError <-> rejected c2 w2)
    /\ (r1 = r2 <-> (rejected c1 w1 <-> rejected c2 w2)).
Proof.
  intros H1 H2 Hroute.
  assert (Hsame : verify_failed c1 = verify_failed c2).
  { destruct c1; try discriminate Hroute; destruct c2; try discriminate Hroute; reflexivity. }
  assert (Hkind : forall c, Taxonomy.of_response (verify_failed c)
                            <> Some Taxonomy.VerificationError).
  { intro c. destruct c; discriminate. }
  assert (Hno : forall c w, threw c w -> ~ rejected c w).
  { intros c w Ht Hr. exact (rejected_not_threw c w Hr Ht). }
  destruct H1 as [H1|H1], H2 as [H2|H2].
  - exists verification_failed, verification_failed.
    rewrite (rejected_answer c1 w1 H1), (rejected_answer c2 w2 H2).
    split; [reflexivity|]. split; [reflexivity|]. split; [now left|]. split; [now left|].
    split; [split; [intros _; exact H1|reflexivity]|].
    split; [split; [intros _; exact H2|reflexivity]|].
    split; [intros _; split; intros _; assumption|reflexivity].
  - exists verification_failed, (verify_failed c2).
    rewrite (rejected_answer c1 w1 H1), (threw_answer c2 w2 H2).
    split; [reflexivity|]. split; [reflexivity|]. split; [now left|]. split; [now right|].
    split; [split; [intros _; exact H1|reflexivity]|].
    split; [split; [intro Hk; now apply Hkind in Hk|intro Hr; now apply Hno in H2]|].
    split.
    + intro Heq. now apply verification_failed_is_no_exception in Heq.
    + intros [Hr _]. exfalso. apply (Hno c2 w2 H2). apply Hr. exact H1.
  - exists (verify_failed c1), verification_failed.
    rewrite (threw_answer c1 w1 H1), (rejected_answer c2 w2 H2).
    split; [reflexivity|]. split; [reflexivity|]. split; [now right|]. split; [now left|].
    split; [split; [intro Hk; now apply Hkind in Hk|intro Hr; now apply Hno in H1]|].
    split; [split; [intros _; exact H2|reflexivity]|].
    split.
    + intro Heq. symmetry in Heq. now apply verification_failed_is_no_exception in Heq.
    + intros [_ Hr]. exfalso. apply (Hno c1 w1 H1). apply Hr. exact H2.
  - exists (verify_failed c1), (verify_failed c2).
    rewrite (threw_answer c1 w1 H1), (threw_answer c2 w2 H2).
    split; [reflexivity|]. split; [reflexivity|]. split; [now right|]. split; [now right|].
    split; [split; [intro Hk; now apply Hkind in Hk|intro Hr; now apply Hno in H1]|].
    split; [split; [intro Hk; now apply Hkind in Hk|intro Hr; now apply Hno in H2]|].
    split; [intros _|intros _; exact Hsame].
    split; intro Hr; [now apply Hno in H1|now apply Hno in H2].
Qed.

End Rejections.

(** Against C8 as stated. Of the reasons the claim lists, the library (as
    the stand-in does) reports the bad signature by returning
    [verified: false] and the others by throwing. A login signed by
    another key is answered with VerificationError; a login answered for
    another challenge, from another origin, or without user presence gets
    the 500 of the [catch] block: the caller tells a bad signature from the
    other failures. *)
Lemma bad_signature_is_told_apart :
  @run Scenario.server
    (LoginVerify (Scenario.post (Scenario.assertion "c2" origin 9 Scenario.other_key)))
    (Scenario.at_login 7 "c2")
  = (JS.Normal verification_failed, Scenario.at_login 7 "c2")
  /\ @run Scenario.server
       (LoginVerify (Scenario.post (Scenario.assertion "c1" origin 9 Scenario.key)))
       (Scenario.at_login 7 "c2")
     = (JS.Normal authentication_failed, Scenario.at_login 7 "c2")
  /\ @run Scenario.server
       (LoginVerify
          (Scenario.post (Scenario.assertion "c2" "http://localhost:9999" 9 Scenario.key)))
       (Scenario.at_login 7 "c2")
     = (JS.Normal authentication_failed, Scenario.at_login 7 "c2")
  /\ @run Scenario.server
       (LoginVerify (Scenario.post (Scenario.unattended "c2" origin 9 Scenario.key)))
       (Scenario.at_login 7 "c2")
     = (JS.Normal authentication_failed, Scenario.at_login 7 "c2")
  /\ Taxonomy.of_response verification_failed = Some Taxonomy.VerificationError
  /\ Taxonomy.of_response authentication_failed = Some Taxonomy.ServerError
  /\ verification_failed <> authentication_failed.
Proof. repeat split. discriminate. Qed.

(** A login answered for another challenge and a login from another
    origin: two reasons, both thrown by the stand-in, one answer. *)
Lemma failed_verifications_witness :
  exists r1 r2,
    @run Scenario.server
      (LoginVerify (Scenario.post (Scenario.assertion "c1" origin 9 Scenario.key)))
      (Scenario.at_login 7 "c2") = (JS.Normal r1, Scenario.at_login 7 "c2")
    /\ @run Scenario.server
         (LoginVerify
            (Scenario.post (Scenario.assertion "c2" "http://localhost:9999" 9 Scenario.key)))
         (Scenario.at_login 7 "c2") = (JS.Normal r2, Scenario.at_login 7 "c2")
    /\ r1 = authentication_failed
    /\ r2 = authentication_failed
    /\ r1 = r2.
Proof.
  destruct (@failed_verifications_differ_by_manner_only Scenario.server
              (LoginVerify (Scenario.post (Scenario.assertion "c1" origin 9 Scenario.key)))
              (LoginVerify
                 (Scenario.post
                    (Scenario.assertion "c2" "http://localhost:9999" 9 Scenario.key)))
              (Scenario.at_login 7 "c2") (Scenario.at_login 7 "c2"))
    as (r1 & r2 & Hrun1 & Hrun2 & _).
  - right. cbn [threw]. do 5 eexists.
    split; [reflexivity|]. split; [reflexivity|]. split; [reflexivity|].
    split; reflexivity.
  - right. cbn [threw]. do 5 eexists.
    split; [reflexivity|]. split; [reflexivity|]. split; [reflexivity|].
    split; reflexivity.
  - reflexivity.
  - exists r1, r2. split; [exact Hrun1|]. split; [exact Hrun2|].
    injection Hrun1 as <-. injection Hrun2 as <-. repeat split.
Defined.

(** ** [/login/start] *)

Section LoginStart.
Context {lib : WebAuthn.Server}.
Import Pg.

(** The rows of the SELECT of [/login/start]: the identifier and the
    transports of every credential row joined to a user of that name. *)
Lemma select_credentials_of_row un t cid tr :
  In (cid, tr) (select_credentials_of un t) <->
  exists c u,
    In c (credentials t) /\ In u (users t)
    /\ user_id c = id u /\ username u = un
    /\ credential_id c = cid /\ transports c = tr.
Proof.
  unfold select_credentials_of. rewrite in_flat_map. split.
  - intros (c & Hc & Hrow). apply in_map_iff in Hrow. destruct Hrow as (u & Heq & Hu).
    apply filter_In in Hu. destruct Hu as [Hu Hjoin].
    apply andb_true_iff in Hjoin. destruct Hjoin as [Hid Hun].
    apply Z.eqb_eq in Hid. apply String.eqb_eq in Hun. inversion Heq; subst.
    exists c, u. now repeat split.
  - intros (c & u & Hc & Hu & Hid & Hun & <- & <-).
    exists c. split; [exact Hc|]. apply in_map_iff. exists u. split; [reflexivity|].
    apply filter_In. split; [exact Hu|]. apply andb_true_iff. split.
    + now apply Z.eqb_eq.
    + now apply String.eqb_eq.
Qed.

Lemma select_credentials_of_nil un t :
  select_credentials_of un t = [] <->
  forall c u, In c (credentials t) -> In u (users t) ->
              user_id c = id u -> username u <> un.
Proof.
  split.
  - intros Hnil c u Hc Hu Hid Hun.
    assert (Hin : In (credential_id c, transports c) (select_credentials_of un t)).
    { apply select_credentials_of_row. exists c, u. now repeat split. }
    rewrite Hnil in Hin. exact Hin.
  - intro Hnone. destruct (select_credentials_of un t) as [|[cid tr] rows] eqn:Hsel;
      [reflexivity|].
    assert (Hin : In (cid, tr) (select_credentials_of un t)) by (rewrite Hsel; now left).
    apply select_credentials_of_row in Hin.
    destruct Hin as (c & u & Hc & Hu & Hid & Hun & _). now destruct (Hnone c u).
Qed.

Lemma login_start_named amb body w un :
  Request.username body = Some un ->
  JS.truthy (Some un) = true ->
  login_start amb body w =
  match select_credentials_of un (committed (db w)) with
  | [] => (JS.Normal user_not_found, w)
  | rows =>
      match WebAuthn.generateAuthenticationOptions (Request.entropy amb)
              {| WebAuthn.aoa_rpID := rpID;
                 WebAuthn.aoa_userVerification := "preferred";
                 WebAuthn.aoa_allowCredentials := Some (map allow_credential_of rows) |} with
      | JS.Normal o =>
          (JS.Normal (Response.json_ (Response.request_options o)),
           with_session (set_currentChallenge (Some (WebAuthn.ro_challenge o)) (session w)) w)
      | JS.Throw _ => (JS.Normal start_failed, w)
      end
  end.
Proof.
  intros Hun Htruthy. unfold login_start, login_start_options. rewrite Hun, Htruthy.
  async. cbn [with_session session db].
  destruct (select_credentials_of un (committed (db w))) as [|row rows]; [reflexivity|].
  cbn [List.length Nat.eqb].
  destruct (WebAuthn.generateAuthenticationOptions _ _); reflexivity.
Qed.

(** C6, as the code has it. A call of [/login/start] with a non-empty
    username fails with NotFoundError (404, "User not found") if and only
    if no credential row is joined to a user of that name: no such user,
    or a user who has registered no credential. Otherwise the library is
    asked for options with, as allowed credentials, exactly the credential
    identifiers (decoded) of the users of that name with their transport
    hints; its options are the answer, and its challenge is stored. *)
Theorem login_start_not_found_iff_no_credential
    (amb : Request.ambient) (body : Request.body) (w : world) (un : string) :
  Request.username body = Some un ->
  JS.truthy (Some un) = true ->
  (fst (login_start amb body w) = JS.Normal user_not_found
   <-> forall c u, In c (credentials (committed (db w))) ->
                   In u (users (committed (db w))) ->
                   user_id c = id u -> username u <> un)
  /\ (Taxonomy.of_response user_not_found = Some Taxonomy.NotFoundError)
  /\ (forall cid tr,
        In (cid, tr) (select_credentials_of un (committed (db w))) <->
        exists c u,
          In c (credentials (committed (db w))) /\ In u (users (committed (db w)))
          /\ user_id c = id u /\ username u = un
          /\ credential_id c = cid /\ transports c = tr)
  /\ (select_credentials_of un (committed (db w)) <> [] ->
      login_start amb body w =
      match WebAuthn.generateAuthenticationOptions (Request.entropy amb)
              {| WebAuthn.aoa_rpID := rpID;
                 WebAuthn.aoa_userVerification := "preferred";
                 WebAuthn.aoa_allowCredentials :=
                   Some (map allow_credential_of
                           (select_credentials_of un (committed (db w)))) |} with
      | JS.Normal o =>
          (JS.Normal (Response.json_ (Response.request_options o)),
           with_session (set_currentChallenge (Some (WebAuthn.ro_challenge o)) (session w)) w)
      | JS.Throw _ => (JS.Normal start_failed, w)
      end).
Proof.
  intros Hun Htruthy. rewrite (login_start_named amb body w un Hun Htruthy).
  split; [|split; [reflexivity|split; [apply select_credentials_of_row|]]].
  - rewrite <- select_credentials_of_nil.
    destruct (select_credentials_of un (committed (db w))) as [|row rows].
    + split; reflexivity.
    + split; [|discriminate].
      destruct (WebAuthn.generateAuthenticationOptions _ _); cbn; discriminate.
  - destruct (select_credentials_of un (committed (db w))) as [|row rows];
      [intro H; now contradiction H|reflexivity].
Qed.

End LoginStart.

(** Against C6 as stated: "james", a sample user of the first migration,
    exists and has no passkey; [/login/start] for "james" answers 404. *)
Lemma existing_user_without_passkey_not_found :
  In {| Pg.id := 1; Pg.username := "james"; Pg.email := "james@bluebottle.com" |}
     (Pg.users (Pg.committed Scenario.migrated))
  /\ Request.username (Scenario.named (Some "james") None) = Some "james"
  /\ @login_start Scenario.server (Scenario.drawing "c2")
       (Scenario.named (Some "james") None)
       {| db := Scenario.migrated; session := Session.empty |}
     = (JS.Normal user_not_found, {| db := Scenario.migrated; session := Session.empty |}).
Proof. split; [now left|]. split; reflexivity. Qed.

Lemma login_start_witness :
  @login_start Scenario.server (Scenario.drawing "c2")
    (Scenario.named (Some "alice") None)
    {| db := Scenario.registered 0; session := Session.empty |}
  = (JS.Normal (Response.json_ (Response.request_options
       {| WebAuthn.ro_challenge := "c2";
          WebAuthn.ro_args :=
            {| WebAuthn.aoa_rpID := rpID;
               WebAuthn.aoa_userVerification := "preferred";
               WebAuthn.aoa_allowCredentials :=
                 Some [ {| WebAuthn.ac_id := Scenario.cid;
                           WebAuthn.ac_type := "public-key";
                           WebAuthn.ac_transports := ["internal"] |} ] |} |})),
     Scenario.at_login 0 "c2").
Proof.
  pose proof (@login_start_not_found_iff_no_credential Scenario.server
                (Scenario.drawing "c2") (Scenario.named (Some "alice") None)
                {| db := Scenario.registered 0; session := Session.empty |}
                "alice" eq_refl eq_refl) as [_ [_ [_ H]]].
  exact (H ltac:(discriminate)).
Defined.

(** ** Atomicity of registration *)

Section Atomicity.
Context {lib : WebAuthn.Server}.
Import Pg.

Lemma register_start_db amb body w : db (snd (register_start amb body w)) = db w.
Proof.
  unfold register_start. async.
  destruct (Request.username body) as [un|]; [|reflexivity].
  destruct (Request.email body) as [em|]; [|reflexivity].
  destruct (negb (JS.truthy (Some un)) || negb (JS.truthy (Some em))); [reflexivity|].
  destruct (0 <? List.length _)%nat; [reflexivity|].
  destruct (WebAuthn.generateRegistrationOptions _ _); reflexivity.
Qed.

Lemma login_start_db amb body w : db (snd (login_start amb body w)) = db w.
Proof.
  unfold login_start, login_start_options. async.
  destruct (Request.username body) as [un|].
  - destruct (JS.truthy (Some un)).
    + destruct (List.length _ =? 0)%nat; [reflexivity|].
      destruct (WebAuthn.generateAuthenticationOptions _ _); reflexivity.
    + destruct (WebAuthn.generateAuthenticationOptions _ _); reflexivity.
  - destruct (WebAuthn.generateAuthenticationOptions _ _); reflexivity.
Qed.

Lemma get_session_db w : db (snd (get_session w)) = db w.
Proof.
  unfold get_session. async. cbn.
  destruct (Session.userId (session w)) as [uid|]; [|reflexivity].
  destruct (JS.truthy_number (Some uid)); reflexivity.
Qed.

Lemma references_hold_update n cid t :
  references_hold t -> references_hold (update_counter n cid t).
Proof.
  intros Hrefs c Hc. unfold update_counter in Hc. cbn [credentials] in Hc.
  apply in_map_iff in Hc. destruct Hc as (c0 & Hc0 & Hin).
  destruct (Hrefs c0 Hin) as (u & Hu & Hid). exists u. split; [exact Hu|].
  destruct (credential_id c0 =? cid); subst c; exact Hid.
Qed.

Lemma references_hold_added u c t :
  references_hold t -> user_id c = id u ->
  references_hold (credential_added c (user_added u t)).
Proof.
  intros Hrefs Hown c' Hc'. cbn in Hc'. apply in_app_or in Hc'.
  destruct Hc' as [Hold|[<-|[]]].
  - destruct (Hrefs c' Hold) as (u' & Hu' & Hid). exists u'. split; [|exact Hid].
    cbn. apply in_or_app. now left.
  - exists u. split; [|now symmetry]. cbn. apply in_or_app. right. now left.
Qed.

(** Every route keeps the references. *)
Lemma run_keeps_references c w :
  references_hold (committed (db w)) ->
  references_hold (committed (db (snd (run c w)))).
Proof.
  intro Hrefs. destruct c; cbn [run].
  - now rewrite register_start_db.
  - destruct (register_verify_outcome body w)
      as [(r & d' & -> & _ & Hsame)
         |(ch & ud & info & cred & d' & _ & _ & _ & _ & -> & Hnew & _)];
      cbn [snd db].
    + now rewrite Hsame.
    + rewrite Hnew. now apply references_hold_added.
  - now rewrite login_start_db.
  - destruct (login_verify_outcome body w)
      as [(r & -> & _)|(ch & cred & rec & rest & v & _ & _ & _ & _ & _ & ->)];
      cbn [snd db]; [exact Hrefs|].
    cbn. now apply references_hold_update.
  - now rewrite get_session_db.
  - exact Hrefs.
Qed.

Lemma reachable_references w : reachable w -> references_hold (committed (db w)).
Proof.
  induction 1 as [us useq cseq s|c w _ IH|s w _ IH].
  - intros c [].
  - now apply run_keeps_references.
  - exact IH.
Qed.

(** C2. A registration verify call either commits the User row and its
    Credential row together, the credential referencing the new user, and
    answers 200 with that user; or it answers an error and the committed
    tables are the ones it was given, with neither row. In every world the
    routes can bring about from an empty credentials table, each
    credential row references an existing user row. *)
Theorem register_verify_atomic :
  (forall body w,
     (committed (db (snd (register_verify body w))) = committed (db w)
      /\ exists r, fst (register_verify body w) = JS.Normal r
                   /\ Response.status r <> 200%Z)
     \/ (exists u c,
           committed (db (snd (register_verify body w)))
             = credential_added c (user_added u (committed (db w)))
           /\ user_id c = id u
           /\ fst (register_verify body w)
              = JS.Normal (Response.json_ (Response.verified (public_fields u)))))
  /\ (forall w, reachable w -> references_hold (committed (db w))).
Proof.
  split; [|exact reachable_references].
  intros body w.
  destruct (register_verify_outcome body w)
    as [(r & d' & -> & Hst & Hsame)
       |(ch & ud & info & cred & d' & _ & _ & _ & _ & -> & Hnew & _)];
    cbn [fst snd db].
  - left. split; [exact Hsame|]. now exists r.
  - right. do 2 eexists. split; [exact Hnew|]. split; reflexivity.
Qed.

End Atomicity.

(** Alice registers: both rows appear. *)
Lemma registration_commits_both_rows :
  @register_verify Scenario.server
    (Scenario.post (Scenario.attestation "c1" origin 0)) (Scenario.at_registration "c1")
  = (JS.Normal (Response.json_ (Response.verified (public_fields Scenario.alice))),
     {| db := Scenario.registered 0;
        session := authenticated_as 4 "alice" Session.empty |}).
Proof. reflexivity. Qed.

(** Bob then registers with the credential identifier alice holds: his
    user row is inserted, the credential row violates UNIQUE
    (credential_id), and the rollback takes the user row away again; only
    the sequences have moved. *)
Lemma duplicate_passkey_rolls_back :
  @register_verify Scenario.server
    (Scenario.post (Scenario.attestation "c3" origin 0))
    {| db := Scenario.registered 0;
       session := set_registrationUser
                    (Some {| Session.ru_userId := "user_1700000000001_zzzzzzzzz";
                             Session.ru_username := "bob";
                             Session.ru_email := "bob@example.com" |})
                    (Scenario.logging_in "c3") |}
  = (JS.Normal registration_failed,
     {| db := {| Pg.committed := Pg.committed (Scenario.registered 0);
                 Pg.transaction := None;
                 Pg.users_id_seq := 5;
                 Pg.credentials_id_seq := 2 |};
        session := set_registrationUser
                     (Some {| Session.ru_userId := "user_1700000000001_zzzzzzzzz";
                              Session.ru_username := "bob";
                              Session.ru_email := "bob@example.com" |})
                     (Scenario.logging_in "c3") |}).
Proof. reflexivity. Qed.

Lemma register_verify_atomic_witness :
  references_hold
    (Pg.committed
       (db (snd (@run Scenario.server
                   (RegisterVerify (Scenario.post (Scenario.attestation "c1" origin 0)))
                   (Scenario.at_registration "c1"))))).
Proof.
  apply (proj2 (@register_verify_atomic Scenario.server)).
  apply reachable_call. apply (@reachable_migrated Scenario.server).
Defined.

(** ** A second start before the verify *)

Section LatestCeremonyWins.
Context {lib : WebAuthn.Server}.

Lemma register_start_stores_challenge amb body w r w' c :
  register_start amb body w = (JS.Normal r, w') ->
  options_challenge r = Some c ->
  Session.currentChallenge (session w') = Some c.
Proof.
  unfold register_start. async.
  destruct (Request.username body) as [un|]; [|intros [= <- <-]; discriminate].
  destruct (Request.email body) as [em|]; [|intros [= <- <-]; discriminate].
  destruct (negb (JS.truthy (Some un)) || negb (JS.truthy (Some em)));
    [intros [= <- <-]; discriminate|].
  destruct (0 <? List.length _)%nat; [intros [= <- <-]; discriminate|].
  destruct (WebAuthn.generateRegistrationOptions _ _) as [o|e];
    intros [= <- <-]; [|discriminate].
  cbn. congruence.
Qed.

Lemma login_start_stores_challenge amb body w r w' c :
  login_start amb body w = (JS.Normal r, w') ->
  options_challenge r = Some c ->
  Session.currentChallenge (session w') = Some c.
Proof.
  assert (opts : forall allow,
            try_catch (login_start_options amb allow)
              (fun _ => ret start_failed) w = (JS.Normal r, w') ->
            options_challenge r = Some c ->
            Session.currentChallenge (session w') = Some c).
  { intro allow. unfold login_start_options. async.
    destruct (WebAuthn.generateAuthenticationOptions _ _) as [o|e];
      intros [= <- <-]; [|discriminate].
    cbn. congruence. }
  unfold login_start.
  destruct (Request.username body) as [un|]; [|apply opts].
  destruct (JS.truthy (Some un)); [|apply opts].
  unfold try_catch at 1. unfold bind at 1. unfold pool_select at 1.
  destruct (List.length _ =? 0)%nat.
  - async. intros [= <- <-]. discriminate.
  - apply opts.
Qed.

Lemma start_stores_challenge s w r w' c :
  is_start s = true ->
  run s w = (JS.Normal r, w') ->
  options_challenge r = Some c ->
  Session.currentChallenge (session w') = Some c.
Proof.
  intro Hs. destruct s; try discriminate Hs; cbn [run].
  - apply register_start_stores_challenge.
  - apply login_start_stores_challenge.
Qed.

(** A verify call succeeds only on a response made for the challenge the
    session holds, when the library checks the challenge. *)
Lemma verify_succeeds_on_stored_challenge v w r w' :
  checks_challenge lib ->
  is_verify v = true ->
  run v w = (JS.Normal r, w') ->
  Response.status r = 200%Z ->
  exists c, Session.currentChallenge (session w) = Some c /\ signed_challenge v = Some c.
Proof.
  intros [Hreg Hauth] Hv. destruct v; try discriminate Hv; cbn [run signed_challenge].
  - destruct (register_verify_outcome body w)
      as [(r0 & d' & -> & Hst & _)
         |(ch & ud & info & cred & d' & Hch & _ & Hcred & Hlib & _)].
    + intros [= <- <-] H200. contradiction.
    + intros _ _. exists ch. split; [exact Hch|]. rewrite Hcred. cbn [option_map].
      destruct (Hreg _ _ Hlib eq_refl) as (c & [= <-] & Hc). now rewrite Hc.
  - destruct (login_verify_outcome body w)
      as [(r0 & -> & Hst)|(ch & cred & rec & rest & v & Hch & Hcred & _ & Hlib & Hver & _)].
    + intros [= <- <-] H200. contradiction.
    + intros _ _. exists ch. split; [exact Hch|]. rewrite Hcred. cbn [option_map].
      destruct (Hauth _ _ Hlib Hver) as (c & [= <-] & Hc). now rewrite Hc.
Qed.

End LatestCeremonyWins.

(** The stand-in library checks the challenge. *)
Lemma stub_checks_challenge throws : checks_challenge (Stub.library throws).
Proof.
  split; intros args v; cbn [WebAuthn.verifyRegistrationResponse
    WebAuthn.verifyAuthenticationResponse Stub.library].
  - unfold Stub.verify_registration, Stub.refuse.
    destruct (WebAuthn.vr_response args) as [c|]; [|discriminate].
    destruct (negb (_ =? "webauthn.create"));
      [destruct throws; [discriminate|intros [= <-]; discriminate]|].
    destruct (WebAuthn.cd_challenge (WebAuthn.clientDataJSON c)
                =? WebAuthn.vr_expectedChallenge args) eqn:Hch; cbn [negb];
      [|destruct throws; [discriminate|intros [= <-]; discriminate]].
    intros _ _. exists c. split; [reflexivity|]. now apply String.eqb_eq.
  - unfold Stub.verify_authentication, Stub.refuse.
    destruct (WebAuthn.va_response args) as [c|]; [|discriminate].
    destruct (negb (_ =? "webauthn.get"));
      [destruct throws; [discriminate|intros [= <-]; discriminate]|].
    destruct (WebAuthn.cd_challenge (WebAuthn.clientDataJSON c)
                =? WebAuthn.va_expectedChallenge args) eqn:Hch; cbn [negb];
      [|destruct throws; [discriminate|intros [= <-]; discriminate]].
    intros _ _. exists c. split; [reflexivity|]. now apply String.eqb_eq.
Qed.

(** Alice has started a login twice, for the challenges "c1" and "c2": the
    answer to the first challenge gets the generic server error (the
    stand-in throws on a challenge mismatch), and the answer to the second
    challenge succeeds. *)
Lemma abandoned_ceremony_cannot_complete :
  fst (@run Scenario.server
         (LoginVerify (Scenario.post (Scenario.assertion "c1" origin 1 Scenario.key)))
         (Scenario.at_login 0 "c2"))
  = JS.Normal authentication_failed
  /\ fst (@run Scenario.server
            (LoginVerify (Scenario.post (Scenario.assertion "c2" origin 1 Scenario.key)))
            (Scenario.at_login 0 "c2"))
     = JS.Normal (Response.json_ (Response.verified (public_fields Scenario.alice))).
Proof. split; reflexivity. Qed.

(** ** Two [/login/verify] requests at once *)

(** Writing the same counter twice is writing it once. *)
Lemma update_counter_twice n cid t :
  Pg.update_counter n cid (Pg.update_counter n cid t) = Pg.update_counter n cid t.
Proof.
  unfold Pg.update_counter. cbn [Pg.users Pg.credentials]. f_equal.
  rewrite map_map. apply map_ext. intro c.
  destruct (Pg.credential_id c =? cid) eqn:E;
    cbn [Pg.set_counter Pg.credential_id]; rewrite E; reflexivity.
Qed.

Section Race.
Context {lib : WebAuthn.Server}.
Import Steps.

(** Run without interruption, the four stretches are the handler. *)
Lemma steps_are_login_verify body w :
  exists r w',
    steps 4 (AtEntry body) w = (Responded r, w')
    /\ login_verify body w = (JS.Normal r, w').
Proof.
  destruct (outstanding (session w)) eqn:Hout.
  2:{ rewrite login_verify_no_challenge by assumption. unfold outstanding in Hout.
      cbn [steps step]. destruct (Session.currentChallenge (session w)) as [ch|].
      - rewrite Hout. cbn. now do 2 eexists.
      - cbn. now do 2 eexists. }
  destruct (outstanding_challenge _ Hout) as [ch Hch].
  assert (Htruthy : JS.truthy (Some ch) = true)
    by (unfold outstanding in Hout; now rewrite Hch in Hout).
  destruct (Request.credential body) as [cred|] eqn:Hcred.
  2:{ rewrite login_verify_no_credential by assumption.
      cbn [steps step]. rewrite Hch, Htruthy, Hcred. cbn. now do 2 eexists. }
  destruct (Pg.select_credential (bufferToBase64url (Node.from_string (WebAuthn.rawId cred)))
              (Pg.committed (db w))) as [|rec rest] eqn:Hsel.
  { rewrite (login_verify_unknown body w cred) by assumption.
    cbn [steps step]. rewrite Hch, Htruthy, Hcred. cbn [negb]. rewrite Hsel.
    cbn. now do 2 eexists. }
  rewrite (login_verify_known body w ch cred rec rest Hch Hout Hcred Hsel).
  cbn [steps step]. rewrite Hch, Htruthy, Hcred. cbn [negb]. rewrite Hsel.
  cbn [step].
  destruct (WebAuthn.verifyAuthenticationResponse _) as [v|e].
  2:{ cbn [step]. now do 2 eexists. }
  cbn [step]. destruct (WebAuthn.auth_verified v); cbn; now do 2 eexists.
Qed.

(** Whenever one [/login/verify] call would succeed, two such calls with
    the same body on the same session, taking turns at their [await]
    points, both succeed: each reads the stored counter before either
    writes it. The database ends as after one call. *)
Lemma login_verify_race body w r w' :
  login_verify body w = (JS.Normal r, w') ->
  Response.status r = 200%Z ->
  response_of (first (interleave alternating (both_arrive body w))) = Some r
  /\ response_of (second (interleave alternating (both_arrive body w))) = Some r
  /\ Pg.committed (sys_db (interleave alternating (both_arrive body w)))
     = Pg.committed (db w')
  /\ sys_store (interleave alternating (both_arrive body w)) = session w'.
Proof.
  intros Hrun H200.
  destruct (login_verify_outcome body w)
    as [(r0 & Hlv & Hst)|(ch & cred & rec & rest & v & Hch & Hcred & Hsel & Hlib & Hv & Hlv)];
    rewrite Hlv in Hrun; inversion Hrun; subst; clear Hrun; [contradiction|].
  assert (Htruthy : JS.truthy (Some ch) = true).
  { destruct (outstanding (session w)) eqn:Hout.
    - unfold outstanding in Hout. now rewrite Hch in Hout.
    - rewrite login_verify_no_challenge in Hlv by assumption. discriminate Hlv. }
  eassert (Hfinal : interleave alternating (both_arrive body w) = _).
  { unfold alternating, interleave, both_arrive. cbn [fold_left].
    unfold advance at 8.
    cbn [first second at_ req_session sys_db sys_store step db session].
    rewrite Hch, Htruthy, Hcred. cbn [negb]. rewrite Hsel.
    unfold advance at 7.
    cbn [first second at_ req_session sys_db sys_store step db session].
    rewrite Hch, Htruthy, Hcred. cbn [negb]. rewrite Hsel.
    unfold advance at 6.
    cbn [first second at_ req_session sys_db sys_store step db session].
    unfold advance at 5.
    cbn [first second at_ req_session sys_db sys_store step db session].
    rewrite Hlib.
    unfold advance at 4.
    cbn [first second at_ req_session sys_db sys_store step db session].
    rewrite Hv. cbn [negb with_db db session].
    unfold advance at 3.
    cbn [first second at_ req_session sys_db sys_store step db session].
    rewrite Hv. cbn [negb with_db db session].
    unfold advance at 2.
    cbn [first second at_ req_session sys_db sys_store step db session with_session].
    unfold advance.
    cbn [first second at_ req_session sys_db sys_store step db session with_session].
    reflexivity. }
  rewrite Hfinal. cbn [first second at_ sys_db sys_store response_of].
  split; [reflexivity|]. split; [reflexivity|]. split; [|reflexivity].
  cbn [Pg.committed Pg.with_committed]. apply update_counter_twice.
Qed.

(** One after the other, the second of two such calls finds the challenge
    consumed and is refused. *)
Lemma sequential_replay_is_refused body w r w' :
  login_verify body w = (JS.Normal r, w') ->
  Response.status r = 200%Z ->
  response_of
    (second (interleave [First; First; First; First; Second]
               (both_arrive body w)))
  = Some (Response.status_json 400 (Response.error "No authentication in progress")).
Proof.
  intros Hrun H200.
  destruct (login_verify_outcome body w)
    as [(r0 & Hlv & Hst)|(ch & cred & rec & rest & v & Hch & Hcred & Hsel & Hlib & Hv & Hlv)];
    rewrite Hlv in Hrun; inversion Hrun; subst; clear Hrun; [contradiction|].
  assert (Htruthy : JS.truthy (Some ch) = true).
  { destruct (outstanding (session w)) eqn:Hout.
    - unfold outstanding in Hout. now rewrite Hch in Hout.
    - rewrite login_verify_no_challenge in Hlv by assumption. discriminate Hlv. }
  unfold interleave, both_arrive. cbn [fold_left].
  unfold advance at 5. cbn [first second at_ req_session sys_db sys_store step db session].
  rewrite Hch, Htruthy, Hcred. cbn [negb]. rewrite Hsel.
  unfold advance at 4. cbn [first second at_ req_session sys_db sys_store step db session].
  rewrite Hlib.
  unfold advance at 3. cbn [first second at_ req_session sys_db sys_store step db session].
  rewrite Hv. cbn [negb with_db db session].
  unfold advance at 2. cbn [first second at_ req_session sys_db sys_store step db session
                              with_session].
  unfold advance. cbn. reflexivity.
Qed.

End Race.

(** C9, on the code. Alice's session holds the challenge "c2" and her
    stored counter is 7. Two [/login/verify] requests carry the same signed
    response, with counter 9, and take turns at their [await] points.
    Both are answered 200 with alice as the user, and the counter is
    written twice, to 9: the comparison and the update are not one atomic
    step. *)
Theorem concurrent_replay_both_succeed :
  Steps.response_of
    (Steps.first
       (@Steps.interleave Scenario.server Steps.alternating
          (Steps.both_arrive
             (Scenario.post (Scenario.assertion "c2" origin 9 Scenario.key))
             (Scenario.at_login 7 "c2"))))
  = Some (Response.json_ (Response.verified (public_fields Scenario.alice)))
  /\ Steps.response_of
       (Steps.second
          (@Steps.interleave Scenario.server Steps.alternating
             (Steps.both_arrive
                (Scenario.post (Scenario.assertion "c2" origin 9 Scenario.key))
                (Scenario.at_login 7 "c2"))))
     = Some (Response.json_ (Response.verified (public_fields Scenario.alice)))
  /\ Steps.sys_db
       (@Steps.interleave Scenario.server Steps.alternating
          (Steps.both_arrive
             (Scenario.post (Scenario.assertion "c2" origin 9 Scenario.key))
             (Scenario.at_login 7 "c2")))
     = Scenario.registered 9.
Proof. split; [reflexivity|]. split; reflexivity. Qed.

(** ** Further properties of the routes *)

Section Further.
Context {lib : WebAuthn.Server}.
Import Pg.

(** After [/logout], [/session] answers [authenticated: false]. *)
Theorem logout_then_session_not_authenticated (w : world) :
  fst (logout w) = JS.Normal (Response.json_ Response.logged_out)
  /\ fst (get_session (snd (logout w))) = JS.Normal (Response.json_ Response.not_authenticated)
  /\ db (snd (logout w)) = db w.
Proof. repeat split. Qed.

(** [/register/start] refuses a missing or empty username or email with
    ValidationError, and a username or email some user row holds with
    ConflictError; in both cases the world is unchanged. *)
Theorem register_start_refusals (amb : Request.ambient) (body : Request.body) (w : world) :
  (JS.truthy (Request.username body) && JS.truthy (Request.email body) = false ->
   register_start amb body w
   = (JS.Normal (Response.status_json 400 (Response.error "Username and email are required")),
      w))
  /\ (forall un em u,
        Request.username body = Some un ->
        Request.email body = Some em ->
        JS.truthy (Some un) && JS.truthy (Some em) = true ->
        In u (users (committed (db w))) ->
        username u = un \/ email u = em ->
        register_start amb body w
        = (JS.Normal (Response.status_json 409
             (Response.error "Username or email already exists")), w)).
Proof.
  split.
  - unfold register_start. async.
    destruct (Request.username body) as [un|]; [|reflexivity].
    destruct (Request.email body) as [em|];
      [|destruct (JS.truthy (Some un)); reflexivity].
    intros Hfalsy.
    replace (negb (JS.truthy (Some un)) || negb (JS.truthy (Some em))) with true;
      [reflexivity|].
    destruct (JS.truthy (Some un)), (JS.truthy (Some em)); try reflexivity; discriminate.
  - intros un em u Hun Hem Htruthy Hu Hheld.
    unfold register_start. async. rewrite Hun, Hem.
    replace (negb (JS.truthy (Some un)) || negb (JS.truthy (Some em))) with false
      by (destruct (JS.truthy (Some un)), (JS.truthy (Some em));
          try reflexivity; discriminate).
    assert (Hrows : select_existing_users un em (committed (db w)) <> []).
    { unfold select_existing_users. intro Hnil.
      assert (Hin : In (id u)
                (map id (filter (fun u0 => (username u0 =? un) || (email u0 =? em))
                           (users (committed (db w)))))).
      { apply in_map, filter_In. split; [exact Hu|]. apply orb_true_iff.
        destruct Hheld as [<-|<-]; [left|right]; apply String.eqb_refl. }
      rewrite Hnil in Hin. exact Hin. }
    destruct (select_existing_users un em (committed (db w))) as [|i rows];
      [now contradiction Hrows|reflexivity].
Qed.

(** After a successful [/register/verify] the credentials table holds a
    row for the new user with the identifier and the public key the
    library reported, base64url-encoded, the reported counter, and the
    transports the browser posted. *)
Theorem registration_stores_reported_counter
    (body : Request.body) (w w' : world) (r : Response.t) :
  register_verify body w = (JS.Normal r, w') ->
  Response.status r = 200%Z ->
  exists ch cred info u,
    Session.currentChallenge (session w) = Some ch
    /\ Request.credential body = Some cred
    /\ WebAuthn.verifyRegistrationResponse (registration_args (Some cred) ch)
       = JS.Normal {| WebAuthn.reg_verified := true;
                      WebAuthn.registrationInfo := Some info |}
    /\ r = Response.json_ (Response.verified (public_fields u))
    /\ In u (users (committed (db w')))
    /\ In {| cred_id := (credentials_id_seq (db w) + 1)%Z;
             user_id := id u;
             credential_id := bufferToBase64url (WebAuthn.credentialID info);
             public_key := bufferToBase64url (WebAuthn.credentialPublicKey info);
             counter := WebAuthn.counter info;
             transports := Some (JS.or_array (WebAuthn.transports cred) []) |}
          (credentials (committed (db w'))).
Proof.
  intros Hrun H200.
  destruct (register_verify_outcome body w)
    as [(r0 & d' & Hrv & Hst & _)
       |(ch & ud & info & cred & d' & Hch & _ & Hcred & Hlib & Hrv & Hnew & _)];
    rewrite Hrv in Hrun; inversion Hrun; subst; clear Hrun; [contradiction|].
  exists ch, cred, info, (registered_user (db w) ud).
  repeat (split; [assumption || reflexivity|]).
  cbn [db]. rewrite Hnew. cbn. split; apply in_or_app; right; now left.
Qed.

End Further.

Lemma register_start_refusals_witness :
  @register_start Scenario.server (Scenario.drawing "c1")
    (Scenario.named (Some "nikhil") (Some "nikhil@example.com"))
    {| db := Scenario.migrated; session := Session.empty |}
  = (JS.Normal (Response.status_json 409
       (Response.error "Username or email already exists")),
     {| db := Scenario.migrated; session := Session.empty |}).
Proof.
  apply (proj2 (@register_start_refusals Scenario.server (Scenario.drawing "c1")
                  (Scenario.named (Some "nikhil") (Some "nikhil@example.com"))
                  {| db := Scenario.migrated; session := Session.empty |})
           "nikhil" "nikhil@example.com"
           {| Pg.id := 3; Pg.username := "nikhil"; Pg.email := "nikhil@coffelist.com" |});
    try reflexivity.
  - right. right. now left.
  - now left.
Defined.

Lemma registration_stores_reported_counter_witness :
  exists ch cred info u,
    Session.currentChallenge (session (Scenario.at_registration "c1")) = Some ch
    /\ Request.credential (Scenario.post (Scenario.attestation "c1" origin 0)) = Some cred
    /\ @WebAuthn.verifyRegistrationResponse Scenario.server (registration_args (Some cred) ch)
       = JS.Normal {| WebAuthn.reg_verified := true;
                      WebAuthn.registrationInfo := Some info |}
    /\ Response.json_ (Response.verified (public_fields Scenario.alice))
       = Response.json_ (Response.verified (public_fields u))
    /\ In u (Pg.users (Pg.committed (Scenario.registered 0)))
    /\ In {| Pg.cred_id := (Pg.credentials_id_seq Scenario.migrated + 1)%Z;
             Pg.user_id := Pg.id u;
             Pg.credential_id := bufferToBase64url (WebAuthn.credentialID info);
             Pg.public_key := bufferToBase64url (WebAuthn.credentialPublicKey info);
             Pg.counter := WebAuthn.counter info;
             Pg.transports := Some (JS.or_array (WebAuthn.transports cred) []) |}
          (Pg.credentials (Pg.committed (Scenario.registered 0))).
Proof.
  apply (@registration_stores_reported_counter Scenario.server
           (Scenario.post (Scenario.attestation "c1" origin 0))
           (Scenario.at_registration "c1")
           {| db := Scenario.registered 0;
              session := authenticated_as 4 "alice" Session.empty |}
           (Response.json_ (Response.verified (public_fields Scenario.alice))));
    reflexivity.
Defined.

Lemma verification_error_only_when_rejected_witness :
  @rejected Scenario.server
    (LoginVerify (Scenario.post (Scenario.assertion "c2" origin 9 Scenario.other_key)))
    (Scenario.at_login 7 "c2").
Proof.
  apply (@verification_error_only_when_rejected Scenario.server
           (LoginVerify (Scenario.post (Scenario.assertion "c2" origin 9 Scenario.other_key)))
           (Scenario.at_login 7 "c2") verification_failed); reflexivity.
Defined.

Lemma login_verify_race_witness :
  Steps.response_of
    (Steps.first
       (@Steps.interleave Scenario.server Steps.alternating
          (Steps.both_arrive
             (Scenario.post (Scenario.assertion "c2" origin 1 Scenario.key))
             (Scenario.at_login 0 "c2"))))
  = Some (Response.json_ (Response.verified (public_fields Scenario.alice)))
  /\ Steps.response_of
       (Steps.second
          (@Steps.interleave Scenario.server Steps.alternating
             (Steps.both_arrive
                (Scenario.post (Scenario.assertion "c2" origin 1 Scenario.key))
                (Scenario.at_login 0 "c2"))))
     = Some (Response.json_ (Response.verified (public_fields Scenario.alice)))
  /\ Pg.committed
       (Steps.sys_db
          (@Steps.interleave Scenario.server Steps.alternating
             (Steps.both_arrive
                (Scenario.post (Scenario.assertion "c2" origin 1 Scenario.key))
                (Scenario.at_login 0 "c2"))))
     = Pg.committed (Scenario.registered 1)
  /\ Steps.sys_store
       (@Steps.interleave Scenario.server Steps.alternating
          (Steps.both_arrive
             (Scenario.post (Scenario.assertion "c2" origin 1 Scenario.key))
             (Scenario.at_login 0 "c2")))
     = authenticated_as 4 "alice" (Scenario.logging_in "c2").
Proof.
  apply (@login_verify_race Scenario.server
           (Scenario.post (Scenario.assertion "c2" origin 1 Scenario.key))
           (Scenario.at_login 0 "c2")
           (Response.json_ (Response.verified (public_fields Scenario.alice)))
           {| db := Scenario.registered 1;
              session := authenticated_as 4 "alice" (Scenario.logging_in "c2") |});
    reflexivity.
Defined.

Lemma sequential_replay_witness :
  Steps.response_of
    (Steps.second
       (@Steps.interleave Scenario.server
          [Steps.First; Steps.First; Steps.First; Steps.First; Steps.Second]
          (Steps.both_arrive
             (Scenario.post (Scenario.assertion "c2" origin 1 Scenario.key))
             (Scenario.at_login 0 "c2"))))
  = Some (Response.status_json 400 (Response.error "No authentication in progress")).
Proof.
  apply (@sequential_replay_is_refused Scenario.server
           (Scenario.post (Scenario.assertion "c2" origin 1 Scenario.key))
           (Scenario.at_login 0 "c2")
           (Response.json_ (Response.verified (public_fields Scenario.alice)))
           {| db := Scenario.registered 1;
              session := authenticated_as 4 "alice" (Scenario.logging_in "c2") |});
    reflexivity.
Defined.

(** ** Every route answers *)

Section Answers.
Context {lib : WebAuthn.Server}.

Lemma try_catch_answers {A : Type} (body : Async A) (a : A) (w : world) :
  exists a', fst (try_catch body (fun _ => ret a) w) = JS.Normal a'.
Proof.
  unfold try_catch, ret. destruct (body w) as [[a'|e] w']; eexists; reflexivity.
Qed.

(** No route lets an exception escape: whatever the request, the state
    and the library do, the caller gets a response. *)
Theorem run_always_answers (c : call) (w : world) :
  exists r, fst (run c w) = JS.Normal r.
Proof.
  destruct c; cbn [run].
  - apply try_catch_answers.
  - apply try_catch_answers.
  - apply try_catch_answers.
  - apply try_catch_answers.
  - unfold get_session. async. cbn.
    destruct (Session.userId (session w)) as [uid|]; [|eexists; reflexivity].
    destruct (JS.truthy_number (Some uid)); eexists; reflexivity.
  - eexists. reflexivity.
Qed.

End Answers.

(** ** One answer for every exception of the library *)

Section Exceptions.
Context {lib : WebAuthn.Server}.

(** When the library throws on the response of a verify call, the answer
    is the route's one 500 body, whatever was thrown, and the world is
    unchanged: the message of the library's error goes to the console and
    not to the caller. *)
Theorem library_exception_is_not_revealed (c : call) (w : world) :
  threw c w ->
  run c w = (JS.Normal (verify_failed c), w)
  /\ Taxonomy.of_response (verify_failed c) = Some Taxonomy.ServerError.
Proof.
  destruct c; cbn [threw run verify_failed]; try contradiction.
  - intros (ch & userData & e & Hch & Hout & Hud & Hlib).
    rewrite (register_verify_in_progress body w ch userData Hch Hout Hud), Hlib.
    split; reflexivity.
  - intros (ch & cred & rec & rest & e & Hch & Hout & Hcred & Hsel & Hlib).
    rewrite (login_verify_known body w ch cred rec rest Hch Hout Hcred Hsel), Hlib.
    split; reflexivity.
Qed.

End Exceptions.

(** A login answered for another challenge, which the stand-in library
    refuses by throwing. *)
Lemma library_exception_witness :
  @run Scenario.server
    (LoginVerify (Scenario.post (Scenario.assertion "c1" origin 9 Scenario.key)))
    (Scenario.at_login 7 "c2")
  = (JS.Normal authentication_failed, Scenario.at_login 7 "c2")
  /\ Taxonomy.of_response authentication_failed = Some Taxonomy.ServerError.
Proof.
  apply (@library_exception_is_not_revealed Scenario.server
           (LoginVerify (Scenario.post (Scenario.assertion "c1" origin 9 Scenario.key)))
           (Scenario.at_login 7 "c2")).
  cbn [threw]. do 5 eexists.
  split; [reflexivity|]. split; [reflexivity|]. split; [reflexivity|].
  split; reflexivity.
Defined.

(** ** A whole ceremony *)

(** Alice starts her registration on the migrated database: the answer is
    the options of the library, and the session is the one
    [registration_commits_both_rows] goes on from. *)
Example register_start_example :
  @register_start Scenario.server (Scenario.drawing "c1")
    (Scenario.named (Some "alice") (Some "alice@example.com"))
    {| db := Scenario.migrated; session := Session.empty |}
  = (JS.Normal (Response.json_ (Response.creation_options
       {| WebAuthn.co_challenge := "c1";
          WebAuthn.co_args :=
            {| WebAuthn.roa_rpName := "Coffelist";
               WebAuthn.roa_rpID := "localhost";
               WebAuthn.roa_userID := "user_1700000000000_k3j9x0q2m";
               WebAuthn.roa_userName := "alice";
               WebAuthn.roa_userDisplayName := "alice";
               WebAuthn.roa_attestationType := "none";
               WebAuthn.roa_residentKey := "preferred";
               WebAuthn.roa_userVerification := "preferred" |} |})),
     Scenario.at_registration "c1").
Proof. reflexivity. Qed.

(** Registered and logged out, she logs in again with her passkey, which
    now reports counter 1, from a client that posts the identifier itself,
    as text, in [rawId]: the SELECT finds her credential. *)
Example login_example :
  @login_verify Scenario.server
    (Scenario.post (Scenario.assertion "c2" origin 1 Scenario.key))
    (Scenario.at_login 0 "c2")
  = (JS.Normal (Response.json_ (Response.verified (public_fields Scenario.alice))),
     {| db := Scenario.registered 1;
        session := authenticated_as 4 "alice" Session.empty |}).
Proof. reflexivity. Qed.

(** ** A start call that fails *)

Section FailedStart.
Context {lib : WebAuthn.Server}.

(** A start call that answers no options (a validation error, a conflict,
    an unknown user, an exception of the library) stores nothing: the
    world, with any challenge outstanding from an earlier start, is
    unchanged. *)
Theorem failed_start_changes_nothing (s : call) (w w' : world) (r : Response.t) :
  is_start s = true ->
  run s w = (JS.Normal r, w') ->
  options_challenge r = None ->
  w' = w.
Proof.
  intro Hs. destruct s; try discriminate Hs; cbn [run].
  - unfold register_start. async.
    destruct (Request.username body) as [un|]; [|now intros [= <- <-]].
    destruct (Request.email body) as [em|]; [|now intros [= <- <-]].
    destruct (negb (JS.truthy (Some un)) || negb (JS.truthy (Some em)));
      [now intros [= <- <-]|].
    destruct (0 <? List.length _)%nat; [now intros [= <- <-]|].
    destruct (WebAuthn.generateRegistrationOptions _ _) as [o|e];
      intros [= <- <-]; [discriminate|reflexivity].
  - assert (opts : forall allow,
              try_catch (login_start_options amb allow)
                (fun _ => ret start_failed) w = (JS.Normal r, w') ->
              options_challenge r = None -> w' = w).
    { intro allow. unfold login_start_options. async.
      destruct (WebAuthn.generateAuthenticationOptions _ _) as [o|e];
        intros [= <- <-]; [discriminate|reflexivity]. }
    unfold login_start.
    destruct (Request.username body) as [un|]; [|apply opts].
    destruct (JS.truthy (Some un)); [|apply opts].
    unfold try_catch at 1. unfold bind at 1. unfold pool_select at 1.
    destruct (List.length _ =? 0)%nat.
    + async. now intros [= <- <-].
    + apply opts.
Qed.

End FailedStart.

(** Alice has started a login; a start for a user without passkey fails,
    and her challenge stays. *)
Lemma failed_start_witness :
  Scenario.at_login 0 "c1" = Scenario.at_login 0 "c1".
Proof.
  apply (@failed_start_changes_nothing Scenario.server
           (LoginStart (Scenario.drawing "c2") (Scenario.named (Some "james") None))
           (Scenario.at_login 0 "c1") (Scenario.at_login 0 "c1") user_not_found);
    reflexivity.
Defined.

(** ** The two INSERTs, by what the tables hold *)

Section Inserts.
Import Pg.
Local Open Scope Z_scope.

Lemma existsb_none {A : Type} (f : A -> bool) (l : list A) :
  existsb f l = false -> forall x, In x l -> f x = false.
Proof.
  intros Hnone x Hx. destruct (f x) eqn:Hfx; [|reflexivity].
  rewrite <- Hnone. symmetry. apply existsb_exists. now exists x.
Qed.

Lemma existsb_some {A : Type} (f : A -> bool) (l : list A) :
  existsb f l = true -> exists x, In x l /\ f x = true.
Proof. apply existsb_exists. Qed.

(** [INSERT INTO users] in a transaction: a value that does not fit is
    refused with the database as it was; otherwise an id is drawn, and the
    row is added when no row collides with it; when one does the statement
    throws, the tables of the transaction are as they were, and the id is
    spent. *)
Lemma insert_user_cases un em d t :
  transaction d = Some t ->
  let u := {| id := users_id_seq d + 1; username := stored un; email := stored em |} in
  let d1 := {| committed := committed d; transaction := Some t;
               users_id_seq := users_id_seq d + 1;
               credentials_id_seq := credentials_id_seq d |} in
  (too_long un || too_long em = false
   /\ fresh_user u t
   /\ insert_user un em d =
      (JS.Normal u, {| committed := committed d; transaction := Some (user_added u t);
                       users_id_seq := users_id_seq d + 1;
                       credentials_id_seq := credentials_id_seq d |}))
  \/ (too_long un || too_long em = true
      /\ exists e, insert_user un em d = (JS.Throw e, d))
  \/ (too_long un || too_long em = false
      /\ ~ fresh_user u t
      /\ exists e, insert_user un em d = (JS.Throw e, d1)).
Proof.
  intros Ht u d1. unfold insert_user, working, write.
  destruct (too_long un || too_long em) eqn:Hlen.
  { right. left. split; [reflexivity|]. eexists; reflexivity. }
  cbn [transaction committed users_id_seq credentials_id_seq users credentials
       with_transaction with_committed]. rewrite Ht.
  destruct (existsb (fun u0 => id u0 =? users_id_seq d + 1) (users t)) eqn:Hid.
  { right. right. split; [reflexivity|]. split; [|eexists; reflexivity]. intro Hfresh.
    apply existsb_some in Hid. destruct Hid as (u0 & Hu0 & Heq).
    apply Z.eqb_eq in Heq. now destruct (Hfresh u0 Hu0) as [Hne _]. }
  destruct (existsb (fun u0 => (username u0 =? stored un)%string) (users t)) eqn:Hun.
  { right. right. split; [reflexivity|]. split; [|eexists; reflexivity]. intro Hfresh.
    apply existsb_some in Hun. destruct Hun as (u0 & Hu0 & Heq).
    apply String.eqb_eq in Heq. now destruct (Hfresh u0 Hu0) as (_ & Hne & _). }
  destruct (existsb (fun u0 => (email u0 =? stored em)%string) (users t)) eqn:Hem.
  { right. right. split; [reflexivity|]. split; [|eexists; reflexivity]. intro Hfresh.
    apply existsb_some in Hem. destruct Hem as (u0 & Hu0 & Heq).
    apply String.eqb_eq in Heq. now destruct (Hfresh u0 Hu0) as (_ & _ & Hne). }
  left. split; [reflexivity|]. split; [|reflexivity].
  intros u0 Hu0. cbn [id username email u].
  pose proof (existsb_none _ _ Hid u0 Hu0) as H1.
  pose proof (existsb_none _ _ Hun u0 Hu0) as H2.
  pose proof (existsb_none _ _ Hem u0 Hu0) as H3.
  apply Z.eqb_neq in H1. apply String.eqb_neq in H2. apply String.eqb_neq in H3.
  now repeat split.
Qed.

(** [INSERT INTO credentials] in a transaction that holds the owner. *)
Lemma insert_credential_cases uid cid pk ctr tr d t :
  transaction d = Some t ->
  (exists u, In u (users t) /\ id u = uid) ->
  let c := {| cred_id := credentials_id_seq d + 1; user_id := uid; credential_id := cid;
              public_key := pk; counter := ctr; transports := Some tr |} in
  let d1 := {| committed := committed d; transaction := Some t;
               users_id_seq := users_id_seq d;
               credentials_id_seq := credentials_id_seq d + 1 |} in
  (fresh_credential c t
   /\ insert_credential uid cid pk ctr tr d =
      (JS.Normal tt, {| committed := committed d; transaction := Some (credential_added c t);
                        users_id_seq := users_id_seq d;
                        credentials_id_seq := credentials_id_seq d + 1 |}))
  \/ (~ fresh_credential c t
      /\ exists e, insert_credential uid cid pk ctr tr d = (JS.Throw e, d1)).
Proof.
  intros Ht (u & Hu & Huid) c d1. unfold insert_credential, working, write.
  cbn [transaction committed users_id_seq credentials_id_seq users credentials
       with_transaction with_committed]. rewrite Ht.
  destruct (existsb (fun c0 => cred_id c0 =? credentials_id_seq d + 1) (credentials t)) eqn:Hid.
  { right. split; [|eexists; reflexivity]. intro Hfresh.
    apply existsb_some in Hid. destruct Hid as (c0 & Hc0 & Heq).
    apply Z.eqb_eq in Heq. now destruct (Hfresh c0 Hc0) as [Hne _]. }
  destruct (existsb (fun c0 => (credential_id c0 =? cid)%string) (credentials t)) eqn:Hcid.
  { right. split; [|eexists; reflexivity]. intro Hfresh.
    apply existsb_some in Hcid. destruct Hcid as (c0 & Hc0 & Heq).
    apply String.eqb_eq in Heq. now destruct (Hfresh c0 Hc0) as [_ Hne]. }
  assert (Hfk : existsb (fun u0 => id u0 =? uid) (users t) = true).
  { apply existsb_exists. exists u. split; [exact Hu|]. now apply Z.eqb_eq. }
  rewrite Hfk. cbn [negb].
  left. split; [|reflexivity].
  intros c0 Hc0. cbn [cred_id credential_id c].
  pose proof (existsb_none _ _ Hid c0 Hc0) as H1.
  pose proof (existsb_none _ _ Hcid c0 Hc0) as H2.
  apply Z.eqb_neq in H1. apply String.eqb_neq in H2. now split.
Qed.

End Inserts.

(** ** The transaction of [/register/verify], by what the tables hold *)

Section Registration.
Context {lib : WebAuthn.Server}.
Import Pg.
Local Open Scope Z_scope.

(** The transaction commits both rows when the posted credential is there,
    both values of the user fit, no user row collides with the new one and
    no credential row with the new credential; otherwise it throws, with
    the committed tables and the session as they were and no transaction
    open. One user id is spent, unless a value did not fit. *)
Lemma register_transaction_cases credential userData info w :
  let t := committed (db w) in
  let u := registered_user (db w) userData in
  (exists cred,
     credential = Some cred
     /\ fits userData = true
     /\ fresh_user u t
     /\ fresh_credential (registered_credential (db w) u cred info) t
     /\ register_transaction credential userData info w =
        (JS.Normal (Response.json_ (Response.verified (public_fields u))),
         {| db := {| committed :=
                       credential_added (registered_credential (db w) u cred info)
                         (user_added u t);
                     transaction := None;
                     users_id_seq := users_id_seq (db w) + 1;
                     credentials_id_seq := credentials_id_seq (db w) + 1 |};
            session := set_registrationUser None
                         (authenticated_as (id u) (username u) (session w)) |}))
  \/ ((credential = None
       \/ ~ fresh_user u t
       \/ fits userData = false
       \/ (exists cred, credential = Some cred
             /\ ~ fresh_credential (registered_credential (db w) u cred info) t))
      /\ exists e d',
           register_transaction credential userData info w
             = (JS.Throw e, {| db := d'; session := session w |})
           /\ committed d' = t /\ transaction d' = None
           /\ users_id_seq d' =
              if fits userData then users_id_seq (db w) + 1 else users_id_seq (db w)).
Proof.
  intros t u. unfold register_transaction, fits. async. cbn [with_db db session].
  set (d0 := begin_ (connect (db w))).
  assert (Hd0 : transaction d0 = Some t) by reflexivity.
  destruct (insert_user_cases (Session.ru_username userData)
              (Session.ru_email userData) d0 t Hd0)
    as [(Hlen & Hfresh & ->)|[(Hlen & e & ->)|(Hlen & Hwhy & e & ->)]]; rewrite Hlen;
    cbn [negb].
  2:{ right. split; [now do 2 right; left|].
      do 2 eexists. split; [reflexivity|]. now repeat split. }
  2:{ right. split; [now right; left|].
      do 2 eexists. split; [reflexivity|]. now repeat split. }
  cbn [with_db db session].
  destruct credential as [cred|].
  2:{ right. split; [now left|]. do 2 eexists. split; [reflexivity|]. now repeat split. }
  cbn [with_db db session].
  match goal with
  | |- context [insert_credential ?a ?b ?c ?d ?e ?f] =>
      destruct (insert_credential_cases a b c d e f _ eq_refl)
        as [[Hfreshc ->]|[Hwhy [e' ->]]]
  end.
  { eexists. split; [|reflexivity]. cbn. apply in_or_app. right. now left. }
  - left. exists cred. split; [reflexivity|]. split; [reflexivity|]. split; [exact Hfresh|].
    split; [exact Hfreshc|]. reflexivity.
  - right. split.
    + do 3 right. exists cred. split; [reflexivity|exact Hwhy].
    + do 2 eexists. split; [reflexivity|]. now repeat split.
Qed.

End Registration.

(** ** The routes, case by case *)

Lemma refusal_not_200 code m : refusal code m -> code <> 200%Z.
Proof. intros [Hcode _]. lia. Qed.

Section Cases.
Context {lib : WebAuthn.Server}.
Import Pg.
Local Open Scope Z_scope.

Lemma select_existing_users_nil un em t :
  select_existing_users un em t = [] <->
  forall u, In u (users t) -> username u <> un /\ email u <> em.
Proof.
  unfold select_existing_users. split.
  - intros Hnil u Hu.
    destruct ((username u =? un)%string || (email u =? em)%string) eqn:Hheld.
    + assert (Hin : In (id u)
                (map id (filter (fun u0 => (username u0 =? un)%string || (email u0 =? em)%string)
                           (users t)))).
      { apply in_map, filter_In. now split. }
      rewrite Hnil in Hin. destruct Hin.
    + apply orb_false_iff in Hheld. destruct Hheld as [H1 H2].
      apply String.eqb_neq in H1. apply String.eqb_neq in H2. now split.
  - intro Hnone. induction (users t) as [|u l IH]; [reflexivity|].
    cbn [filter]. destruct (Hnone u (or_introl eq_refl)) as [H1 H2].
    apply String.eqb_neq in H1. apply String.eqb_neq in H2. rewrite H1, H2. cbn [orb].
    apply IH. intros u0 Hu0. apply Hnone. now right.
Qed.

(** [/register/start] with a username and an email, both non-empty. *)
Lemma register_start_named amb body w un em :
  Request.username body = Some un ->
  Request.email body = Some em ->
  JS.truthy (Some un) = true ->
  JS.truthy (Some em) = true ->
  register_start amb body w =
  match select_existing_users un em (committed (db w)) with
  | _ :: _ => (JS.Normal conflict, w)
  | [] =>
      match WebAuthn.generateRegistrationOptions (Request.entropy amb)
              (registration_options_for amb un) with
      | JS.Normal o =>
          (JS.Normal (Response.json_ (Response.creation_options o)),
           with_session
             (set_registrationUser (Some (pending_user amb un em))
                (set_currentChallenge (Some (WebAuthn.co_challenge o)) (session w))) w)
      | JS.Throw _ => (JS.Normal registration_start_failed, w)
      end
  end.
Proof.
  intros Hun Hem Tun Tem. unfold register_start. rewrite Hun, Hem, Tun, Tem. async.
  cbn [negb orb with_session session db].
  destruct (select_existing_users un em (committed (db w))) as [|i rows]; [|reflexivity].
  cbn [List.length Nat.ltb Nat.leb].
  unfold registration_options_for, pending_user.
  destruct (WebAuthn.generateRegistrationOptions _ _); reflexivity.
Qed.

(** [/register/start] answers an error and changes nothing, or stores the
    challenge of the library's options and the pending identity. *)
Lemma register_start_cases amb body w :
  (exists code m,
      register_start amb body w = (JS.Normal (Response.status_json code (Response.error m)), w)
      /\ refusal code m)
  \/ (exists un em o,
        Request.username body = Some un /\ Request.email body = Some em
        /\ JS.truthy (Some un) = true /\ JS.truthy (Some em) = true
        /\ select_existing_users un em (committed (db w)) = []
        /\ WebAuthn.generateRegistrationOptions (Request.entropy amb)
             (registration_options_for amb un) = JS.Normal o
        /\ register_start amb body w =
           (JS.Normal (Response.json_ (Response.creation_options o)),
            with_session
              (set_registrationUser (Some (pending_user amb un em))
                 (set_currentChallenge (Some (WebAuthn.co_challenge o)) (session w))) w)).
Proof.
  destruct (Request.username body) as [un|] eqn:Hun.
  2:{ left. do 2 eexists. unfold register_start. rewrite Hun. split; [reflexivity|refused]. }
  destruct (Request.email body) as [em|] eqn:Hem.
  2:{ left. do 2 eexists. unfold register_start. rewrite Hun, Hem. split; [reflexivity|refused]. }
  destruct (JS.truthy (Some un)) eqn:Tun.
  2:{ left. do 2 eexists. unfold register_start. rewrite Hun, Hem, Tun. split; [reflexivity|refused]. }
  destruct (JS.truthy (Some em)) eqn:Tem.
  2:{ left. do 2 eexists. unfold register_start. rewrite Hun, Hem, Tun, Tem.
      split; [reflexivity|refused]. }
  rewrite (register_start_named amb body w un em Hun Hem Tun Tem).
  destruct (select_existing_users un em (committed (db w))) as [|i rows] eqn:Hsel.
  2:{ left. do 2 eexists. split; [reflexivity|refused]. }
  destruct (WebAuthn.generateRegistrationOptions _ _) as [o|e] eqn:Hlib.
  2:{ left. do 2 eexists. split; [reflexivity|refused]. }
  right. exists un, em, o. now repeat split.
Qed.

(** [/login/start] without a username, or with an empty one. *)
Lemma login_start_anonymous amb body w :
  JS.truthy (Request.username body) = false ->
  login_start amb body w =
  match WebAuthn.generateAuthenticationOptions (Request.entropy amb)
          (authentication_options_for None) with
  | JS.Normal o =>
      (JS.Normal (Response.json_ (Response.request_options o)),
       with_session (set_currentChallenge (Some (WebAuthn.ro_challenge o)) (session w)) w)
  | JS.Throw _ => (JS.Normal start_failed, w)
  end.
Proof.
  intro Hfalsy. unfold login_start, login_start_options, authentication_options_for.
  destruct (Request.username body) as [un|].
  - rewrite Hfalsy. async. cbn [with_session session db].
    destruct (WebAuthn.generateAuthenticationOptions _ _); reflexivity.
  - async. cbn [with_session session db].
    destruct (WebAuthn.generateAuthenticationOptions _ _); reflexivity.
Qed.

(** [/login/start] answers an error and changes nothing, or stores the
    challenge of the library's options and nothing else. *)
Lemma login_start_cases amb body w :
  (exists code m,
      login_start amb body w = (JS.Normal (Response.status_json code (Response.error m)), w)
      /\ refusal code m)
  \/ (exists o,
        login_start amb body w =
        (JS.Normal (Response.json_ (Response.request_options o)),
         with_session (set_currentChallenge (Some (WebAuthn.ro_challenge o)) (session w)) w)).
Proof.
  destruct (JS.truthy (Request.username body)) eqn:Htruthy.
  - destruct (Request.username body) as [un|] eqn:Hun; [|discriminate].
    rewrite (login_start_named amb body w un Hun Htruthy).
    destruct (select_credentials_of un (committed (db w))) as [|row rows].
    + left. do 2 eexists. split; [reflexivity|refused].
    + destruct (WebAuthn.generateAuthenticationOptions _ _) as [o|e].
      * right. now exists o.
      * left. do 2 eexists. split; [reflexivity|refused].
  - rewrite (login_start_anonymous amb body w Htruthy).
    destruct (WebAuthn.generateAuthenticationOptions _ _) as [o|e].
    + right. now exists o.
    + left. do 2 eexists. split; [reflexivity|refused].
Qed.

(** [/login/verify] answers an error and changes nothing, or the library
    verified the response of a known credential. *)
Lemma login_verify_cases body w :
  (exists code m,
      login_verify body w = (JS.Normal (Response.status_json code (Response.error m)), w)
      /\ refusal code m)
  \/ (exists ch cred rec rest v,
        Session.currentChallenge (session w) = Some ch
        /\ outstanding (session w) = true
        /\ Request.credential body = Some cred
        /\ select_credential (bufferToBase64url (Node.from_string (WebAuthn.rawId cred)))
             (committed (db w)) = rec :: rest
        /\ WebAuthn.verifyAuthenticationResponse (authentication_args (Some cred) ch rec)
           = JS.Normal v
        /\ WebAuthn.auth_verified v = true
        /\ login_verify body w =
           (JS.Normal (Response.json_ (Response.verified
              {| Response.id := cr_user_id rec;
                 Response.username := cr_username rec;
                 Response.email := cr_email rec |})),
            {| db := with_committed
                       (update_counter
                          (WebAuthn.newCounter (WebAuthn.authenticationInfo v))
                          (bufferToBase64url (Node.from_string (WebAuthn.rawId cred)))
                              (committed (db w)))
                       (db w);
               session := authenticated_as (cr_user_id rec) (cr_username rec)
                            (session w) |})).
Proof.
  destruct (outstanding (session w)) eqn:Hout.
  2:{ left. do 2 eexists. split; [now apply login_verify_no_challenge|refused]. }
  destruct (outstanding_challenge _ Hout) as [ch Hch].
  destruct (Request.credential body) as [cred|] eqn:Hcred.
  2:{ left. do 2 eexists. split; [now apply login_verify_no_credential|refused]. }
  destruct (select_credential (bufferToBase64url (Node.from_string (WebAuthn.rawId cred)))
              (committed (db w))) as [|rec rest] eqn:Hsel.
  { left. do 2 eexists. split; [now apply (login_verify_unknown body w cred)|refused]. }
  rewrite (login_verify_known body w ch cred rec rest Hch Hout Hcred Hsel).
  destruct (WebAuthn.verifyAuthenticationResponse _) as [v|e] eqn:Hlib.
  2:{ left. do 2 eexists. split; [reflexivity|refused]. }
  destruct (WebAuthn.auth_verified v) eqn:Hv.
  2:{ left. do 2 eexists. split; [reflexivity|refused]. }
  right. exists ch, cred, rec, rest, v. repeat (split; [assumption || reflexivity|]).
  reflexivity.
Qed.

(** [/register/verify] answers an error, with the session and the
    committed tables as they were and no transaction open that was not,
    or it commits the two rows, which collide with no row. *)
Lemma register_verify_cases body w :
  (exists code m d',
      register_verify body w
        = (JS.Normal (Response.status_json code (Response.error m)),
           {| db := d'; session := session w |})
      /\ refusal code m
      /\ committed d' = committed (db w)
      /\ (transaction (db w) = None -> transaction d' = None))
  \/ (exists ch userData info cred,
        let u := registered_user (db w) userData in
        let c := registered_credential (db w) u cred info in
        Session.currentChallenge (session w) = Some ch
        /\ outstanding (session w) = true
        /\ Session.registrationUser (session w) = Some userData
        /\ Request.credential body = Some cred
        /\ WebAuthn.verifyRegistrationResponse (registration_args (Some cred) ch)
           = JS.Normal {| WebAuthn.reg_verified := true;
                          WebAuthn.registrationInfo := Some info |}
        /\ fresh_user u (committed (db w))
        /\ fresh_credential c (committed (db w))
        /\ register_verify body w =
           (JS.Normal (Response.json_ (Response.verified (public_fields u))),
            {| db := {| committed := credential_added c (user_added u (committed (db w)));
                        transaction := None;
                        users_id_seq := users_id_seq (db w) + 1;
                        credentials_id_seq := credentials_id_seq (db w) + 1 |};
               session := set_registrationUser None
                            (authenticated_as (id u) (username u) (session w)) |})).
Proof.
  assert (same : forall code m, refusal code m ->
            exists code' m' d',
              (JS.Normal (Response.status_json code (Response.error m)), w)
              = (JS.Normal (Response.status_json code' (Response.error m')),
                 {| db := d'; session := session w |})
              /\ refusal code' m'
              /\ committed d' = committed (db w)
              /\ (transaction (db w) = None -> transaction d' = None)).
  { intros code m Hcode. exists code, m, (db w). destruct w.
    split; [reflexivity|]. split; [exact Hcode|]. now split. }
  destruct (outstanding (session w)) eqn:Hout.
  2:{ left. rewrite register_verify_no_ceremony by now left. apply same; refused. }
  destruct (outstanding_challenge _ Hout) as [ch Hch].
  destruct (Session.registrationUser (session w)) as [userData|] eqn:Hud.
  2:{ left. rewrite register_verify_no_ceremony by now right. apply same; refused. }
  rewrite (register_verify_in_progress body w ch userData Hch Hout Hud).
  destruct (WebAuthn.verifyRegistrationResponse _) as [[verified info]|e] eqn:Hlib.
  2:{ left. apply same; refused. }
  cbn [WebAuthn.reg_verified WebAuthn.registrationInfo].
  destruct verified; [|left; apply same; refused].
  destruct info as [info|]; [|left; apply same; refused].
  destruct (register_transaction_cases (Request.credential body) userData info w)
    as [(cred & Hcred & _ & Hfu & Hfc & ->)|(_ & e & d' & -> & Hsame & Htx & _)].
  - right. exists ch, userData, info, cred. rewrite Hcred in Hlib.
    repeat (split; [assumption || reflexivity|]). reflexivity.
  - left. do 2 eexists. exists d'. split; [reflexivity|]. split; [refused|].
    split; [exact Hsame|]. now intros _.
Qed.

End Cases.

(** ** A second start before the verify *)

Section SecondStart.
Context {lib : WebAuthn.Server}.
Import Pg.

(** A start request that is given what its route asks for is answered
    with the options of the library, and their challenge is in the session
    afterwards; the database is not touched. *)
Lemma admitted_start s w c :
  admits s w c ->
  exists r w',
    run s w = (JS.Normal r, w')
    /\ Response.status r = 200%Z
    /\ options_challenge r = Some c
    /\ Session.currentChallenge (session w') = Some c
    /\ db w' = db w.
Proof.
  destruct s; cbn [admits run]; try contradiction.
  - intros (un & em & o & Hun & Hem & Tun & Tem & Hfree & Hlib & <-).
    rewrite (register_start_named amb body w un em Hun Hem Tun Tem).
    apply select_existing_users_nil in Hfree. rewrite Hfree, Hlib.
    do 2 eexists. split; [reflexivity|]. now repeat split.
  - intros (o & Hrows & Hlib & <-). unfold allowCredentials_for in Hlib.
    destruct (Request.username body) as [un|] eqn:Hun.
    2:{ rewrite login_start_anonymous by (rewrite Hun; reflexivity). rewrite Hlib.
        do 2 eexists. split; [reflexivity|]. now repeat split. }
    destruct (JS.truthy (Some un)) eqn:Tun.
    2:{ rewrite login_start_anonymous by (rewrite Hun; exact Tun). rewrite Hlib.
        do 2 eexists. split; [reflexivity|]. now repeat split. }
    rewrite (login_start_named amb body w un Hun Tun).
    specialize (Hrows un eq_refl Tun).
    destruct (select_credentials_of un (committed (db w))) as [|row rows];
      [now contradiction Hrows|].
    unfold authentication_options_for in Hlib. rewrite Hlib.
    do 2 eexists. split; [reflexivity|]. now repeat split.
Qed.

(** What a start request is given to work with is the request and the
    database: the session plays no part. *)
Lemma admits_db s w w' c : db w' = db w -> admits s w c -> admits s w' c.
Proof.
  intro Hdb. destruct s; cbn [admits]; try contradiction.
  - now rewrite Hdb.
  - unfold allowCredentials_for. now rewrite Hdb.
Qed.

(** A verify call that does not answer 200 leaves the session as it was. *)
Lemma failed_verify_keeps_session v w :
  is_verify v = true ->
  exists r w',
    run v w = (JS.Normal r, w')
    /\ (Response.status r <> 200%Z -> session w' = session w).
Proof.
  intro Hv. destruct v; try discriminate Hv; cbn [run].
  - destruct (register_verify_outcome body w)
      as [(r & d' & -> & _)|(ch & ud & info & cred & d' & _ & _ & _ & _ & -> & _)];
      do 2 eexists; (split; [reflexivity|]); intro Hst; [reflexivity|].
    now contradiction Hst.
  - destruct (login_verify_outcome body w)
      as [(r & -> & _)|(ch & cred & rec & rest & v & _ & _ & _ & _ & _ & ->)];
      do 2 eexists; (split; [reflexivity|]); intro Hst; [reflexivity|].
    now contradiction Hst.
Qed.

(** C7. A start request, of either ceremony, that is given what its route
    asks for (for [/register/start] a username and an email that no user
    holds, for [/login/start] no username or the name of a user with a
    credential), on any session, is answered with options, and their
    challenge [c1] is stored in the session. When a second such start
    request follows before any verify, it is answered with options too,
    and the session then holds its challenge [c2] in place of [c1]. And,
    the library checking the challenge, a verify call on a response made
    for [c1], a different challenge, is then answered but not with 200,
    and leaves [c2] in the session. *)
Theorem second_start_overwrites_challenge
    (s1 s2 v : call) (w0 : world) (c1 c2 : string) :
  checks_challenge lib ->
  is_verify v = true ->
  admits s1 w0 c1 ->
  admits s2 w0 c2 ->
  exists r1 w1 r2 w2,
    run s1 w0 = (JS.Normal r1, w1)
    /\ options_challenge r1 = Some c1
    /\ Session.currentChallenge (session w1) = Some c1
    /\ run s2 w1 = (JS.Normal r2, w2)
    /\ options_challenge r2 = Some c2
    /\ Session.currentChallenge (session w2) = Some c2
    /\ (c1 <> c2 ->
        signed_challenge v = Some c1 ->
        exists r w3,
          run v w2 = (JS.Normal r, w3)
          /\ Response.status r <> 200%Z
          /\ Session.currentChallenge (session w3) = Some c2).
Proof.
  intros Hlib Hv Ha1 Ha2.
  destruct (admitted_start s1 w0 c1 Ha1) as (r1 & w1 & Hrun1 & _ & Hc1 & Hs1 & Hdb).
  apply (admits_db s2 w0 w1 c2 Hdb) in Ha2.
  destruct (admitted_start s2 w1 c2 Ha2) as (r2 & w2 & Hrun2 & _ & Hc2 & Hs2 & _).
  exists r1, w1, r2, w2. repeat (split; [assumption|]).
  intros Hne Hsigned.
  destruct (failed_verify_keeps_session v w2 Hv) as (r & w3 & Hrun3 & Hkeeps).
  exists r, w3. split; [exact Hrun3|].
  assert (Hst : Response.status r <> 200%Z).
  { intro H200.
    destruct (verify_succeeds_on_stored_challenge v w2 r w3 Hlib Hv Hrun3 H200)
      as (c & Hc & Hsig).
    congruence. }
  split; [exact Hst|]. now rewrite (Hkeeps Hst).
Qed.

End SecondStart.

(** ** Registration: conflicts, and the identity that is registered *)

Section RegistrationProperties.
Context {lib : WebAuthn.Server}.
Import Pg.
Local Open Scope Z_scope.

(** When the library has verified a registration but a user row already
    holds the pending username or email (taken since the start call), as
    the table stores them, or a credential row already holds the reported
    credential identifier, the call answers the generic 500; the committed
    tables and the session are as they were, ceremony fields included, and
    no transaction is left open. One user id of the sequence is spent,
    which the rollback does not give back; none is when VARCHAR(255)
    refuses the pending username or email, which fails the INSERT before
    it draws an id. *)
Theorem registration_conflict_rolls_back
    (body : Request.body) (w : world) (ch : string)
    (userData : Session.registration_user) (info : WebAuthn.registration_info) :
  Session.currentChallenge (session w) = Some ch ->
  outstanding (session w) = true ->
  Session.registrationUser (session w) = Some userData ->
  WebAuthn.verifyRegistrationResponse (registration_args (Request.credential body) ch)
    = JS.Normal {| WebAuthn.reg_verified := true; WebAuthn.registrationInfo := Some info |} ->
  (exists u, In u (users (committed (db w)))
             /\ (username u = stored (Session.ru_username userData)
                 \/ email u = stored (Session.ru_email userData)))
  \/ (exists c, In c (credentials (committed (db w)))
                /\ credential_id c = bufferToBase64url (WebAuthn.credentialID info)) ->
  exists d',
    register_verify body w
      = (JS.Normal registration_failed, {| db := d'; session := session w |})
    /\ committed d' = committed (db w)
    /\ transaction d' = None
    /\ users_id_seq d' =
       if fits userData then users_id_seq (db w) + 1 else users_id_seq (db w).
Proof.
  intros Hch Hout Hud Hlib Htaken.
  rewrite (register_verify_in_progress body w ch userData Hch Hout Hud), Hlib.
  cbn [WebAuthn.reg_verified WebAuthn.registrationInfo].
  destruct (register_transaction_cases (Request.credential body) userData info w)
    as [(cred & _ & _ & Hfu & Hfc & _)|(_ & e & d' & -> & Hsame & Htx & Hseq)].
  - exfalso. destruct Htaken as [(u & Hu & Hheld)|(c & Hc & Hcid)].
    + destruct (Hfu u Hu) as (_ & Hun & Hem). destruct Hheld; [now apply Hun|now apply Hem].
    + destruct (Hfc c Hc) as [_ Hne]. now apply Hne.
  - exists d'. now repeat split.
Qed.

(** A registration registers the identity its start call was given,
    whatever the verify request carries besides the credential and
    whatever became of the database in between: the user row, the answer
    and the authenticated session all bear the username and the email of
    the start request, as the table stores them; that is, for values of at
    most 255 characters, the username and the email themselves. *)
Theorem registration_creates_started_user
    (amb : Request.ambient) (body body' : Request.body) (w w1 w2 : world)
    (d : database) (r1 r2 : Response.t) :
  register_start amb body w = (JS.Normal r1, w1) ->
  Response.status r1 = 200 ->
  register_verify body' {| db := d; session := session w1 |} = (JS.Normal r2, w2) ->
  Response.status r2 = 200 ->
  exists un em u,
    Request.username body = Some un
    /\ Request.email body = Some em
    /\ r2 = Response.json_ (Response.verified (public_fields u))
    /\ username u = stored un /\ email u = stored em /\ id u = users_id_seq d + 1
    /\ In u (users (committed (db w2)))
    /\ Session.userId (session w2) = Some (id u)
    /\ Session.username (session w2) = Some (stored un)
    /\ ((char_length un <= 255)%nat -> (char_length em <= 255)%nat ->
        username u = un /\ email u = em /\ Session.username (session w2) = Some un).
Proof.
  intros Hstart H1 Hverify H2.
  destruct (register_start_cases amb body w)
    as [(code & m & Hrs & Hcode)|(un & em & o & Hun & Hem & _ & _ & _ & _ & Hrs)];
    rewrite Hrs in Hstart; injection Hstart as <- <-.
  { now apply refusal_not_200 in Hcode. }
  cbn [with_session session] in Hverify.
  match type of Hverify with
  | register_verify _ ?w0 = _ =>
      destruct (register_verify_cases body' w0)
        as [(code' & m' & d' & Hrv & Hcode & _)
           |(ch & ud & info & cred & _ & _ & Hud & _ & _ & _ & _ & Hrv)];
        rewrite Hrv in Hverify; injection Hverify as <- <-
  end.
  { now apply refusal_not_200 in Hcode. }
  cbn in Hud. injection Hud as <-.
  exists un, em. eexists. repeat (split; [eassumption || reflexivity|]).
  split; [cbn; apply in_or_app; right; now left|].
  split; [reflexivity|]. split; [reflexivity|].
  intros Hfun Hfem.
  cbn [username email registered_user pending_user Session.ru_username Session.ru_email
       session set_registrationUser authenticated_as set_username Session.username].
  now rewrite !stored_fits.
Qed.

(** [/register/start] with a non-empty username and email answers
    ConflictError exactly when a user row holds that username or that
    email. When none does, the library's options are the answer, and the
    session stores their challenge with the pending identity (a fresh
    temporary id, the username, the email); the database and the
    authenticated fields of the session are untouched. *)
Theorem register_start_conflict_iff
    (amb : Request.ambient) (body : Request.body) (w : world) (un em : string) :
  Request.username body = Some un ->
  Request.email body = Some em ->
  JS.truthy (Some un) = true ->
  JS.truthy (Some em) = true ->
  (fst (register_start amb body w) = JS.Normal conflict
   <-> exists u, In u (users (committed (db w))) /\ (username u = un \/ email u = em))
  /\ Taxonomy.of_response conflict = Some Taxonomy.ConflictError
  /\ ((forall u, In u (users (committed (db w))) -> username u <> un /\ email u <> em) ->
      register_start amb body w =
      match WebAuthn.generateRegistrationOptions (Request.entropy amb)
              (registration_options_for amb un) with
      | JS.Normal o =>
          (JS.Normal (Response.json_ (Response.creation_options o)),
           {| db := db w;
              session :=
                {| Session.currentChallenge := Some (WebAuthn.co_challenge o);
                   Session.registrationUser := Some (pending_user amb un em);
                   Session.userId := Session.userId (session w);
                   Session.username := Session.username (session w) |} |})
      | JS.Throw _ => (JS.Normal registration_start_failed, w)
      end).
Proof.
  intros Hun Hem Tun Tem.
  rewrite (register_start_named amb body w un em Hun Hem Tun Tem).
  split; [|split; [reflexivity|]].
  - destruct (select_existing_users un em (committed (db w))) as [|i rows] eqn:Hsel.
    + split.
      * destruct (WebAuthn.generateRegistrationOptions _ _); cbn; discriminate.
      * intros (u & Hu & Hheld). exfalso.
        destruct (proj1 (select_existing_users_nil un em _) Hsel u Hu) as [H1 H2].
        destruct Hheld; [now apply H1|now apply H2].
    + split; [|reflexivity]. intros _.
      assert (Hin : In i (select_existing_users un em (committed (db w))))
        by (rewrite Hsel; now left).
      unfold select_existing_users in Hin. apply in_map_iff in Hin.
      destruct Hin as (u & _ & Hu). apply filter_In in Hu. destruct Hu as [Hu Hheld].
      exists u. split; [exact Hu|]. apply orb_true_iff in Hheld.
      destruct Hheld as [H|H]; apply String.eqb_eq in H; auto.
  - intro Hfree. apply select_existing_users_nil in Hfree. rewrite Hfree.
    destruct (WebAuthn.generateRegistrationOptions _ _); reflexivity.
Qed.

End RegistrationProperties.

(** ** The session across the routes *)

Section SessionProperties.
Context {lib : WebAuthn.Server}.
Import Pg.
Local Open Scope Z_scope.

(** The user a verify route answers with is the user the session is then
    bound to: the ceremony fields the route consumed are cleared, and
    [/session] afterwards answers that user's id and name (a user id of 0
    would be falsy, and that session not authenticated). *)
Theorem verified_user_is_session_user
    (c : call) (w w' : world) (r : Response.t) (u : Response.user) :
  is_verify c = true ->
  run c w = (JS.Normal r, w') ->
  Response.body r = Response.verified u ->
  Session.userId (session w') = Some (Response.id u)
  /\ Session.username (session w') = Some (Response.username u)
  /\ Session.currentChallenge (session w') = None
  /\ get_session w' =
     (JS.Normal (Response.json_
        (if Response.id u =? 0 then Response.not_authenticated
         else Response.authenticated (Response.id u) (Some (Response.username u)))),
      w').
Proof.
  intros Hc Hrun Hbody.
  assert (Hsession : Session.userId (session w') = Some (Response.id u)
                     /\ Session.username (session w') = Some (Response.username u)
                     /\ Session.currentChallenge (session w') = None).
  { destruct c; try discriminate Hc; cbn [run] in Hrun.
    - destruct (register_verify_cases body w)
        as [(code & m & d' & Hrv & _)
           |(ch & ud & info & cred & _ & _ & _ & _ & _ & _ & _ & Hrv)];
        rewrite Hrv in Hrun; injection Hrun as <- <-; [discriminate Hbody|].
      injection Hbody as <-. now repeat split.
    - destruct (login_verify_cases body w)
        as [(code & m & Hlv & _)
           |(ch & cred & rec & rest & v & _ & _ & _ & _ & _ & _ & Hlv)];
        rewrite Hlv in Hrun; injection Hrun as <- <-; [discriminate Hbody|].
      injection Hbody as <-. now repeat split. }
  destruct Hsession as (Hid & Hname & Hch). repeat (split; [assumption|]).
  unfold get_session. async. rewrite Hid, Hname. unfold JS.truthy_number.
  destruct (Response.id u =? 0); reflexivity.
Qed.

(** [/logout] ends the authentication and a ceremony in progress alike:
    whatever the session held, a verify call after it is refused with
    StateError and changes nothing, and [/session] answers
    [authenticated: false]. *)
Theorem logout_abandons_ceremony (c : call) (w : world) :
  is_verify c = true ->
  run c (snd (logout w)) = (JS.Normal (no_ceremony c), snd (logout w))
  /\ Taxonomy.of_response (no_ceremony c) = Some Taxonomy.StateError
  /\ fst (get_session (snd (logout w))) = JS.Normal (Response.json_ Response.not_authenticated)
  /\ session (snd (logout w)) = Session.empty.
Proof.
  intro Hc. destruct c; try discriminate Hc; cbn [run no_ceremony].
  - split; [|repeat split]. now apply register_verify_no_ceremony; left.
  - split; [|repeat split]. now apply login_verify_no_challenge.
Qed.

(** A start call, of either ceremony, never changes the database nor who
    is authenticated: the session's user id and name, and the answer of
    [/session], are the same after it as before. *)
Theorem start_keeps_authentication (s : call) (w : world) :
  is_start s = true ->
  db (snd (run s w)) = db w
  /\ Session.userId (session (snd (run s w))) = Session.userId (session w)
  /\ Session.username (session (snd (run s w))) = Session.username (session w)
  /\ fst (get_session (snd (run s w))) = fst (get_session w).
Proof.
  intro Hs. destruct s; try discriminate Hs; cbn [run].
  - destruct (register_start_cases amb body w)
      as [(code & m & -> & _)|(un & em & o & _ & _ & _ & _ & _ & _ & ->)];
      cbn [snd]; repeat (split; [reflexivity|]);
      unfold get_session; async;
      cbn [with_session session set_registrationUser set_currentChallenge
           Session.userId Session.username];
      (destruct (Session.userId (session w)) as [uid|];
       [destruct (JS.truthy_number (Some uid))|]); reflexivity.
  - destruct (login_start_cases amb body w) as [(code & m & -> & _)|(o & ->)];
      cbn [snd]; repeat (split; [reflexivity|]);
      unfold get_session; async;
      cbn [with_session session set_registrationUser set_currentChallenge
           Session.userId Session.username];
      (destruct (Session.userId (session w)) as [uid|];
       [destruct (JS.truthy_number (Some uid))|]); reflexivity.
Qed.

(** The routes of the authentication ceremony never touch the pending
    registration of the session: [registrationUser] outlives a login. So
    after a [/login/start] that answered options, a [/register/verify] on
    a session that held a pending registration is not refused with
    StateError: it is checked against the challenge of the login. *)
Theorem pending_registration_survives_login (c : call) (w : world) :
  is_login c = true ->
  Session.registrationUser (session (snd (run c w))) = Session.registrationUser (session w)
  /\ (forall r body userData,
        fst (run c w) = JS.Normal r ->
        (exists ch, options_challenge r = Some ch /\ JS.truthy (Some ch) = true) ->
        Session.registrationUser (session w) = Some userData ->
        exists r', fst (register_verify body (snd (run c w))) = JS.Normal r'
                   /\ Taxonomy.of_response r' <> Some Taxonomy.StateError).
Proof.
  intro Hc. destruct c; try discriminate Hc; cbn [run].
  - destruct (login_start_cases amb body w) as [(code & m & Hls & _)|(o & Hls)];
      rewrite Hls; cbn [fst snd]; (split; [reflexivity|]).
    + intros r body' ud [= <-] (ch & Hch & _). discriminate Hch.
    + intros r body' ud [= <-] (ch & [= <-] & Htruthy) Hud.
      rewrite (register_verify_in_progress body' _ (WebAuthn.ro_challenge o) ud);
        [|reflexivity|exact Htruthy|exact Hud].
      destruct (WebAuthn.verifyRegistrationResponse _) as [[verified info]|e].
      2:{ eexists. split; [reflexivity|discriminate]. }
      cbn [WebAuthn.reg_verified WebAuthn.registrationInfo].
      destruct verified; [|eexists; split; [reflexivity|discriminate]].
      destruct info as [info|]; [|eexists; split; [reflexivity|discriminate]].
      match goal with
      | |- context [register_transaction ?a ?b ?c ?d] =>
          destruct (register_transaction_cases a b c d)
            as [(cred & _ & _ & _ & _ & ->)|(_ & e & d' & -> & _)]
      end; eexists; (split; [reflexivity|discriminate]).
  - destruct (login_verify_cases body w)
      as [(code & m & Hlv & _)|(ch & cred & rec & rest & v & _ & _ & _ & _ & _ & _ & Hlv)];
      rewrite Hlv; cbn [fst snd]; (split; [reflexivity|]).
    + intros r body' ud [= <-] (ch & Hch & _). discriminate Hch.
    + intros r body' ud [= <-] (ch' & Hch & _). discriminate Hch.
Qed.

(** Without a username, or with an empty one, [/login/start] reads no
    table and answers no NotFoundError: the library is asked for options
    without an allow-list; its options are the answer and their challenge
    is stored, or, if it throws, the answer is the generic 500 and nothing
    is stored. *)
Theorem login_start_without_username
    (amb : Request.ambient) (body : Request.body) (w : world) :
  JS.truthy (Request.username body) = false ->
  login_start amb body w =
    match WebAuthn.generateAuthenticationOptions (Request.entropy amb)
            (authentication_options_for None) with
    | JS.Normal o =>
        (JS.Normal (Response.json_ (Response.request_options o)),
         with_session (set_currentChallenge (Some (WebAuthn.ro_challenge o)) (session w)) w)
    | JS.Throw _ => (JS.Normal start_failed, w)
    end
  /\ forall d, login_start amb body {| db := d; session := session w |}
               = (fst (login_start amb body w),
                  {| db := d; session := session (snd (login_start amb body w)) |}).
Proof.
  intro Hfalsy. split; [now apply login_start_anonymous|].
  intro d. rewrite !login_start_anonymous by assumption.
  destruct (WebAuthn.generateAuthenticationOptions _ _); reflexivity.
Qed.

End SessionProperties.

(** ** From a registration to the next login *)

Section Codec.
Import Node Sextets.

(** The identifier and the key a registration stores decode to the bytes
    they were made from. *)
Lemma stored_text_decodes (b : Buffer) : base64urlToBuffer (bufferToBase64url b) = b.
Proof.
  unfold base64urlToBuffer. cbv zeta.
  rewrite bufferToBase64url_chars, unurlify_chars by apply of_bytes_below_64.
  unfold from_base64. rewrite base64_sextets_chars by apply of_bytes_below_64.
  apply bytes_of_sextets_of_bytes.
Qed.

End Codec.

Section RegisteredRows.
Import Pg.
Local Open Scope Z_scope.

Lemma filter_none {A : Type} (f : A -> bool) (l : list A) :
  (forall x, In x l -> f x = false) -> filter f l = [].
Proof.
  induction l as [|x l IH]; [reflexivity|]. intro Hnone. cbn [filter].
  rewrite (Hnone x (or_introl eq_refl)). apply IH. intros y Hy. apply Hnone. now right.
Qed.

Lemma flat_map_none {A B : Type} (f : A -> list B) (l : list A) :
  (forall x, In x l -> f x = []) -> flat_map f l = [].
Proof.
  induction l as [|x l IH]; [reflexivity|]. intro Hnone. cbn [flat_map].
  rewrite (Hnone x (or_introl eq_refl)). apply IH. intros y Hy. apply Hnone. now right.
Qed.

(** After a registration the SELECT of [/login/verify] for the new
    identifier gives one row: the new credential with the new user. *)
Lemma select_credential_registered u c t :
  fresh_user u t -> fresh_credential c t -> user_id c = id u ->
  select_credential (credential_id c) (credential_added c (user_added u t))
  = [record_of c u].
Proof.
  intros Hfu Hfc Hown. unfold select_credential.
  cbn [credentials users credential_added user_added].
  rewrite filter_app, (filter_none _ (credentials t)).
  2:{ intros c0 Hc0. apply String.eqb_neq. now destruct (Hfc c0 Hc0). }
  cbn [filter app]. rewrite String.eqb_refl. cbn [flat_map].
  rewrite filter_app, (filter_none _ (users t)).
  2:{ intros u0 Hu0. apply Z.eqb_neq. rewrite Hown. intro Heq.
      destruct (Hfu u0 Hu0) as [Hne _]. now apply Hne. }
  cbn [filter app]. rewrite Hown, Z.eqb_refl. reflexivity.
Qed.

(** And the SELECT of [/login/start] for the new username gives the new
    credential alone, when every older credential references a user. *)
Lemma select_credentials_of_registered u c t :
  references_hold t ->
  fresh_user u t -> user_id c = id u ->
  select_credentials_of (username u) (credential_added c (user_added u t))
  = [(credential_id c, transports c)].
Proof.
  intros Hrefs Hfu Hown. unfold select_credentials_of.
  cbn [credentials users credential_added user_added].
  rewrite flat_map_app, (flat_map_none _ (credentials t)).
  2:{ intros c0 Hc0. rewrite filter_app, (filter_none _ (users t)).
      2:{ intros u0 Hu0. apply andb_false_iff. right. apply String.eqb_neq.
          now destruct (Hfu u0 Hu0) as (_ & Hne & _). }
      cbn [filter app].
      destruct (Hrefs c0 Hc0) as (u1 & Hu1 & Hid).
      destruct (Hfu u1 Hu1) as [Hne _].
      replace (user_id c0 =? id u) with false; [reflexivity|].
      symmetry. apply Z.eqb_neq. congruence. }
  cbn [flat_map app]. rewrite filter_app, (filter_none _ (users t)).
  2:{ intros u0 Hu0. apply andb_false_iff. right. apply String.eqb_neq.
      now destruct (Hfu u0 Hu0) as (_ & Hne & _). }
  cbn [filter app]. rewrite Hown, Z.eqb_refl, String.eqb_refl. reflexivity.
Qed.

End RegisteredRows.

Section RegisterThenLogin.
Context {lib : WebAuthn.Server}.
Import Pg.
Local Open Scope Z_scope.

(** A user who has registered is offered that passkey: a
    [/login/start] for the registered username, from any session, asks the
    library for options whose allow-list is the registered credential
    alone, with the identifier the library reported at the registration
    and the transports the browser posted; the answer is not 404. *)
Theorem registered_user_is_offered_passkey
    (body : Request.body) (w w' : world) (r : Response.t) :
  references_hold (committed (db w)) ->
  register_verify body w = (JS.Normal r, w') ->
  Response.status r = 200 ->
  exists ch0 cred info u,
    Session.currentChallenge (session w) = Some ch0
    /\ Request.credential body = Some cred
    /\ WebAuthn.verifyRegistrationResponse (registration_args (Some cred) ch0)
       = JS.Normal {| WebAuthn.reg_verified := true;
                      WebAuthn.registrationInfo := Some info |}
    /\ r = Response.json_ (Response.verified u)
    /\ forall (amb : Request.ambient) (body2 : Request.body) (s : Session.t),
         Request.username body2 = Some (Response.username u) ->
         JS.truthy (Some (Response.username u)) = true ->
         login_start amb body2 {| db := db w'; session := s |} =
         match WebAuthn.generateAuthenticationOptions (Request.entropy amb)
                 (authentication_options_for
                    (Some [ {| WebAuthn.ac_id := WebAuthn.credentialID info;
                               WebAuthn.ac_type := "public-key";
                               WebAuthn.ac_transports :=
                                 JS.or_array (WebAuthn.transports cred) [] |} ])) with
         | JS.Normal o =>
             (JS.Normal (Response.json_ (Response.request_options o)),
              {| db := db w';
                 session := set_currentChallenge (Some (WebAuthn.ro_challenge o)) s |})
         | JS.Throw _ => (JS.Normal start_failed, {| db := db w'; session := s |})
         end.
Proof.
  intros Hrefs Hrun H200.
  destruct (register_verify_cases body w)
    as [(code & m & d' & Hrv & Hcode & _)
       |(ch0 & ud & info & cred & Hch0 & _ & _ & Hcred & Hlib & Hfu & Hfc & Hrv)];
    rewrite Hrv in Hrun; injection Hrun as <- <-; [now apply refusal_not_200 in Hcode|].
  exists ch0, cred, info. eexists.
  repeat (split; [eassumption || reflexivity|]).
  intros amb body2 s Hun Htruthy.
  match goal with
  | |- login_start _ _ ?w0 = _ => rewrite (login_start_named amb body2 w0 _ Hun Htruthy)
  end.
  pose proof (select_credentials_of_registered _
                (registered_credential (db w) (registered_user (db w) ud) cred info)
                _ Hrefs Hfu eq_refl) as Hsel.
  cbn [username registered_user credential_id transports registered_credential] in Hsel.
  cbn [db session committed public_fields Response.username username registered_user].
  rewrite Hsel.
  unfold allow_credential_of, authentication_options_for.
  cbn [map fst snd JS.or_array].
  rewrite stored_text_decodes. reflexivity.
Qed.

End RegisterThenLogin.

(** ** The constraints of the migrations, kept by the routes *)

Section Constraints.
Context {lib : WebAuthn.Server}.
Import Pg.
Local Open Scope Z_scope.

Lemma NoDup_snoc {A : Type} (l : list A) (x : A) :
  NoDup l -> ~ In x l -> NoDup (l ++ [x]).
Proof.
  intros Hl Hx. apply NoDup_app; [exact Hl|repeat constructor; intros []|].
  intros a Ha [<-|[]]. now apply Hx.
Qed.

Lemma map_set_counter {B : Type} (f : credentials_row -> B) n cid l :
  (forall c, f (set_counter n c) = f c) ->
  map f (map (fun c => if (credential_id c =? cid)%string then set_counter n c else c) l)
  = map f l.
Proof.
  intro Hf. rewrite map_map. apply map_ext. intro c.
  destruct (credential_id c =? cid)%string; [apply Hf|reflexivity].
Qed.

Lemma constraints_hold_update n cid t :
  constraints_hold t -> constraints_hold (update_counter n cid t).
Proof.
  intros (Hid & Hun & Hem & Hcid & Hcred & Hrefs).
  unfold constraints_hold, update_counter. cbn [users credentials].
  rewrite !map_set_counter by reflexivity.
  repeat (split; [assumption|]).
  now apply (references_hold_update n cid t).
Qed.

Lemma constraints_hold_added u c t :
  constraints_hold t -> fresh_user u t -> fresh_credential c t -> user_id c = id u ->
  constraints_hold (credential_added c (user_added u t)).
Proof.
  intros (Hid & Hun & Hem & Hcid & Hcred & Hrefs) Hfu Hfc Hown.
  unfold constraints_hold. cbn [users credentials credential_added user_added].
  rewrite !map_app. cbn [map].
  repeat split.
  - apply NoDup_snoc; [exact Hid|]. intro Hin. apply in_map_iff in Hin.
    destruct Hin as (u0 & Heq & Hu0). now destruct (Hfu u0 Hu0) as (H & _ & _).
  - apply NoDup_snoc; [exact Hun|]. intro Hin. apply in_map_iff in Hin.
    destruct Hin as (u0 & Heq & Hu0). now destruct (Hfu u0 Hu0) as (_ & H & _).
  - apply NoDup_snoc; [exact Hem|]. intro Hin. apply in_map_iff in Hin.
    destruct Hin as (u0 & Heq & Hu0). now destruct (Hfu u0 Hu0) as (_ & _ & H).
  - apply NoDup_snoc; [exact Hcid|]. intro Hin. apply in_map_iff in Hin.
    destruct Hin as (c0 & Heq & Hc0). now destruct (Hfc c0 Hc0) as (H & _).
  - apply NoDup_snoc; [exact Hcred|]. intro Hin. apply in_map_iff in Hin.
    destruct Hin as (c0 & Heq & Hc0). now destruct (Hfc c0 Hc0) as (_ & H).
  - now apply references_hold_added.
Qed.

(** One request keeps the constraints, and leaves no transaction open. *)
Lemma run_keeps_constraints c w :
  constraints_hold (committed (db w)) -> transaction (db w) = None ->
  constraints_hold (committed (db (snd (run c w))))
  /\ transaction (db (snd (run c w))) = None.
Proof.
  intros Hok Htx. destruct c; cbn [run].
  - destruct (register_start_cases amb body w)
      as [(code & m & -> & _)|(un & em & o & _ & _ & _ & _ & _ & _ & ->)]; now split.
  - destruct (register_verify_cases body w)
      as [(code & m & d' & -> & _ & Hsame & Hclosed)
         |(ch & ud & info & cred & _ & _ & _ & _ & _ & Hfu & Hfc & ->)];
      cbn [snd db committed transaction].
    + rewrite Hsame. split; [exact Hok|now apply Hclosed].
    + split; [|reflexivity]. now apply constraints_hold_added.
  - destruct (login_start_cases amb body w) as [(code & m & -> & _)|(o & ->)]; now split.
  - destruct (login_verify_cases body w)
      as [(code & m & -> & _)|(ch & cred & rec & rest & v & _ & _ & _ & _ & _ & _ & ->)];
      cbn [snd db committed transaction with_committed]; [now split|].
    split; [now apply constraints_hold_update|exact Htx].
  - rewrite get_session_db. now split.
  - now split.
Qed.

(** The two migrations declare primary keys, UNIQUE (username), UNIQUE
    (email), UNIQUE (credential_id) and the foreign key from credentials
    to users. When they hold and no transaction is open, they hold, and no
    transaction is open, after every history of requests to the six
    routes, whatever sessions the requests come with. *)
Theorem routes_keep_constraints (requests : list (call * Session.t)) (w : world) :
  constraints_hold (committed (db w)) ->
  transaction (db w) = None ->
  constraints_hold (committed (db (serve requests w)))
  /\ transaction (db (serve requests w)) = None.
Proof.
  unfold serve. revert w.
  induction requests as [|[c s] requests IH]; intros w Hok Htx; [now split|].
  cbn [fold_left fst snd]. apply IH; now apply run_keeps_constraints.
Qed.

Lemma map_unchanged {A : Type} (f : A -> A) (l : list A) :
  (forall x, In x l -> f x = x) -> map f l = l.
Proof.
  intro Hf. induction l as [|x l IH]; [reflexivity|]. cbn [map].
  rewrite (Hf x (or_introl eq_refl)), IH; [reflexivity|].
  intros y Hy. apply Hf. now right.
Qed.

(** A list without two elements of the same key splits around the
    element of a key. *)
Lemma split_at_key {A B : Type} (f : A -> B) (l : list A) (c : A) :
  NoDup (map f l) -> In c l ->
  exists before after : list A,
    l = (before ++ c :: after)%list
    /\ forall x, In x (before ++ after)%list -> f x <> f c.
Proof.
  intros Hnodup Hc. destruct (in_split c l Hc) as (before & after & ->).
  exists before, after. split; [reflexivity|]. intros x Hx Heq.
  rewrite map_app in Hnodup. cbn [map] in Hnodup.
  apply NoDup_remove_2 in Hnodup. apply Hnodup.
  rewrite <- map_app, <- Heq. now apply in_map.
Qed.

Lemma select_credential_unique t c u :
  constraints_hold t -> In c (credentials t) -> In u (users t) -> user_id c = id u ->
  select_credential (credential_id c) t = [record_of c u].
Proof.
  intros (Hid & _ & _ & _ & Hcred & _) Hc Hu Hown.
  destruct (split_at_key credential_id _ c Hcred Hc) as (l1 & l2 & Hl & Hothers).
  destruct (split_at_key id _ u Hid Hu) as (m1 & m2 & Hm & Hothers').
  unfold select_credential. rewrite Hl, Hm.
  rewrite filter_app. cbn [filter]. rewrite String.eqb_refl.
  rewrite !filter_none.
  2:{ intros x Hx. apply String.eqb_neq. apply Hothers. apply in_or_app. now right. }
  2:{ intros x Hx. apply String.eqb_neq. apply Hothers. apply in_or_app. now left. }
  cbn [app flat_map]. rewrite filter_app. cbn [filter]. rewrite Hown, Z.eqb_refl.
  rewrite !filter_none.
  2:{ intros x Hx. apply Z.eqb_neq. intro Heq. apply (Hothers' x); [|now symmetry].
      apply in_or_app. now right. }
  2:{ intros x Hx. apply Z.eqb_neq. intro Heq. apply (Hothers' x); [|now symmetry].
      apply in_or_app. now left. }
  reflexivity.
Qed.

(** Under the constraints a successful [/login/verify] found one row, the
    only one of the presented identifier, so that [rows[0]] drops nothing:
    the user answered is the owner of that credential, the UPDATE rewrites
    the counter of that row and leaves every other row, and the users
    table, as they were. *)
Theorem login_verify_updates_one_row
    (body : Request.body) (w w' : world) (r : Response.t) :
  constraints_hold (committed (db w)) ->
  login_verify body w = (JS.Normal r, w') ->
  Response.status r = 200 ->
  exists cred c u n (before after : list credentials_row),
    Request.credential body = Some cred
    /\ credential_id c = bufferToBase64url (Node.from_string (WebAuthn.rawId cred))
    /\ In u (users (committed (db w))) /\ user_id c = id u
    /\ select_credential (bufferToBase64url (Node.from_string (WebAuthn.rawId cred)))
        (committed (db w))
       = [record_of c u]
    /\ r = Response.json_ (Response.verified (public_fields u))
    /\ credentials (committed (db w)) = (before ++ c :: after)%list
    /\ credentials (committed (db w')) = (before ++ set_counter n c :: after)%list
    /\ users (committed (db w')) = users (committed (db w)).
Proof.
  intros Hok Hrun H200.
  destruct (login_verify_cases body w)
    as [(code & m & Hlv & Hcode)
       |(ch & cred & rec & rest & v & _ & _ & Hcred & Hsel & _ & _ & Hlv)];
    rewrite Hlv in Hrun; injection Hrun as <- <-; [now apply refusal_not_200 in Hcode|].
  assert (Hin : In rec (select_credential (bufferToBase64url (Node.from_string (WebAuthn.rawId cred)))
                          (committed (db w)))) by (rewrite Hsel; now left).
  destruct (select_credential_row _ _ rec Hin) as (c & u & Hc & Hu & Hcid & Hown & _).
  pose proof (select_credential_unique _ c u Hok Hc Hu Hown) as Hone.
  rewrite Hcid, Hsel in Hone. injection Hone as -> ->.
  destruct Hok as (_ & _ & _ & _ & Hnodup & _).
  destruct (split_at_key credential_id _ c Hnodup Hc) as (before & after & Hl & Hothers).
  exists cred, c, u, (WebAuthn.newCounter (WebAuthn.authenticationInfo v)), before, after.
  repeat (split; [assumption || reflexivity|]).
  split; [|reflexivity].
  cbn [db committed with_committed]. unfold update_counter. cbn [credentials].
  rewrite Hl, map_app. cbn [map]. rewrite Hcid, String.eqb_refl.
  rewrite !map_unchanged; [reflexivity| |].
  - intros x Hx. replace
      (credential_id x =? bufferToBase64url (Node.from_string (WebAuthn.rawId cred)))%string
      with false; [reflexivity|].
    symmetry. apply String.eqb_neq. rewrite <- Hcid. apply Hothers. apply in_or_app. now right.
  - intros x Hx. replace
      (credential_id x =? bufferToBase64url (Node.from_string (WebAuthn.rawId cred)))%string
      with false; [reflexivity|].
    symmetry. apply String.eqb_neq. rewrite <- Hcid. apply Hothers. apply in_or_app. now left.
Qed.

End Constraints.

(** ** More on the base64url helpers *)

Section Base64urlShape.
Import Node Sextets.

Lemma url_char_safe i : (i < 64)%N -> url_safe (url_char i) = true.
Proof.
  intro Hi.
  assert (all : forallb (fun i => url_safe (url_char i)) (map N.of_nat (seq 0 64)) = true)
    by (vm_compute; reflexivity).
  rewrite forallb_forall in all. apply all.
  rewrite <- (N2Nat.id i). apply in_map, in_seq. lia.
Qed.

Lemma every_char_chars l :
  Forall (fun i => (i < 64)%N) l -> every_char url_safe (chars url_char l) = true.
Proof.
  induction 1 as [|i l Hi _ IH]; [reflexivity|].
  cbn [chars every_char]. now rewrite url_char_safe, IH.
Qed.

Lemma length_chars f l : String.length (chars f l) = List.length l.
Proof. induction l as [|i l IH]; [reflexivity|]. cbn [chars String.length]. now rewrite IH. Qed.

Lemma length_of_bytes buf :
  List.length (of_bytes buf) = ((4 * List.length buf + 2) / 3)%nat.
Proof.
  induction buf as [|x|x y|x y z rest IH] using list_ind3; try reflexivity.
  cbn [of_bytes List.length]. rewrite IH.
  replace (4 * S (S (S (List.length rest))) + 2)%nat
    with ((4 * List.length rest + 2) + 4 * 3)%nat by lia.
  rewrite Nat.div_add by discriminate. lia.
Qed.

(** What [bufferToBase64url] writes is made of the URL-safe alphabet only,
    with no [+], [/] or padding, and has the length of unpadded base64:
    four characters for three bytes, rounded up. *)
Theorem bufferToBase64url_shape (b : Buffer) :
  every_char url_safe (bufferToBase64url b) = true
  /\ String.length (bufferToBase64url b) = ((4 * List.length b + 2) / 3)%nat.
Proof.
  rewrite bufferToBase64url_chars. split.
  - apply every_char_chars, of_bytes_below_64.
  - rewrite length_chars. apply length_of_bytes.
Qed.

(** Two buffers are written as the same text only if they are the same
    bytes: distinct credential identifiers are stored, and looked up,
    under distinct values of [credential_id]. *)
Theorem bufferToBase64url_injective (b1 b2 : Buffer) :
  bufferToBase64url b1 = bufferToBase64url b2 <-> b1 = b2.
Proof.
  split; [|now intros ->].
  intro Heq. rewrite <- (stored_text_decodes b1), <- (stored_text_decodes b2).
  now rewrite Heq.
Qed.

Lemma toString_base64_chars buf :
  exists k, toString_base64 buf
            = (chars base64_char (of_bytes buf) ++ repeat_string "=" k)%string.
Proof.
  induction buf as [|x|x y|x y z rest [k IH]] using list_ind3.
  - now exists 0%nat.
  - now exists 2%nat.
  - now exists 1%nat.
  - exists k. cbn [toString_base64 of_bytes chars String.append]. now rewrite IH.
Qed.

Lemma base64_char_kept i :
  (i < 64)%N -> swap "_" "/" (swap "-" "+" (base64_char i)) = base64_char i.
Proof.
  intro Hi.
  assert (all : forallb (fun i => (swap "_" "/" (swap "-" "+" (base64_char i))
                                   =? base64_char i)%char)
                  (map N.of_nat (seq 0 64)) = true)
    by (vm_compute; reflexivity).
  rewrite forallb_forall in all. apply Ascii.eqb_eq, all.
  rewrite <- (N2Nat.id i). apply in_map, in_seq. lia.
Qed.

Lemma padding_kept k :
  replace_char "_" "/" (replace_char "-" "+" (repeat_string "=" k)) = repeat_string "=" k.
Proof. induction k as [|k IH]; [reflexivity|]. cbn. cbn in IH. now rewrite IH. Qed.

Lemma standard_kept l k :
  Forall (fun i => (i < 64)%N) l ->
  replace_char "_" "/" (replace_char "-" "+" (chars base64_char l ++ repeat_string "=" k))
  = (chars base64_char l ++ repeat_string "=" k)%string.
Proof.
  induction 1 as [|i l Hi _ IH]; cbn [chars String.append].
  - apply padding_kept.
  - cbn [replace_char]. rewrite IH. f_equal. now apply base64_char_kept.
Qed.

Lemma repeat_string_app k p :
  (repeat_string "=" k ++ repeat_string "=" p)%string = repeat_string "=" (k + p).
Proof. induction k as [|k IH]; [reflexivity|]. cbn. cbn in IH. now rewrite IH. Qed.

Lemma append_assoc (a b c : string) : ((a ++ b) ++ c = a ++ (b ++ c))%string.
Proof. induction a as [|x a IH]; [reflexivity|]. cbn. now rewrite IH. Qed.

(** [base64urlToBuffer] also reads the standard alphabet, with its padding:
    it gives back the bytes of any buffer written by Node's own
    [toString('base64')]. *)
Theorem base64urlToBuffer_reads_base64 (b : Buffer) :
  base64urlToBuffer (toString_base64 b) = b.
Proof.
  destruct (toString_base64_chars b) as [k ->].
  unfold base64urlToBuffer. cbv zeta.
  rewrite standard_kept by apply of_bytes_below_64.
  unfold from_base64. rewrite append_assoc, repeat_string_app.
  rewrite base64_sextets_chars by apply of_bytes_below_64.
  apply bytes_of_sextets_of_bytes.
Qed.

End Base64urlShape.

(** ** The identifier of a credential, at its registration and at a login *)

Section LookupKey.
Context {lib : WebAuthn.Server}.
Import Pg.

Lemma length_from_string s : List.length (Node.from_string s) = String.length s.
Proof.
  unfold Node.from_string, list_byte_of_string. rewrite length_map.
  induction s as [|c s IH]; [reflexivity|].
  cbn [list_ascii_of_string List.length String.length]. now rewrite IH.
Qed.

Lemma length_bufferToBase64url b :
  String.length (bufferToBase64url b) = ((4 * List.length b + 2) / 3)%nat.
Proof. rewrite bufferToBase64url_chars, length_chars. apply length_of_bytes. Qed.

(** Encoding the text of an identifier once more gives a longer text:
    never the text itself, unless the identifier is empty. *)
Lemma encoded_again_differs b :
  b <> [] ->
  bufferToBase64url (Node.from_string (bufferToBase64url b)) <> bufferToBase64url b.
Proof.
  intros Hb Heq. apply (f_equal String.length) in Heq.
  rewrite (length_bufferToBase64url (Node.from_string _)), length_from_string in Heq.
  set (m := String.length (bufferToBase64url b)) in *.
  assert (Hm : (1 <= m)%nat).
  { unfold m. rewrite length_bufferToBase64url.
    apply Nat.div_le_lower_bound; [discriminate|].
    destruct b; [now contradiction Hb|]. cbn [List.length]. lia. }
  assert (Hlt : (m + 1 <= (4 * m + 2) / 3)%nat).
  { apply Nat.div_le_lower_bound; [discriminate|]. lia. }
  lia.
Qed.

Lemma select_credential_none cid t :
  (forall c, In c (credentials t) -> credential_id c <> cid) ->
  select_credential cid t = [].
Proof.
  intro Hnone. unfold select_credential. rewrite filter_none; [reflexivity|].
  intros c Hc. apply String.eqb_neq. now apply Hnone.
Qed.

(** A passkey registered through [/register/verify] is stored under the
    base64url text of the identifier the library reported (line 207). At a
    login the page posts that text as [rawId], and line 301 encodes the
    text once more: the SELECT asks for the base64url of the base64url
    text, which is not the stored [credential_id]. So, unless an older
    credential row happens to be stored under that other text, the login
    with the passkey just registered is answered 404 "Credential not
    found", from any session with a challenge outstanding and whatever the
    response carries besides; nothing is changed. *)
Theorem registered_passkey_is_not_found
    (body : Request.body) (w w' : world) (r : Response.t) :
  register_verify body w = (JS.Normal r, w') ->
  Response.status r = 200%Z ->
  exists ch0 cred info c,
    Session.currentChallenge (session w) = Some ch0
    /\ Request.credential body = Some cred
    /\ WebAuthn.verifyRegistrationResponse (registration_args (Some cred) ch0)
       = JS.Normal {| WebAuthn.reg_verified := true;
                      WebAuthn.registrationInfo := Some info |}
    /\ credentials (committed (db w')) = (credentials (committed (db w)) ++ [c])%list
    /\ credential_id c = bufferToBase64url (WebAuthn.credentialID info)
    /\ forall (body2 : Request.body) (cred2 : WebAuthn.credential) (s : Session.t),
         Request.credential body2 = Some cred2 ->
         WebAuthn.rawId cred2 = bufferToBase64url (WebAuthn.credentialID info) ->
         WebAuthn.credentialID info <> [] ->
         outstanding s = true ->
         (forall c0, In c0 (credentials (committed (db w))) ->
            credential_id c0 <> bufferToBase64url (Node.from_string (WebAuthn.rawId cred2))) ->
         login_verify body2 {| db := db w'; session := s |} =
         (JS.Normal (Response.status_json 404 (Response.error "Credential not found")),
          {| db := db w'; session := s |})
         /\ Taxonomy.of_response
              (Response.status_json 404 (Response.error "Credential not found"))
            = Some Taxonomy.NotFoundError.
Proof.
  intros Hrun H200.
  destruct (register_verify_cases body w)
    as [(code & m & d' & Hrv & Hcode & _)
       |(ch0 & ud & info & cred & Hch0 & _ & _ & Hcred & Hlib & Hfu & Hfc & Hrv)];
    rewrite Hrv in Hrun; injection Hrun as <- <-; [now apply refusal_not_200 in Hcode|].
  exists ch0, cred, info. eexists.
  split; [exact Hch0|]. split; [exact Hcred|]. split; [exact Hlib|].
  split; [reflexivity|]. split; [reflexivity|].
  intros body2 cred2 s Hcred2 Hraw Hid Hout Hold.
  split; [|reflexivity].
  match goal with
  | |- login_verify _ ?w0 = _ => apply (login_verify_unknown body2 w0 cred2 Hout Hcred2)
  end.
  apply select_credential_none.
  cbn [db session committed credentials credential_added user_added].
  intros c0 Hc0. apply in_app_or in Hc0. destruct Hc0 as [Hc0|[<-|[]]].
  - now apply Hold.
  - cbn [credential_id registered_credential]. rewrite Hraw.
    intro Heq. symmetry in Heq. now apply encoded_again_differs in Heq.
Qed.

End LookupKey.

(** C5, against the code. Alice registers her passkey through
    [/register/verify], which stores it under the base64url text of its
    identifier. She then logs in with it from the page: a challenge is
    outstanding, the response is signed by her key over that challenge,
    the origin and the relying party, so that the library accepts it
    against the stored credential, and its counter, 1, is greater than the
    stored 0. The page posts the identifier as base64url text, the very
    text the table holds in [credential_id]; line 301 encodes it once
    more, the SELECT finds no row, and the answer is 404 "Credential not
    found": no counter is updated, the challenge stays, no session is
    established, and the page shows the error to a user who is not signed
    in. *)
Theorem registered_passkey_login_is_not_found :
  @register_verify Scenario.server
    (Scenario.post (Scenario.attestation "c1" origin 0)) (Scenario.at_registration "c1")
  = (JS.Normal (Response.json_ (Response.verified (public_fields Scenario.alice))),
     {| db := Scenario.registered 0; session := Visit.signed |})
  /\ outstanding (session (Scenario.at_login 0 "c2")) = true
  /\ Pg.credentials (Pg.committed (db (Scenario.at_login 0 "c2"))) = [Scenario.passkey 0]
  /\ WebAuthn.rawId (Scenario.page_assertion "c2" origin 1 Scenario.key)
     = Pg.credential_id (Scenario.passkey 0)
  /\ @WebAuthn.verifyAuthenticationResponse Scenario.server
       (authentication_args (Some (Scenario.page_assertion "c2" origin 1 Scenario.key)) "c2"
          (record_of (Scenario.passkey 0) Scenario.alice))
     = JS.Normal {| WebAuthn.auth_verified := true;
                    WebAuthn.authenticationInfo := {| WebAuthn.newCounter := 1 |} |}
  /\ (Pg.counter (Scenario.passkey 0)
      < WebAuthn.ad_signCount
          (WebAuthn.authenticatorData (Scenario.page_assertion "c2" origin 1 Scenario.key)))%Z
  /\ bufferToBase64url
       (Node.from_string (WebAuthn.rawId (Scenario.page_assertion "c2" origin 1 Scenario.key)))
     = "YVdRd01R"
  /\ @login_verify Scenario.server
       (Scenario.post (Scenario.page_assertion "c2" origin 1 Scenario.key))
       (Scenario.at_login 0 "c2")
     = (JS.Normal (Response.status_json 404 (Response.error "Credential not found")),
        Scenario.at_login 0 "c2")
  /\ App.currentUser
       (App.client
          (snd (@perform Scenario.server Visit.online (LoggingIn "alice")
                  (Visit.visiting
                     {| db := Scenario.registered 0; session := Session.empty |}))))
     = None
  /\ App.auth_message
       (App.elements
          (App.client
             (snd (@perform Scenario.server Visit.online (LoggingIn "alice")
                     (Visit.visiting
                        {| db := Scenario.registered 0; session := Session.empty |})))))
     = shown "Credential not found" "error"
  /\ App.server
       (snd (@perform Scenario.server Visit.online (LoggingIn "alice")
               (Visit.visiting
                  {| db := Scenario.registered 0; session := Session.empty |})))
     = Scenario.at_login 0 "c2".
Proof. repeat split. Qed.

(** ** The page and the service together *)

#[local] Arguments run : simpl never.

Section Tasks.
Context {lib : WebAuthn.Server} {env : Browser.Environment}.
Import Browser App.

Lemma run_answers c w : exists r w', run c w = (JS.Normal r, w').
Proof.
  destruct c; unfold run.
  - destruct (register_start_cases amb body w)
      as [(code & m & -> & _)|(un & em & o & _ & _ & _ & _ & _ & _ & ->)]; now do 2 eexists.
  - destruct (register_verify_cases body w)
      as [(code & m & d' & -> & _)|(ch & ud & info & cred & _ & _ & _ & _ & _ & _ & _ & ->)];
      now do 2 eexists.
  - destruct (login_start_cases amb body w) as [(code & m & -> & _)|(o & ->)];
      now do 2 eexists.
  - destruct (login_verify_cases body w)
      as [(code & m & -> & _)|(ch & cred & rec & rest & v & _ & _ & _ & _ & _ & _ & ->)];
      now do 2 eexists.
  - unfold get_session. async. cbn.
    destruct (Session.userId (session w)) as [uid|]; [|now do 2 eexists].
    destruct (JS.truthy_number (Some uid)); now do 2 eexists.
  - now do 2 eexists.
Qed.

(** The user a verify route answers is the user it has bound the session
    to. *)
Lemma verify_binds_session c w r w' u :
  is_verify c = true ->
  run c w = (JS.Normal r, w') ->
  Response.body r = Response.verified u ->
  Session.userId (session w') = Some (Response.id u)
  /\ Session.username (session w') = Some (Response.username u)
  /\ Session.currentChallenge (session w') = None.
Proof.
  intros Hc Hrun Hbody. destruct c; try discriminate Hc; unfold run in Hrun.
  - destruct (register_verify_cases body w)
      as [(code & m & d' & Hrv & _)
         |(ch & ud & info & cred & _ & _ & _ & _ & _ & _ & _ & Hrv)];
      rewrite Hrv in Hrun; injection Hrun as <- <-; [discriminate Hbody|].
    injection Hbody as <-. now repeat split.
  - destruct (login_verify_cases body w)
      as [(code & m & Hlv & _)
         |(ch & cred & rec & rest & v & _ & _ & _ & _ & _ & _ & Hlv)];
      rewrite Hlv in Hrun; injection Hrun as <- <-; [discriminate Hbody|].
    injection Hbody as <-. now repeat split.
Qed.

(** *** The steps of a flow, one by one *)

Lemma bind_inv {A B : Type} (m : Task A) (k : A -> Task B) st c st2 :
  bind m k st = (c, st2) ->
  (exists a st1, m st = (Normal a, st1) /\ k a st1 = (c, st2))
  \/ (exists e, m st = (Throw e, st2) /\ c = Throw e).
Proof.
  unfold bind. destruct (m st) as [[a|e] st1].
  - intro Hk. left. now exists a, st1.
  - intros [= <- <-]. right. now exists e.
Qed.

Lemma bind_normal {A B : Type} (m : Task A) (k : A -> Task B) st a st1 :
  m st = (Normal a, st1) -> bind m k st = k a st1.
Proof. unfold bind. now intros ->. Qed.

Lemma bind_throw {A B : Type} (m : Task A) (k : A -> Task B) st e st1 :
  m st = (Throw e, st1) -> bind m k st = (Throw e, st1).
Proof. unfold bind. now intros ->. Qed.

Lemma showAuthMessage_eq message type st :
  showAuthMessage message type st
  = (Normal tt, with_client (announce message type (client st)) st).
Proof. reflexivity. Qed.

(** A [fetch] counts, leaves the page as it is otherwise, and resolves
    only with the answer of the route that ran. *)
Lemma fetch_inv request st c st1 :
  fetch request st = (c, st1) ->
  client st1 = count_fetch (client st)
  /\ match c with
     | Normal resp =>
         network (fetched (client st)) = Delivered
         /\ exists r,
              run (request (ambient (fetched (client st)))) (server st)
                = (JS.Normal r, server st1)
              /\ resp = received (JS.Normal r)
     | Throw e =>
         server st1 = server st
         \/ server st1 = snd (run (request (ambient (fetched (client st)))) (server st))
     end.
Proof.
  unfold fetch. destruct (network (fetched (client st))) as [|e|e].
  - destruct (run_answers (request (ambient (fetched (client st)))) (server st))
      as (r & w & ->).
    intros [= <- <-]. split; [reflexivity|]. split; [reflexivity|]. now exists r.
  - intros [= <- <-]. split; [reflexivity|]. now left.
  - intros [= <- <-]. split; [reflexivity|]. now right.
Qed.

Lemma fetch_delivered request st r w :
  network (fetched (client st)) = Delivered ->
  run (request (ambient (fetched (client st)))) (server st) = (JS.Normal r, w) ->
  fetch request st
  = (Normal (received (JS.Normal r)),
     {| client := count_fetch (client st); server := w |}).
Proof. unfold fetch. now intros -> ->. Qed.

Lemma check_ok_inv resp fb st c st1 :
  check_ok resp fb st = (c, st1) ->
  st1 = st
  /\ (c = Normal tt /\ ok resp = true
      \/ ok resp = false
         /\ c = Throw match json resp with
                      | Normal j => Error (error_or j fb)
                      | Throw e => e
                      end).
Proof.
  unfold check_ok. destruct (ok resp); cbn [negb].
  - intros [= <- <-]. split; [reflexivity|]. now left.
  - task. destruct (json resp) as [j|e]; intros [= <- <-]; (split; [reflexivity|]);
      now right.
Qed.

Lemma authenticator_inv call text st c st1 :
  authenticator call text st = (c, st1) ->
  st1 = st
  /\ c = match call with
         | Normal cred => Normal cred
         | Throw e => Throw (if name e =? "NotAllowedError" then Error text else e)
         end.
Proof.
  unfold authenticator. task. destruct call as [cred|e].
  - now intros [= <- <-].
  - destruct (name e =? "NotAllowedError"); now intros [= <- <-].
Qed.

Lemma welcome_inv result greeting st c st1 :
  welcome result greeting st = (c, st1) ->
  c = Normal tt
  /\ server st1 = server st
  /\ match result with
     | Response.verified u =>
         currentUser (client st1) = Some (signed_in u)
         /\ auth_message (elements (client st1)) = shown greeting "success"
     | _ => st1 = st
     end.
Proof.
  unfold welcome. destruct result; now intros [= <- <-].
Qed.

End Tasks.

(** ** What a flow of the page leaves behind *)

Section Page.
Context {lib : WebAuthn.Server} {env : Browser.Environment}.
Import Browser App.

Lemma perform_ceremony f : perform f = ceremony f.
Proof. destruct f; reflexivity. Qed.

Lemma start_of_is_start f amb : is_start (start_of f amb) = true.
Proof. now destruct f. Qed.

Lemma verify_of_is_verify f c : is_verify (verify_of f c) = true.
Proof. now destruct f. Qed.

(** How the [try] block of a flow ends: it throws before it has touched
    [currentUser], or it ends with [currentUser] untouched, or it ends
    with the user the verify route answered, whom the service has bound
    to the session. *)
Lemma ceremony_body_outcome f st c st1 :
  ceremony_body f st = (c, st1) ->
  currentUser (client st1) = currentUser (client st)
  \/ c = Normal tt
     /\ exists u,
          currentUser (client st1) = Some (signed_in u)
          /\ auth_message (elements (client st1)) = shown (greeting f) "success"
          /\ Session.userId (session (server st1)) = Some (Response.id u)
          /\ Session.username (session (server st1)) = Some (Response.username u)
          /\ Session.currentChallenge (session (server st1)) = None.
Proof.
  intro H. unfold ceremony_body in H.
  unbind @bind_inv H; rewrite showAuthMessage_eq in H0; [|discriminate H0].
  injection H0 as <- <-.
  unbind @bind_inv H.
  2:{ left. apply fetch_inv in H0. destruct H0 as [-> _]. reflexivity. }
  apply fetch_inv in H0. destruct H0 as (Hc0 & _ & r1 & Hrun1 & ->).
  unbind @bind_inv H.
  2:{ left. apply check_ok_inv in H0. destruct H0 as [-> _]. now rewrite Hc0. }
  apply check_ok_inv in H0. destruct H0 as [-> _].
  unbind @bind_inv H.
  2:{ left. injection H0 as _ <-. now rewrite Hc0. }
  injection H0 as _ <-.
  unbind @bind_inv H; rewrite showAuthMessage_eq in H0; [|discriminate H0].
  injection H0 as <- <-.
  unbind @bind_inv H.
  2:{ left. apply authenticator_inv in H0. destruct H0 as [-> _].
      cbn [client with_client announce currentUser]. now rewrite Hc0. }
  apply authenticator_inv in H0. destruct H0 as [-> _].
  unbind @bind_inv H; rewrite showAuthMessage_eq in H0; [|discriminate H0].
  injection H0 as <- <-.
  unbind @bind_inv H.
  2:{ left. apply fetch_inv in H0. destruct H0 as [-> _].
      cbn [client with_client announce currentUser count_fetch]. now rewrite Hc0. }
  apply fetch_inv in H0. destruct H0 as (Hc2 & _ & r2 & Hrun2 & ->).
  unbind @bind_inv H.
  2:{ left. apply check_ok_inv in H0. destruct H0 as [-> _]. rewrite Hc2.
      cbn [client with_client announce currentUser count_fetch]. now rewrite Hc0. }
  apply check_ok_inv in H0. destruct H0 as [-> _].
  unbind @bind_inv H.
  2:{ left. injection H0 as _ <-. rewrite Hc2.
      cbn [client with_client announce currentUser count_fetch]. now rewrite Hc0. }
  injection H0 as <- <-.
  apply welcome_inv in H. destruct H as (-> & Hserver & Hresult).
  cbn [received json] in Hresult.
  destruct (Response.body r2) as [m|o|o|u|uid un| |] eqn:Hbody;
    try (left; rewrite Hresult, Hc2;
         cbn [client with_client announce currentUser count_fetch]; now rewrite Hc0).
  right. split; [reflexivity|]. exists u. destruct Hresult as [Huser Hmessage].
  split; [exact Huser|]. split; [exact Hmessage|]. rewrite Hserver.
  cbn [server with_server with_client] in Hrun2.
  exact (verify_binds_session _ _ _ _ u (verify_of_is_verify f _) Hrun2 Hbody).
Qed.

Lemma flow_outcome f st st' :
  perform f st = (Normal tt, st') ->
  currentUser (client st') = currentUser (client st)
  \/ exists u,
       currentUser (client st') = Some (signed_in u)
       /\ auth_message (elements (client st')) = shown (greeting f) "success"
       /\ Session.userId (session (server st')) = Some (Response.id u)
       /\ Session.username (session (server st')) = Some (Response.username u)
       /\ Session.currentChallenge (session (server st')) = None.
Proof.
  rewrite perform_ceremony. unfold ceremony, try_catch.
  destruct (ceremony_body f st) as [[[]|e] st1] eqn:Hbody.
  - intros [= <-].
    destruct (ceremony_body_outcome f st _ _ Hbody) as [Hsame|(_ & u & Hu)];
      [now left|right; now exists u].
  - rewrite showAuthMessage_eq. intros [= <-]. left.
    destruct (ceremony_body_outcome f st _ _ Hbody) as [Hsame|(Hc & _)];
      [exact Hsame|discriminate Hc].
Qed.

Lemma flow_ends f st : exists st', perform f st = (Normal tt, st').
Proof.
  rewrite perform_ceremony. unfold ceremony, try_catch.
  destruct (ceremony_body f st) as [[[]|e] st1]; [now exists st1|].
  rewrite showAuthMessage_eq. now eexists.
Qed.

(** A flow of the page never throws, and never shows a user the service
    has not bound to the session: when it ends, [currentUser] is what it
    was, or it is the user the verify route answered, the session of the
    page's cookie is bound to that user, the challenge is consumed, and
    the message greets the user. *)
Theorem flow_binds_the_user_the_server_bound (f : flow) (st : state) :
  exists st',
    perform f st = (Normal tt, st')
    /\ (currentUser (client st') = currentUser (client st)
        \/ exists u,
             currentUser (client st') = Some (signed_in u)
             /\ auth_message (elements (client st')) = shown (greeting f) "success"
             /\ Session.userId (session (server st')) = Some (Response.id u)
             /\ Session.username (session (server st')) = Some (Response.username u)
             /\ Session.currentChallenge (session (server st')) = None).
Proof.
  destruct (flow_ends f st) as [st' Hflow]. exists st'. split; [exact Hflow|].
  exact (flow_outcome f st st' Hflow).
Qed.

End Page.

(** ** What the user is shown *)

Section Shown.
Context {lib : WebAuthn.Server} {env : Browser.Environment}.
Import Browser App.
Local Open Scope Z_scope.

(** A start route refuses, with a message and the world as it was, or
    answers the options whose challenge it has stored. *)
Lemma start_answer c w r w1 :
  is_start c = true ->
  run c w = (JS.Normal r, w1) ->
  (exists m, Response.body r = Response.error m /\ refusal (Response.status r) m /\ w1 = w)
  \/ (Response.status r = 200
      /\ (forall m, Response.body r <> Response.error m)
      /\ db w1 = db w
      /\ exists ch, options_challenge r = Some ch
                    /\ Session.currentChallenge (session w1) = Some ch).
Proof.
  intros Hc Hrun. destruct c; try discriminate Hc; unfold run in Hrun.
  - destruct (register_start_cases amb body w)
      as [(code & m & Hrs & Href)|(un & em & o & _ & _ & _ & _ & _ & _ & Hrs)];
      rewrite Hrs in Hrun; injection Hrun as <- <-.
    + left. now exists m.
    + right. split; [reflexivity|]. split; [discriminate|]. split; [reflexivity|].
      now eexists.
  - destruct (login_start_cases amb body w) as [(code & m & Hls & Href)|(o & Hls)];
      rewrite Hls in Hrun; injection Hrun as <- <-.
    + left. now exists m.
    + right. split; [reflexivity|]. split; [discriminate|]. split; [reflexivity|].
      now eexists.
Qed.

(** A verify route refuses, with a message and the session as it was, or
    answers a user. *)
Lemma verify_answer c w r w1 :
  is_verify c = true ->
  run c w = (JS.Normal r, w1) ->
  (exists m, Response.body r = Response.error m /\ refusal (Response.status r) m
             /\ session w1 = session w)
  \/ (Response.status r = 200 /\ exists u, Response.body r = Response.verified u).
Proof.
  intros Hc Hrun. destruct c; try discriminate Hc; unfold run in Hrun.
  - destruct (register_verify_cases body w)
      as [(code & m & d' & Hrv & Href & _)
         |(ch & ud & info & cred & _ & _ & _ & _ & _ & _ & _ & Hrv)];
      rewrite Hrv in Hrun; injection Hrun as <- <-.
    + left. now exists m.
    + right. split; [reflexivity|]. now eexists.
  - destruct (login_verify_cases body w)
      as [(code & m & Hlv & Href)
         |(ch & cred & rec & rest & v & _ & _ & _ & _ & _ & _ & Hlv)];
      rewrite Hlv in Hrun; injection Hrun as <- <-.
    + left. now exists m.
    + right. split; [reflexivity|]. now eexists.
Qed.

Lemma refusal_not_ok r m :
  refusal (Response.status r) m -> ok (received (JS.Normal r)) = false.
Proof.
  intros [Hcode _]. cbn [received ok]. apply andb_false_iff. right.
  apply Z.leb_gt. lia.
Qed.

Lemma refusal_shown m fb fb' :
  m <> "" -> message_or (Error (error_or (Response.error m) fb)) fb' = m.
Proof.
  intro Hm. apply String.eqb_neq in Hm.
  unfold message_or, error_or, Error. cbn [message]. now rewrite !Hm.
Qed.

Lemma check_ok_accepted r fb st :
  Response.status r = 200 -> check_ok (received (JS.Normal r)) fb st = (Normal tt, st).
Proof. intro H200. unfold check_ok. cbn [received ok]. now rewrite H200. Qed.

Lemma authenticator_resolved call text cred st :
  call = Normal cred -> authenticator call text st = (Normal cred, st).
Proof. now intros ->. Qed.

Lemma authenticator_cancelled call text e st :
  call = Throw e -> name e = "NotAllowedError" ->
  authenticator call text st = (Throw (Error text), st).
Proof. intros -> Hname. unfold authenticator. task. now rewrite Hname. Qed.

(** The [try] block of a flow whose start request is refused. *)
Lemma ceremony_body_refused_at_start f st r m :
  network (fetched (client st)) = Delivered ->
  run (start_of f (ambient (fetched (client st)))) (server st) = (JS.Normal r, server st) ->
  Response.body r = Response.error m ->
  refusal (Response.status r) m ->
  ceremony_body f st
  = (Throw (Error (error_or (Response.error m) (fallback f))),
     {| client := count_fetch (announce (starting f) "info" (client st));
        server := server st |}).
Proof.
  intros Hnet Hrun Hbody Href. unfold ceremony_body.
  rewrite (bind_normal _ _ _ _ _ (showAuthMessage_eq _ _ _)).
  rewrite (bind_normal _ _ _ _ _
             (fetch_delivered (start_of f)
                (with_client (announce (starting f) "info" (client st)) st)
                r (server st) Hnet Hrun)).
  cbn [client with_client].
  unfold check_ok. rewrite (refusal_not_ok r m Href). cbn [negb received json].
  rewrite Hbody. reflexivity.
Qed.

(** The [try] block of a flow up to the call of the authenticator, when
    the start request is answered options. *)
Lemma ceremony_body_started f st r1 w1 :
  network (fetched (client st)) = Delivered ->
  run (start_of f (ambient (fetched (client st)))) (server st) = (JS.Normal r1, w1) ->
  Response.status r1 = 200 ->
  ceremony_body f st
  = (credential <- authenticator (authenticator_of f (Response.body r1)) (cancelled f) ;;
     showAuthMessage (verifying f) "info" ;;
     verifyResponse <- fetch (fun _ => verify_of f credential) ;;
     check_ok verifyResponse "Verification failed" ;;
     result <- await (json verifyResponse) ;;
     welcome result (greeting f))%task
      {| client := announce (prompt f) "info"
                     (count_fetch (announce (starting f) "info" (client st)));
         server := w1 |}.
Proof.
  intros Hnet Hrun H200. unfold ceremony_body.
  rewrite (bind_normal _ _ _ _ _ (showAuthMessage_eq _ _ _)).
  rewrite (bind_normal _ _ _ _ _
             (fetch_delivered (start_of f)
                (with_client (announce (starting f) "info" (client st)) st)
                r1 w1 Hnet Hrun)).
  cbn [client with_client].
  rewrite (bind_normal _ _ _ _ _ (check_ok_accepted r1 _ _ H200)).
  rewrite (bind_normal _ _ _ (Response.body r1) _ eq_refl).
  rewrite (bind_normal _ _ _ _ _ (showAuthMessage_eq _ _ _)).
  reflexivity.
Qed.

(** A refusal of the service is what the user reads: when the start
    request, or, after the authenticator has answered, the verify request
    is answered an error, the flow ends with the message of that answer in
    the message element, class [error]; [currentUser] is untouched; after
    a refused start no second request is sent, and the service is as it
    was; after a refused verify the session is as the start left it. *)
Theorem refusals_are_shown (f : flow) (st : state) :
  network (fetched (client st)) = Delivered ->
  (forall r w1 m,
     run (start_of f (ambient (fetched (client st)))) (server st) = (JS.Normal r, w1) ->
     Response.body r = Response.error m ->
     perform f st
     = (Normal tt,
        {| client := announce m "error"
                       (count_fetch (announce (starting f) "info" (client st)));
           server := server st |}))
  /\ (forall r1 w1 cred r2 w2 m,
        run (start_of f (ambient (fetched (client st)))) (server st) = (JS.Normal r1, w1) ->
        Response.status r1 = 200 ->
        authenticator_of f (Response.body r1) = Normal cred ->
        network (S (fetched (client st))) = Delivered ->
        run (verify_of f cred) w1 = (JS.Normal r2, w2) ->
        Response.body r2 = Response.error m ->
        perform f st
        = (Normal tt,
           {| client :=
                announce m "error"
                  (count_fetch
                     (announce (verifying f) "info"
                        (announce (prompt f) "info"
                           (count_fetch (announce (starting f) "info" (client st))))));
              server := w2 |})
        /\ session w2 = session w1).
Proof.
  intro Hnet. split.
  - intros r w1 m Hrun Hbody.
    destruct (start_answer _ _ _ _ (start_of_is_start f _) Hrun)
      as [(m' & Hbody' & Href & ->)|(_ & Hnot & _)]; [|now destruct (Hnot m)].
    rewrite Hbody in Hbody'. injection Hbody' as <-.
    rewrite perform_ceremony. unfold ceremony, try_catch.
    rewrite (ceremony_body_refused_at_start f st r m Hnet Hrun Hbody Href).
    rewrite showAuthMessage_eq, (refusal_shown m _ _ (proj2 Href)). reflexivity.
  - intros r1 w1 cred r2 w2 m Hrun1 H200 Hauth Hnet2 Hrun2 Hbody.
    destruct (verify_answer _ _ _ _ (verify_of_is_verify f cred) Hrun2)
      as [(m' & Hbody' & Href & Hsession)|(_ & u & Hu)]; [|congruence].
    rewrite Hbody in Hbody'. injection Hbody' as <-.
    split; [|exact Hsession].
    rewrite perform_ceremony. unfold ceremony, try_catch.
    rewrite (ceremony_body_started f st r1 w1 Hnet Hrun1 H200).
    rewrite (bind_normal _ _ _ _ _ (authenticator_resolved _ _ cred _ Hauth)).
    rewrite (bind_normal _ _ _ _ _ (showAuthMessage_eq _ _ _)).
    rewrite (bind_normal _ _ _ _ _
               (fetch_delivered (fun _ => verify_of f cred)
                  {| client := announce (verifying f) "info"
                                 (announce (prompt f) "info"
                                    (count_fetch (announce (starting f) "info" (client st))));
                     server := w1 |}
                  r2 w2 Hnet2 Hrun2)).
    cbn [client with_client].
    unfold check_ok at 1. rewrite (refusal_not_ok r2 m Href). cbn [negb received json].
    rewrite Hbody. unfold bind at 1. unfold bind at 1. unfold await, throw.
    rewrite showAuthMessage_eq, (refusal_shown m _ _ (proj2 Href)). reflexivity.
Qed.

(** When the user cancels at the authenticator, or lets it time out
    (NotAllowedError), after a start request the service accepted: the
    flow says so, class [error], sends no verify request and leaves
    [currentUser] alone; the challenge of the abandoned ceremony stays
    outstanding in the session. *)
Theorem cancelled_ceremony_keeps_challenge
    (f : flow) (st : state) (r1 : Response.t) (w1 : world) (e : exception) :
  network (fetched (client st)) = Delivered ->
  run (start_of f (ambient (fetched (client st)))) (server st) = (JS.Normal r1, w1) ->
  Response.status r1 = 200 ->
  authenticator_of f (Response.body r1) = Throw e ->
  name e = "NotAllowedError" ->
  perform f st
  = (Normal tt,
     {| client := announce (cancelled f) "error"
                    (announce (prompt f) "info"
                       (count_fetch (announce (starting f) "info" (client st))));
        server := w1 |})
  /\ exists ch, options_challenge r1 = Some ch
                /\ Session.currentChallenge (session w1) = Some ch.
Proof.
  intros Hnet Hrun H200 Hauth Hname. split.
  - rewrite perform_ceremony. unfold ceremony, try_catch.
    rewrite (ceremony_body_started f st r1 w1 Hnet Hrun H200).
    rewrite (bind_throw _ _ _ _ _ (authenticator_cancelled _ _ e _ Hauth Hname)).
    rewrite showAuthMessage_eq. destruct f; reflexivity.
  - destruct (start_answer _ _ _ _ (start_of_is_start f _) Hrun)
      as [(m & _ & [Hcode _] & _)|(_ & _ & _ & Hch)]; [lia|exact Hch].
Qed.

End Shown.

(** ** The session, seen from the page *)

Section PageSession.
Context {lib : WebAuthn.Server} {env : Browser.Environment}.
Import Browser App.
Local Open Scope Z_scope.

(** [checkSession] shows what the service says: when the request is
    answered, the application is shown, with [currentUser] the id and the
    name of the session, exactly when the session is bound to a user
    (with an id that is not 0); in every other case, a failed request
    included, the authentication dialog is shown and [currentUser] is
    left as it was. The service is not changed. *)
Theorem checkSession_reflects_session (st : state) :
  exists st',
    checkSession st = (Normal tt, st')
    /\ server st' = server st
    /\ match network (fetched (client st)), Session.userId (session (server st)) with
       | Delivered, Some uid =>
           if uid =? 0 then
             modal_shown (client st') /\ currentUser (client st') = currentUser (client st)
           else
             currentUser (client st')
             = Some {| id := uid;
                       username := Session.username (session (server st));
                       email := None |}
             /\ application_shown (client st') (Session.username (session (server st)))
       | _, _ =>
           modal_shown (client st') /\ currentUser (client st') = currentUser (client st)
       end.
Proof.
  unfold checkSession, try_catch, fetch, bind at 1.
  destruct (network (fetched (client st))) as [|e|e].
  - unfold run, get_session. async. cbn [with_server with_client server client].
    destruct (Session.userId (session (server st))) as [uid|] eqn:Hid.
    + unfold JS.truthy_number. destruct (uid =? 0) eqn:Hzero; cbn [negb].
      * eexists. split; [reflexivity|]. split; [reflexivity|]. now split.
      * eexists. split; [reflexivity|]. split; [reflexivity|]. now split.
    + eexists. split; [reflexivity|]. split; [reflexivity|]. now split.
  - eexists. split; [reflexivity|]. split; [reflexivity|]. now split.
  - eexists. split; [reflexivity|]. split; [|now split].
    unfold run, get_session. async. cbn.
    destruct (Session.userId (session (server st))) as [uid|]; [|reflexivity].
    destruct (JS.truthy_number (Some uid)); reflexivity.
Qed.

(** [logout] of the page: when the request is answered, the service has
    destroyed the session, [currentUser] is null and the authentication
    dialog is shown without user name and logout button. When the request
    fails the page is left as it was, user name and all, whether the
    service has destroyed the session (its answer was lost) or not. *)
Theorem page_logout (st : state) :
  exists st',
    logout st = (Normal tt, st')
    /\ fetched (client st') = S (fetched (client st))
    /\ db (server st') = db (server st)
    /\ match network (fetched (client st)) with
       | Delivered =>
           session (server st') = Session.empty
           /\ currentUser (client st') = None
           /\ modal_shown (client st')
           /\ textContent (user_info (elements (client st'))) = ""
           /\ display (logout_btn (elements (client st'))) = "none"
       | Dropped _ =>
           server st' = server st
           /\ client st' = count_fetch (client st)
       | Unanswered _ =>
           session (server st') = Session.empty
           /\ client st' = count_fetch (client st)
       end.
Proof.
  unfold logout, try_catch, fetch, bind at 1.
  destruct (network (fetched (client st))) as [|e|e].
  - eexists. split; [reflexivity|]. now repeat split.
  - eexists. split; [reflexivity|]. now repeat split.
  - eexists. split; [reflexivity|]. now repeat split.
Qed.

(** A user who has signed in stays signed in across a reload of the page:
    when a flow has ended with the user the service answered, a page
    loaded afresh with the same cookie, whose [checkSession] request is
    answered, shows the application with the id and the name of that user
    (the email is not part of what [/session] answers). *)
Theorem reload_keeps_user_signed_in
    (f : flow) (st st' : state) (u : Response.user) (d : document) :
  perform f st = (Normal tt, st') ->
  currentUser (client st') = Some (signed_in u) ->
  currentUser (client st) <> Some (signed_in u) ->
  Response.id u <> 0 ->
  network 0 = Delivered ->
  exists st'',
    checkSession {| client := loaded d; server := server st' |} = (Normal tt, st'')
    /\ currentUser (client st'')
       = Some {| id := Response.id u; username := Some (Response.username u); email := None |}
    /\ application_shown (client st'') (Some (Response.username u))
    /\ server st'' = server st'.
Proof.
  intros Hflow Huser Hbefore Hid Hnet.
  destruct (flow_outcome f st st' Hflow) as [Hsame|(u' & Hu' & _ & Huid & Hname & _)];
    [congruence|].
  rewrite Huser in Hu'. injection Hu' as Hi Hn He.
  unfold checkSession, try_catch, fetch, bind at 1.
  cbn [client server loaded fetched]. rewrite Hnet.
  unfold run, get_session. async. cbn [with_server with_client server client].
  rewrite Huid, Hname, <- Hi, <- Hn. unfold JS.truthy_number.
  apply Z.eqb_neq in Hid. rewrite Hid. cbn [negb].
  eexists. split; [reflexivity|]. split; [reflexivity|]. split; [|reflexivity].
  now repeat split.
Qed.

End PageSession.

(** ** Concrete runs *)

(** Alice starts a registration, which draws the challenge "c1"; before
    she verifies it, a login is started on her session, which draws "c2".
    The session then holds "c2", and her answer to "c1" is refused. *)
Lemma second_start_witness :
  exists r1 w1 r2 w2,
    @run Scenario.server
      (RegisterStart (Scenario.drawing "c1")
         (Scenario.named (Some "alice") (Some "alice@example.com")))
      {| db := Scenario.migrated; session := Session.empty |} = (JS.Normal r1, w1)
    /\ options_challenge r1 = Some "c1"
    /\ Session.currentChallenge (session w1) = Some "c1"
    /\ @run Scenario.server
         (LoginStart (Scenario.drawing "c2") (Scenario.named None None)) w1
       = (JS.Normal r2, w2)
    /\ options_challenge r2 = Some "c2"
    /\ Session.currentChallenge (session w2) = Some "c2"
    /\ ("c1" <> "c2" ->
        signed_challenge
          (RegisterVerify (Scenario.post (Scenario.attestation "c1" origin 0))) = Some "c1" ->
        exists r w3,
          @run Scenario.server
            (RegisterVerify (Scenario.post (Scenario.attestation "c1" origin 0))) w2
          = (JS.Normal r, w3)
          /\ Response.status r <> 200%Z
          /\ Session.currentChallenge (session w3) = Some "c2").
Proof.
  apply (@second_start_overwrites_challenge Scenario.server
           (RegisterStart (Scenario.drawing "c1")
              (Scenario.named (Some "alice") (Some "alice@example.com")))
           (LoginStart (Scenario.drawing "c2") (Scenario.named None None))
           (RegisterVerify (Scenario.post (Scenario.attestation "c1" origin 0)))
           {| db := Scenario.migrated; session := Session.empty |}
           "c1" "c2" (stub_checks_challenge true) eq_refl).
  - exists "alice", "alice@example.com". eexists.
    split; [reflexivity|]. split; [reflexivity|]. split; [reflexivity|].
    split; [reflexivity|]. split; [|split; reflexivity].
    intros u Hu. cbn in Hu.
    destruct Hu as [<-|[<-|[<-|[]]]]; split; discriminate.
  - eexists. split; [|split; reflexivity]. intros un Hun. discriminate Hun.
Defined.

(** In that run the two start requests are answered with the options of
    the library, the registration is refused with the generic server error
    (the stand-in throws on a challenge mismatch), and the pending
    registration, still in the session, could be completed by an answer to
    "c2". The same with two [/login/start] requests. *)
Lemma second_start_run :
  @run Scenario.server
    (RegisterStart (Scenario.drawing "c1")
       (Scenario.named (Some "alice") (Some "alice@example.com")))
    {| db := Scenario.migrated; session := Session.empty |}
  = (JS.Normal (Visit.creation "c1"), Scenario.at_registration "c1")
  /\ @run Scenario.server
       (LoginStart (Scenario.drawing "c2") (Scenario.named None None))
       (Scenario.at_registration "c1")
     = (JS.Normal (Response.json_ (Response.request_options
                     {| WebAuthn.ro_challenge := "c2";
                        WebAuthn.ro_args := authentication_options_for None |})),
        Scenario.at_registration "c2")
  /\ @run Scenario.server
       (RegisterVerify (Scenario.post (Scenario.attestation "c1" origin 0)))
       (Scenario.at_registration "c2")
     = (JS.Normal registration_failed, Scenario.at_registration "c2")
  /\ @run Scenario.server
       (LoginStart (Scenario.drawing "c1") (Scenario.named (Some "alice") None))
       {| db := Scenario.registered 0; session := Session.empty |}
     = (JS.Normal (Visit.offered "c1"), Scenario.at_login 0 "c1")
  /\ @run Scenario.server
       (LoginStart (Scenario.drawing "c2") (Scenario.named (Some "alice") None))
       (Scenario.at_login 0 "c1")
     = (JS.Normal (Visit.offered "c2"), Scenario.at_login 0 "c2").
Proof. repeat split. Qed.

Lemma registration_conflict_witness :
  exists d',
    @register_verify Scenario.server
      (Scenario.post (Scenario.attestation "c3" origin 0)) (Visit.bob_registering "c3")
    = (JS.Normal registration_failed,
       {| db := d'; session := session (Visit.bob_registering "c3") |})
    /\ Pg.committed d' = Pg.committed (Scenario.registered 0)
    /\ Pg.transaction d' = None
    /\ Pg.users_id_seq d' = 5%Z.
Proof.
  apply (@registration_conflict_rolls_back Scenario.server
           (Scenario.post (Scenario.attestation "c3" origin 0)) (Visit.bob_registering "c3")
           "c3" Visit.bob Visit.reported); try reflexivity.
  right. exists (Scenario.passkey 0). split; [now left|reflexivity].
Defined.

(** The same registration with a pending username of 256 characters: the
    INSERT refuses the value, and no id is drawn. *)
Example refused_username_spends_no_id :
  fits {| Session.ru_userId := "user_1700000000001_zzzzzzzzz";
          Session.ru_username := Node.repeat_string "b" 256;
          Session.ru_email := "bob@example.com" |} = false
  /\ @register_verify Scenario.server
       (Scenario.post (Scenario.attestation "c3" origin 0))
       {| db := Scenario.registered 0;
          session :=
            set_registrationUser
              (Some {| Session.ru_userId := "user_1700000000001_zzzzzzzzz";
                       Session.ru_username := Node.repeat_string "b" 256;
                       Session.ru_email := "bob@example.com" |})
              (Scenario.logging_in "c3") |}
     = (JS.Normal registration_failed,
        {| db := Scenario.registered 0;
           session :=
             set_registrationUser
               (Some {| Session.ru_userId := "user_1700000000001_zzzzzzzzz";
                        Session.ru_username := Node.repeat_string "b" 256;
                        Session.ru_email := "bob@example.com" |})
               (Scenario.logging_in "c3") |}).
Proof. split; vm_compute; reflexivity. Qed.

Lemma registration_creates_started_user_witness :
  exists un em u,
    Request.username (Scenario.named (Some "alice") (Some "alice@example.com")) = Some un
    /\ Request.email (Scenario.named (Some "alice") (Some "alice@example.com")) = Some em
    /\ Response.json_ (Response.verified (public_fields Scenario.alice))
       = Response.json_ (Response.verified (public_fields u))
    /\ Pg.username u = Pg.stored un /\ Pg.email u = Pg.stored em
    /\ Pg.id u = (Pg.users_id_seq Scenario.migrated + 1)%Z
    /\ In u (Pg.users (Pg.committed (Scenario.registered 0)))
    /\ Session.userId Visit.signed = Some (Pg.id u)
    /\ Session.username Visit.signed = Some (Pg.stored un)
    /\ ((Pg.char_length un <= 255)%nat -> (Pg.char_length em <= 255)%nat ->
        Pg.username u = un /\ Pg.email u = em /\ Session.username Visit.signed = Some un).
Proof.
  apply (@registration_creates_started_user Scenario.server (Scenario.drawing "c1")
           (Scenario.named (Some "alice") (Some "alice@example.com"))
           (Scenario.post (Scenario.attestation "c1" origin 0))
           {| db := Scenario.migrated; session := Session.empty |}
           (Scenario.at_registration "c1")
           {| db := Scenario.registered 0; session := Visit.signed |}
           Scenario.migrated (Visit.creation "c1")
           (Response.json_ (Response.verified (public_fields Scenario.alice))));
    reflexivity.
Defined.

Lemma register_start_conflict_witness :
  (fst (@register_start Scenario.server (Scenario.drawing "c1")
          (Scenario.named (Some "nikhil") (Some "nikhil@example.com"))
          {| db := Scenario.migrated; session := Session.empty |})
   = JS.Normal conflict
   <-> exists u, In u (Pg.users (Pg.committed Scenario.migrated))
                 /\ (Pg.username u = "nikhil" \/ Pg.email u = "nikhil@example.com"))
  /\ Taxonomy.of_response conflict = Some Taxonomy.ConflictError
  /\ ((forall u, In u (Pg.users (Pg.committed Scenario.migrated)) ->
                 Pg.username u <> "nikhil" /\ Pg.email u <> "nikhil@example.com") ->
      @register_start Scenario.server (Scenario.drawing "c1")
        (Scenario.named (Some "nikhil") (Some "nikhil@example.com"))
        {| db := Scenario.migrated; session := Session.empty |}
      = (JS.Normal (Response.json_ (Response.creation_options
           {| WebAuthn.co_challenge := "c1";
              WebAuthn.co_args := registration_options_for (Scenario.drawing "c1") "nikhil" |})),
         {| db := Scenario.migrated;
            session :=
              {| Session.currentChallenge := Some "c1";
                 Session.registrationUser :=
                   Some (pending_user (Scenario.drawing "c1") "nikhil" "nikhil@example.com");
                 Session.userId := None;
                 Session.username := None |} |})).
Proof.
  apply (@register_start_conflict_iff Scenario.server (Scenario.drawing "c1")
           (Scenario.named (Some "nikhil") (Some "nikhil@example.com"))
           {| db := Scenario.migrated; session := Session.empty |}
           "nikhil" "nikhil@example.com"); reflexivity.
Defined.

Lemma verified_user_witness :
  Session.userId Visit.signed = Some 4%Z
  /\ Session.username Visit.signed = Some "alice"
  /\ Session.currentChallenge Visit.signed = None
  /\ get_session {| db := Scenario.registered 1; session := Visit.signed |}
     = (JS.Normal (Response.json_ (Response.authenticated 4 (Some "alice"))),
        {| db := Scenario.registered 1; session := Visit.signed |}).
Proof.
  apply (@verified_user_is_session_user Scenario.server
           (LoginVerify (Scenario.post (Scenario.assertion "c2" origin 1 Scenario.key)))
           (Scenario.at_login 0 "c2")
           {| db := Scenario.registered 1; session := Visit.signed |}
           (Response.json_ (Response.verified (public_fields Scenario.alice)))
           (public_fields Scenario.alice)); reflexivity.
Defined.

Lemma logout_abandons_ceremony_witness :
  @run Scenario.server
    (LoginVerify (Scenario.post (Scenario.assertion "c2" origin 1 Scenario.key)))
    (snd (logout (Scenario.at_login 0 "c2")))
  = (JS.Normal (no_ceremony
       (LoginVerify (Scenario.post (Scenario.assertion "c2" origin 1 Scenario.key)))),
     snd (logout (Scenario.at_login 0 "c2")))
  /\ Taxonomy.of_response
       (no_ceremony
          (LoginVerify (Scenario.post (Scenario.assertion "c2" origin 1 Scenario.key))))
     = Some Taxonomy.StateError
  /\ fst (get_session (snd (logout (Scenario.at_login 0 "c2"))))
     = JS.Normal (Response.json_ Response.not_authenticated)
  /\ session (snd (logout (Scenario.at_login 0 "c2"))) = Session.empty.
Proof.
  apply (@logout_abandons_ceremony Scenario.server
           (LoginVerify (Scenario.post (Scenario.assertion "c2" origin 1 Scenario.key)))
           (Scenario.at_login 0 "c2")).
  reflexivity.
Defined.

Lemma start_keeps_authentication_witness :
  db (snd (@run Scenario.server (LoginStart (Scenario.drawing "c9") (Scenario.named None None))
             {| db := Scenario.registered 1; session := Visit.signed |}))
  = Scenario.registered 1
  /\ Session.userId
       (session (snd (@run Scenario.server
                        (LoginStart (Scenario.drawing "c9") (Scenario.named None None))
                        {| db := Scenario.registered 1; session := Visit.signed |})))
     = Some 4%Z
  /\ Session.username
       (session (snd (@run Scenario.server
                        (LoginStart (Scenario.drawing "c9") (Scenario.named None None))
                        {| db := Scenario.registered 1; session := Visit.signed |})))
     = Some "alice"
  /\ fst (get_session
            (snd (@run Scenario.server
                    (LoginStart (Scenario.drawing "c9") (Scenario.named None None))
                    {| db := Scenario.registered 1; session := Visit.signed |})))
     = JS.Normal (Response.json_ (Response.authenticated 4 (Some "alice"))).
Proof.
  apply (@start_keeps_authentication Scenario.server
           (LoginStart (Scenario.drawing "c9") (Scenario.named None None))
           {| db := Scenario.registered 1; session := Visit.signed |}).
  reflexivity.
Defined.

Lemma pending_registration_witness :
  Session.registrationUser
    (session (snd (@run Scenario.server
                     (LoginStart (Scenario.drawing "c2") (Scenario.named None None))
                     (Scenario.at_registration "c1"))))
  = Session.registrationUser (session (Scenario.at_registration "c1"))
  /\ (forall r body userData,
        fst (@run Scenario.server
               (LoginStart (Scenario.drawing "c2") (Scenario.named None None))
               (Scenario.at_registration "c1")) = JS.Normal r ->
        (exists ch, options_challenge r = Some ch /\ JS.truthy (Some ch) = true) ->
        Session.registrationUser (session (Scenario.at_registration "c1")) = Some userData ->
        exists r',
          fst (@register_verify Scenario.server body
                 (snd (@run Scenario.server
                         (LoginStart (Scenario.drawing "c2") (Scenario.named None None))
                         (Scenario.at_registration "c1")))) = JS.Normal r'
          /\ Taxonomy.of_response r' <> Some Taxonomy.StateError).
Proof.
  apply (@pending_registration_survives_login Scenario.server
           (LoginStart (Scenario.drawing "c2") (Scenario.named None None))
           (Scenario.at_registration "c1")).
  reflexivity.
Defined.

Lemma login_start_without_username_witness :
  @login_start Scenario.server (Scenario.drawing "c2") (Scenario.named (Some "") None)
    {| db := Scenario.migrated; session := Session.empty |}
  = (JS.Normal (Response.json_ (Response.request_options
       {| WebAuthn.ro_challenge := "c2";
          WebAuthn.ro_args := authentication_options_for None |})),
     {| db := Scenario.migrated; session := Scenario.logging_in "c2" |})
  /\ forall d,
       @login_start Scenario.server (Scenario.drawing "c2") (Scenario.named (Some "") None)
         {| db := d; session := Session.empty |}
       = (fst (@login_start Scenario.server (Scenario.drawing "c2")
                 (Scenario.named (Some "") None)
                 {| db := Scenario.migrated; session := Session.empty |}),
          {| db := d;
             session :=
               session (snd (@login_start Scenario.server (Scenario.drawing "c2")
                               (Scenario.named (Some "") None)
                               {| db := Scenario.migrated; session := Session.empty |})) |}).
Proof.
  apply (@login_start_without_username Scenario.server (Scenario.drawing "c2")
           (Scenario.named (Some "") None)
           {| db := Scenario.migrated; session := Session.empty |}).
  reflexivity.
Defined.

(** Alice, just registered, logs in from the page. *)
Lemma registered_passkey_is_not_found_witness :
  @login_verify Scenario.server
    (Scenario.post (Scenario.page_assertion "c2" origin 1 Scenario.key))
    (Scenario.at_login 0 "c2")
  = (JS.Normal (Response.status_json 404 (Response.error "Credential not found")),
     Scenario.at_login 0 "c2")
  /\ Taxonomy.of_response
       (Response.status_json 404 (Response.error "Credential not found"))
     = Some Taxonomy.NotFoundError.
Proof.
  destruct (@registered_passkey_is_not_found Scenario.server
              (Scenario.post (Scenario.attestation "c1" origin 0))
              (Scenario.at_registration "c1")
              {| db := Scenario.registered 0; session := Visit.signed |}
              (Response.json_ (Response.verified (public_fields Scenario.alice)))
              eq_refl eq_refl)
    as (ch0 & cred & info & c & Hch & Hcred & Hlib & _ & _ & Hlogin).
  injection Hch as <-. injection Hcred as <-.
  cbn in Hlib. injection Hlib as <-.
  apply (Hlogin (Scenario.post (Scenario.page_assertion "c2" origin 1 Scenario.key))
           (Scenario.page_assertion "c2" origin 1 Scenario.key)
           (Scenario.logging_in "c2"));
    try reflexivity; [discriminate|intros c0 []].
Defined.

Lemma registered_user_is_offered_passkey_witness :
  exists ch0 cred info u,
    Session.currentChallenge (session (Scenario.at_registration "c1")) = Some ch0
    /\ Request.credential (Scenario.post (Scenario.attestation "c1" origin 0)) = Some cred
    /\ @WebAuthn.verifyRegistrationResponse Scenario.server (registration_args (Some cred) ch0)
       = JS.Normal {| WebAuthn.reg_verified := true;
                      WebAuthn.registrationInfo := Some info |}
    /\ Response.json_ (Response.verified (public_fields Scenario.alice))
       = Response.json_ (Response.verified u)
    /\ forall (amb : Request.ambient) (body2 : Request.body) (s : Session.t),
         Request.username body2 = Some (Response.username u) ->
         JS.truthy (Some (Response.username u)) = true ->
         @login_start Scenario.server amb body2 {| db := Scenario.registered 0; session := s |} =
         match @WebAuthn.generateAuthenticationOptions Scenario.server (Request.entropy amb)
                 (authentication_options_for
                    (Some [ {| WebAuthn.ac_id := WebAuthn.credentialID info;
                               WebAuthn.ac_type := "public-key";
                               WebAuthn.ac_transports :=
                                 JS.or_array (WebAuthn.transports cred) [] |} ])) with
         | JS.Normal o =>
             (JS.Normal (Response.json_ (Response.request_options o)),
              {| db := Scenario.registered 0;
                 session := set_currentChallenge (Some (WebAuthn.ro_challenge o)) s |})
         | JS.Throw _ =>
             (JS.Normal start_failed, {| db := Scenario.registered 0; session := s |})
         end.
Proof.
  apply (@registered_user_is_offered_passkey Scenario.server
           (Scenario.post (Scenario.attestation "c1" origin 0))
           (Scenario.at_registration "c1")
           {| db := Scenario.registered 0; session := Visit.signed |}
           (Response.json_ (Response.verified (public_fields Scenario.alice))));
    try reflexivity.
  intros c [].
Defined.

(** The tables of the migrations, and the tables with alice's passkey,
    satisfy the constraints. *)
Lemma migrated_constraints_hold : constraints_hold (Pg.committed Scenario.migrated).
Proof.
  unfold constraints_hold. cbn.
  repeat split; try (repeat (constructor; [cbn; intuition discriminate|]); constructor).
  intros c [].
Qed.

Lemma registered_constraints_hold ctr :
  constraints_hold (Pg.committed (Scenario.registered ctr)).
Proof.
  unfold constraints_hold. cbn.
  repeat split; try (repeat (constructor; [cbn; intuition discriminate|]); constructor).
  intros c [<-|[]]. exists Scenario.alice. split; [|reflexivity].
  cbn. intuition.
Qed.

Lemma routes_keep_constraints_witness :
  constraints_hold
    (Pg.committed
       (db (@serve Scenario.server
              [ (RegisterVerify (Scenario.post (Scenario.attestation "c1" origin 0)),
                 Scenario.registering "c1");
                (LoginVerify (Scenario.post (Scenario.assertion "c2" origin 1 Scenario.key)),
                 Scenario.logging_in "c2") ]
              {| db := Scenario.migrated; session := Session.empty |})))
  /\ Pg.transaction
       (db (@serve Scenario.server
              [ (RegisterVerify (Scenario.post (Scenario.attestation "c1" origin 0)),
                 Scenario.registering "c1");
                (LoginVerify (Scenario.post (Scenario.assertion "c2" origin 1 Scenario.key)),
                 Scenario.logging_in "c2") ]
              {| db := Scenario.migrated; session := Session.empty |}))
     = None.
Proof.
  apply (@routes_keep_constraints Scenario.server).
  - exact migrated_constraints_hold.
  - reflexivity.
Defined.

Lemma login_verify_updates_one_row_witness :
  exists cred c u n (before after : list Pg.credentials_row),
    Request.credential (Scenario.post (Scenario.assertion "c2" origin 1 Scenario.key))
    = Some cred
    /\ Pg.credential_id c = bufferToBase64url (Node.from_string (WebAuthn.rawId cred))
    /\ In u (Pg.users (Pg.committed (Scenario.registered 0)))
    /\ Pg.user_id c = Pg.id u
    /\ Pg.select_credential (bufferToBase64url (Node.from_string (WebAuthn.rawId cred)))
         (Pg.committed (Scenario.registered 0))
       = [record_of c u]
    /\ Response.json_ (Response.verified (public_fields Scenario.alice))
       = Response.json_ (Response.verified (public_fields u))
    /\ Pg.credentials (Pg.committed (Scenario.registered 0)) = (before ++ c :: after)%list
    /\ Pg.credentials (Pg.committed (Scenario.registered 1))
       = (before ++ Pg.set_counter n c :: after)%list
    /\ Pg.users (Pg.committed (Scenario.registered 1))
       = Pg.users (Pg.committed (Scenario.registered 0)).
Proof.
  apply (@login_verify_updates_one_row Scenario.server
           (Scenario.post (Scenario.assertion "c2" origin 1 Scenario.key))
           (Scenario.at_login 0 "c2")
           {| db := Scenario.registered 1; session := Visit.signed |}
           (Response.json_ (Response.verified (public_fields Scenario.alice))));
    try reflexivity.
  exact (registered_constraints_hold 0).
Defined.

(** James, who has no passkey, tries to log in: he reads "User not
    found". *)
Lemma refusals_are_shown_witness :
  (forall r w1 m,
     @run Scenario.server
       (start_of (LoggingIn "james")
          (@Browser.ambient Visit.online
             (App.fetched (App.client
                (Visit.visiting {| db := Scenario.migrated; session := Session.empty |})))))
       (App.server (Visit.visiting {| db := Scenario.migrated; session := Session.empty |}))
     = (JS.Normal r, w1) ->
     Response.body r = Response.error m ->
     @perform Scenario.server Visit.online (LoggingIn "james")
       (Visit.visiting {| db := Scenario.migrated; session := Session.empty |})
     = (Browser.Normal tt,
        {| App.client :=
             announce m "error"
               (App.count_fetch
                  (announce (starting (LoggingIn "james")) "info"
                     (App.client
                        (Visit.visiting
                           {| db := Scenario.migrated; session := Session.empty |}))));
           App.server :=
             App.server
               (Visit.visiting {| db := Scenario.migrated; session := Session.empty |}) |}))
  /\ (forall r1 w1 cred r2 w2 m,
        @run Scenario.server
          (start_of (LoggingIn "james")
             (@Browser.ambient Visit.online
                (App.fetched (App.client
                   (Visit.visiting
                      {| db := Scenario.migrated; session := Session.empty |})))))
          (App.server (Visit.visiting {| db := Scenario.migrated; session := Session.empty |}))
        = (JS.Normal r1, w1) ->
        Response.status r1 = 200%Z ->
        @authenticator_of Visit.online (LoggingIn "james") (Response.body r1)
        = Browser.Normal cred ->
        @Browser.network Visit.online
          (S (App.fetched (App.client
                (Visit.visiting {| db := Scenario.migrated; session := Session.empty |}))))
        = Browser.Delivered ->
        @run Scenario.server (verify_of (LoggingIn "james") cred) w1 = (JS.Normal r2, w2) ->
        Response.body r2 = Response.error m ->
        @perform Scenario.server Visit.online (LoggingIn "james")
          (Visit.visiting {| db := Scenario.migrated; session := Session.empty |})
        = (Browser.Normal tt,
           {| App.client :=
                announce m "error"
                  (App.count_fetch
                     (announce (verifying (LoggingIn "james")) "info"
                        (announce (prompt (LoggingIn "james")) "info"
                           (App.count_fetch
                              (announce (starting (LoggingIn "james")) "info"
                                 (App.client
                                    (Visit.visiting
                                       {| db := Scenario.migrated;
                                          session := Session.empty |})))))));
              App.server := w2 |})
        /\ session w2 = session w1).
Proof.
  apply (@refusals_are_shown Scenario.server Visit.online (LoggingIn "james")
           (Visit.visiting {| db := Scenario.migrated; session := Session.empty |})).
  reflexivity.
Defined.

(** Alice starts a login and dismisses the prompt. *)
Lemma cancelled_ceremony_witness :
  @perform Scenario.server Visit.dismissing (LoggingIn "alice")
    (Visit.visiting {| db := Scenario.registered 0; session := Session.empty |})
  = (Browser.Normal tt,
     {| App.client :=
          announce (cancelled (LoggingIn "alice")) "error"
            (announce (prompt (LoggingIn "alice")) "info"
               (App.count_fetch
                  (announce (starting (LoggingIn "alice")) "info"
                     (App.client
                        (Visit.visiting
                           {| db := Scenario.registered 0; session := Session.empty |})))));
        App.server := Scenario.at_login 0 "c2" |})
  /\ exists ch, options_challenge (Visit.offered "c2") = Some ch
                /\ Session.currentChallenge (session (Scenario.at_login 0 "c2")) = Some ch.
Proof.
  apply (@cancelled_ceremony_keeps_challenge Scenario.server Visit.dismissing
           (LoggingIn "alice")
           (Visit.visiting {| db := Scenario.registered 0; session := Session.empty |})
           (Visit.offered "c2") (Scenario.at_login 0 "c2")
           {| Browser.name := "NotAllowedError";
              Browser.message := "The operation was not allowed" |});
    reflexivity.
Defined.

(** Alice registers her passkey from the page and reloads the page. *)
Lemma reload_witness :
  exists st'',
    @App.checkSession Scenario.server Visit.online
      {| App.client := loaded Visit.blank;
         App.server :=
           App.server
             (snd (@perform Scenario.server Visit.online
                     (Registering "alice" "alice@example.com")
                     (Visit.visiting
                        {| db := Scenario.migrated; session := Session.empty |}))) |}
    = (Browser.Normal tt, st'')
    /\ App.currentUser (App.client st'')
       = Some {| App.id := Response.id (public_fields Scenario.alice);
                 App.username := Some (Response.username (public_fields Scenario.alice));
                 App.email := None |}
    /\ application_shown (App.client st'')
         (Some (Response.username (public_fields Scenario.alice)))
    /\ App.server st''
       = App.server
           (snd (@perform Scenario.server Visit.online
                   (Registering "alice" "alice@example.com")
                   (Visit.visiting
                      {| db := Scenario.migrated; session := Session.empty |}))).
Proof.
  apply (@reload_keeps_user_signed_in Scenario.server Visit.online
           (Registering "alice" "alice@example.com")
           (Visit.visiting {| db := Scenario.migrated; session := Session.empty |})
           (snd (@perform Scenario.server Visit.online
                   (Registering "alice" "alice@example.com")
                   (Visit.visiting
                      {| db := Scenario.migrated; session := Session.empty |})))
           (public_fields Scenario.alice) Visit.blank);
    try reflexivity; discriminate.
Defined.
